(** * model-router-framework: the selection engine and the resilient invoker

    A shallow embedding of [src/models.py], [src/utils/text_analysis.py],
    [src/router.py] and the two-operation interface of [src/providers/],
    followed by the properties of the routing specification.

    Conventions of the embedding.
    - Python [int] is [Z]; [Optional[T]] is [option T]; [Dict[str, V]] is
      [gmap string V]; [List[T]] is [list T].
    - Python [str] is [string]: one [ascii] per character, so the texts
      covered are those whose code points are below 256.  [len] is
      [String.length], [ord c < 128] is a test on the character code.
    - Python truthiness ([if x:], [x or d], [not x]) is written out for each
      type it is used at: [None], the empty string, the empty list and the
      integer 0 are false.
    - Exceptions are values: a function that can raise returns a [result].
    - The backends are the environment.  A run of the invoker threads a
      trace of the client calls and sleeps performed so far, and the answer
      of a backend is a function of that trace and of the call. *)

From Equations Require Import Equations.
From stdpp Require Import gmap strings list fin_maps pretty.
From Stdlib Require Import ZArith Ascii String Lia.

Local Open Scope string_scope.
Local Open Scope list_scope.
Local Open Scope Z_scope.

(** ** Python strings *)

Module Str.

(** [str.lower()] on one character: A-Z, and the upper-case letters of the
    Latin-1 block (0xC0-0xDE without the multiplication sign 0xD7), move
    up by 32; every other character below 256 is its own lower case. *)
Definition lower_char (c : ascii) : ascii :=
  let n := N_of_ascii c in
  if ((65 <=? n) && (n <=? 90) ||
      (192 <=? n) && (n <=? 222) && negb (n =? 215))%N
  then ascii_of_N (n + 32) else c.

Fixpoint lower (s : string) : string :=
  match s with
  | EmptyString => EmptyString
  | String c s' => String (lower_char c) (lower s')
  end.

(** [k in s] for two strings: [k] starts at some position of [s]. *)
Fixpoint contains (k s : string) : bool :=
  String.prefix k s ||
  match s with
  | EmptyString => false
  | String _ s' => contains k s'
  end.

(** [len(s)] *)
Definition len (s : string) : Z := Z.of_nat (String.length s).

(** [sum(1 for c in s if ord(c) < 128)] *)
Fixpoint count_ascii (s : string) : Z :=
  match s with
  | EmptyString => 0
  | String c s' =>
      (if (N_of_ascii c <? 128)%N then 1 else 0) + count_ascii s'
  end.

(** [str(n)] for an [int]. *)
Definition of_int (n : Z) : string := pretty n.

(** [repr(s)], which is also the text of [KeyError(s)].  The double quote
    is character 34. *)
Definition dquote : ascii := ascii_of_nat 34.

(** One digit of a [\xhh] escape: 0-9 then a-f. *)
Definition hex_digit (n : N) : ascii :=
  ascii_of_N (if (n <? 10)%N then 48 + n else 87 + n)%N.

(** The characters below 256 that [str.isprintable] refuses: the two
    blocks of control characters, the delete character, the no-break space
    and the soft hyphen. *)
Definition unprintable (n : N) : bool :=
  ((n <? 32) || (n =? 127) || (128 <=? n) && (n <=? 160) || (n =? 173))%N.

(** One character between the quotes: the quote in use and the backslash
    get a backslash, tab, line feed and carriage return their letter, any
    other unprintable character its two hexadecimal digits. *)
Definition repr_char (quote c : ascii) : string :=
  let n := N_of_ascii c in
  if Ascii.eqb c quote || Ascii.eqb c "\" then String "\" (String c "")
  else if (n =? 9)%N then "\t"
  else if (n =? 10)%N then "\n"
  else if (n =? 13)%N then "\r"
  else if unprintable n
  then "\x" +:+ String (hex_digit (n / 16)) (String (hex_digit (n mod 16)) "")
  else String c "".

Fixpoint repr_body (quote : ascii) (s : string) : string :=
  match s with
  | EmptyString => EmptyString
  | String c s' => repr_char quote c +:+ repr_body quote s'
  end.

(** The text goes between single quotes, unless it holds a single quote
    and no double quote: then between double quotes. *)
Definition repr (s : string) : string :=
  let quote :=
    if contains "'" s && negb (contains (String dquote "") s)
    then dquote else "'"%char in
  String quote (repr_body quote s +:+ String quote "").

End Str.

(** ** Exceptions and results *)

(** The classes of [Exception] that the router and the clients raise
    themselves, and [ProviderError] for any other one that comes out of a
    provider's SDK, under its name. *)
Inductive exc_class : Type :=
| KeyError | RuntimeError | ValueError | TypeError | OverflowError
| ThrottlingError | NotImplementedError
| ProviderError (name : string).

(** An exception value: its class and the text [str(exc)] yields. *)
Record exception : Type := Exc { exc_cls : exc_class; exc_str : string }.

Inductive result (A : Type) : Type :=
| Ok (a : A)
| Raise (e : exception).
Arguments Ok {A} a.
Arguments Raise {A} e.

(** ** Data model ([src/models.py]) *)

(** A value of a parameter dictionary ([Dict[str, Any]] read from JSON). *)
Inductive pyval : Type :=
| PyNone
| PyBool (b : bool)
| PyInt (n : Z)
| PyFloat (mantissa exponent10 : Z)
| PyStr (s : string).

Module RetryPolicy.
Record t : Type := mk { max_attempts : Z; backoff_ms : Z }.
(** The dataclass defaults. *)
Definition default : t := mk 2 200.
End RetryPolicy.

Module ModelConfig.
Record t : Type := mk {
  id : string;
  provider : string;
  type : string;
  model_id : string;
  max_context_tokens : option Z;
  max_chunk_tokens : option Z;
  languages : option (list string);
  strengths : option (list string);
  cost_tier : string;
  default_params : gmap string pyval;
  backup_model_id : option string;
  retry_policy : RetryPolicy.t
}.
End ModelConfig.

Module RuleConditionRange.
Record t : Type := mk { gte : option Z; lt : option Z }.
End RuleConditionRange.

Module RuleCondition.
Record t : Type := mk {
  task_type : option string;
  complexity : option string;
  language : option string;
  tenant_tiers : option (list string);
  context_tokens_range : option RuleConditionRange.t;
  chunk_tokens_range : option RuleConditionRange.t
}.
(** [RuleCondition()]: every field at its default [None]. *)
Definition default : t := mk None None None None None None.
End RuleCondition.

Module RoutingRule.
Record t : Type := mk {
  id : string;
  when : RuleCondition.t;
  use_model : string;
  override_params : gmap string pyval
}.
End RoutingRule.

Module RouterConfig.
Record t : Type := mk {
  models : gmap string ModelConfig.t;
  rules : list RoutingRule.t;
  default_chat_model_id : option string;
  default_embedding_model_id : option string
}.
End RouterConfig.

Module TaskDescriptor.
Record t : Type := mk {
  text : string;
  task_type : string;
  context_tokens : option Z;
  tenant_id : option string;
  tenant_tier : string;
  metadata : gmap string pyval
}.
End TaskDescriptor.

Module FeatureSummary.
Record t : Type := mk {
  task_type : string;
  token_count : Z;
  size_class : string;
  language : string;
  complexity : string;
  context_tokens : Z;
  tenant_tier : string
}.
End FeatureSummary.

Module ModelSelection.
Record t : Type := mk {
  model_config : ModelConfig.t;
  params : gmap string pyval
}.
End ModelSelection.

(** ** Truthiness *)

Definition truthy_str (o : option string) : bool :=
  match o with
  | Some s => negb (String.eqb s "")
  | None => false
  end.

Definition truthy_list {A} (o : option (list A)) : bool :=
  match o with
  | Some (_ :: _) => true
  | _ => false
  end.

Definition truthy_int (o : option Z) : bool :=
  match o with
  | Some n => negb (n =? 0)
  | None => false
  end.

(** ** Feature extraction ([src/utils/text_analysis.py]) *)

Definition estimate_tokens (text : string) : Z :=
  Z.max 1 (Str.len text / 4).

Definition classify_size (token_count : Z) : string :=
  if token_count <? 256 then "small"
  else if token_count <? 2048 then "medium"
  else "large".

(** [ratio = ascii_chars / max(1, len(text)); ratio > 0.8].  The quotient
    is compared exactly, as [5 * ascii_chars > 4 * max(1, len)]; the
    floating-point test of the source agrees with it for every text shorter
    than 2^50 characters. *)
Definition detect_language (text : string) : string :=
  let ascii_chars := Str.count_ascii text in
  if 4 * Z.max 1 (Str.len text) <? 5 * ascii_chars then "en" else "multi".

Definition estimate_complexity (text : string) : string :=
  let length := Str.len text in
  let lowercase := Str.lower text in
  if Str.contains "explain in detail" lowercase
     || Str.contains "architecture" lowercase then "high"
  else if 1000 <? length then "high"
  else if 300 <? length then "medium"
  else "low".

(** [x or 0] for an [Optional[int]]. *)
Definition or_zero (o : option Z) : Z :=
  if truthy_int o then default 0 o else 0.

Definition build_feature_summary (task : TaskDescriptor.t) : FeatureSummary.t :=
  let tokens := estimate_tokens (TaskDescriptor.text task) in
  let size_class := classify_size tokens in
  let language := detect_language (TaskDescriptor.text task) in
  let complexity := estimate_complexity (TaskDescriptor.text task) in
  let context_tokens := or_zero (TaskDescriptor.context_tokens task) in
  let tenant_tier := TaskDescriptor.tenant_tier task in
  FeatureSummary.mk (TaskDescriptor.task_type task) tokens size_class
    language complexity context_tokens tenant_tier.

(** ** The policy table and the Selector ([src/router.py]) *)

(** [o != s] for an [Optional[str]] and a [str]. *)
Definition differs (o : option string) (s : string) : bool :=
  match o with
  | Some x => negb (String.eqb x s)
  | None => true
  end.

(** [b is not None and v < b] *)
Definition below (v : Z) (b : option Z) : bool :=
  match b with
  | Some g => v <? g
  | None => false
  end.

(** [b is not None and v >= b] *)
Definition at_or_above (v : Z) (b : option Z) : bool :=
  match b with
  | Some l => l <=? v
  | None => false
  end.

Definition _rule_matches (rule : RoutingRule.t) (features : FeatureSummary.t)
  : bool :=
  let cond := RoutingRule.when rule in
  (* task_type *)
  if truthy_str (RuleCondition.task_type cond)
     && differs (RuleCondition.task_type cond)
                (FeatureSummary.task_type features)
  then false else
  (* complexity *)
  if truthy_str (RuleCondition.complexity cond)
     && differs (RuleCondition.complexity cond)
                (FeatureSummary.complexity features)
  then false else
  (* language *)
  if truthy_str (RuleCondition.language cond)
     && differs (RuleCondition.language cond)
                (FeatureSummary.language features)
  then false else
  (* tenant tier *)
  if truthy_list (RuleCondition.tenant_tiers cond)
     && negb (bool_decide (FeatureSummary.tenant_tier features
                             ∈ default [] (RuleCondition.tenant_tiers cond)))
  then false else
  (* context tokens *)
  if match RuleCondition.context_tokens_range cond with
     | Some r =>
         below (FeatureSummary.context_tokens features)
               (RuleConditionRange.gte r)
         || at_or_above (FeatureSummary.context_tokens features)
                        (RuleConditionRange.lt r)
     | None => false
     end
  then false else
  (* chunk tokens (for embedding) *)
  if match RuleCondition.chunk_tokens_range cond with
     | Some r =>
         below (FeatureSummary.token_count features)
               (RuleConditionRange.gte r)
         || at_or_above (FeatureSummary.token_count features)
                        (RuleConditionRange.lt r)
     | None => false
     end
  then false else
  true.

(** The two [ValueError]s of [_ensure_context_limit]: the specification's
    [CapacityExceededError]. *)
Definition context_exceeded (model_cfg : ModelConfig.t)
    (features : FeatureSummary.t) : exception :=
  Exc ValueError
    ("Context (" +:+ Str.of_int (FeatureSummary.context_tokens features)
     +:+ ") exceeds model max_context_tokens ("
     +:+ Str.of_int (default 0 (ModelConfig.max_context_tokens model_cfg))
     +:+ ") for model " +:+ ModelConfig.id model_cfg).

Definition chunk_exceeded (model_cfg : ModelConfig.t)
    (features : FeatureSummary.t) : exception :=
  Exc ValueError
    ("Chunk size (" +:+ Str.of_int (FeatureSummary.token_count features)
     +:+ ") exceeds model max_chunk_tokens ("
     +:+ Str.of_int (default 0 (ModelConfig.max_chunk_tokens model_cfg))
     +:+ ") for model " +:+ ModelConfig.id model_cfg).

Definition CapacityExceededError (e : exception) : Prop :=
  exists model_cfg features,
    e = context_exceeded model_cfg features
    \/ e = chunk_exceeded model_cfg features.

Definition _ensure_context_limit (model_cfg : ModelConfig.t)
    (features : FeatureSummary.t) : result unit :=
  if String.eqb (FeatureSummary.task_type features) "chat"
     && truthy_int (ModelConfig.max_context_tokens model_cfg)
     && (default 0 (ModelConfig.max_context_tokens model_cfg)
         <? FeatureSummary.context_tokens features)
  then Raise (context_exceeded model_cfg features)
  else
  if String.eqb (FeatureSummary.task_type features) "embedding"
     && truthy_int (ModelConfig.max_chunk_tokens model_cfg)
     && (default 0 (ModelConfig.max_chunk_tokens model_cfg)
         <? FeatureSummary.token_count features)
  then Raise (chunk_exceeded model_cfg features)
  else Ok tt.

(** [KeyError(key)]: its text is [repr(key)]. *)
Definition key_error (key : string) : exception :=
  Exc KeyError (Str.repr key).

(** [models[key]]: a missing key raises [KeyError]. *)
Definition getitem (models : gmap string ModelConfig.t) (key : string)
  : result ModelConfig.t :=
  match models !! key with
  | Some model_cfg => Ok model_cfg
  | None => Raise (key_error key)
  end.

(** The body of the [for] loop of [_select_model_for_features] once
    [_rule_matches] has answered [True]: lines 66 to 71. *)
Definition select_by_rule (config : RouterConfig.t) (rule : RoutingRule.t)
    (features : FeatureSummary.t) : result ModelSelection.t :=
  match getitem (RouterConfig.models config) (RoutingRule.use_model rule) with
  | Raise e => Raise e
  | Ok model_cfg =>
      (* dict(defaults) then update(overrides): the override wins *)
      let params := RoutingRule.override_params rule
                    ∪ ModelConfig.default_params model_cfg in
      match _ensure_context_limit model_cfg features with
      | Raise e => Raise e
      | Ok _ => Ok (ModelSelection.mk model_cfg params)
      end
  end.

(** The [for rule in self._config.rules] loop; [None] when it falls
    through without returning or raising. *)
Fixpoint try_rules (config : RouterConfig.t) (rules : list RoutingRule.t)
    (features : FeatureSummary.t) : option (result ModelSelection.t) :=
  match rules with
  | [] => None
  | rule :: rest =>
      if _rule_matches rule features
      then Some (select_by_rule config rule features)
      else try_rules config rest features
  end.

Definition no_default (features : FeatureSummary.t) : exception :=
  Exc RuntimeError ("No default model configured for task_type="
                    +:+ FeatureSummary.task_type features).

(** Lines 73 to 84: the fall-back to the defaults. *)
Definition select_default (config : RouterConfig.t)
    (features : FeatureSummary.t) : result ModelSelection.t :=
  let default_id :=
    if String.eqb (FeatureSummary.task_type features) "chat"
    then RouterConfig.default_chat_model_id config
    else RouterConfig.default_embedding_model_id config in
  if negb (truthy_str default_id) then Raise (no_default features)
  else
    match getitem (RouterConfig.models config) (default "" default_id) with
    | Raise e => Raise e
    | Ok model_cfg =>
        match _ensure_context_limit model_cfg features with
        | Raise e => Raise e
        | Ok _ =>
            Ok (ModelSelection.mk model_cfg
                  (ModelConfig.default_params model_cfg))
        end
    end.

Definition _select_model_for_features (config : RouterConfig.t)
    (features : FeatureSummary.t) : result ModelSelection.t :=
  match try_rules config (RouterConfig.rules config) features with
  | Some outcome => outcome
  | None => select_default config features
  end.

(** ** The Dispatcher and the provider clients ([src/providers/]) *)

Inductive provider_kind : Type := Bedrock | Anthropic | Gemini.

(** A provider client: what [BaseProviderClient.__init__] stores, and the
    class it is an instance of. *)
Record client : Type := Client {
  client_kind : provider_kind;
  client_model_id : string;
  client_params : gmap string pyval
}.

Definition unsupported_provider (model_cfg : ModelConfig.t) : exception :=
  Exc ValueError ("Unsupported provider: " +:+ ModelConfig.provider model_cfg).

Definition _create_provider_client (model_cfg : ModelConfig.t)
    (params : gmap string pyval) : result client :=
  if String.eqb (ModelConfig.provider model_cfg) "bedrock"
  then Ok (Client Bedrock (ModelConfig.model_id model_cfg) params)
  else if String.eqb (ModelConfig.provider model_cfg) "anthropic"
  then Ok (Client Anthropic (ModelConfig.model_id model_cfg) params)
  else if String.eqb (ModelConfig.provider model_cfg) "gemini"
  then Ok (Client Gemini (ModelConfig.model_id model_cfg) params)
  else Raise (unsupported_provider model_cfg).

(** One turn of a conversation: [{"role": ..., "content": ...}]. *)
Record message : Type := Message { role : string; content : string }.

(** What a caller hands to [chat] or to [embed]; the invoker passes it on
    as [func_arg] without looking at it. *)
Inductive argument : Type :=
| Messages (turns : list message)
| Text (text : string).

Inductive operation : Type := OpChat | OpEmbed.

(** A provider-specific response. *)
Inductive response : Type := Response (body : string).

(** One invocation of a client method. *)
Record call : Type := Call {
  call_client : client;
  call_op : operation;
  call_arg : argument
}.

(** What a run does to the outside world, oldest event first: client
    method invocations with their outcome, and blocking waits. *)
Inductive event : Type :=
| EvCall (c : call) (outcome : result response)
| EvSleep (ms : Z).

Definition trace : Type := list event.

(** The environment: the outcome of a call given everything that has
    happened before it. *)
Definition backend : Type := trace -> call -> result response.

(** A computation of the invoker: it reads and extends the trace. *)
Definition action (A : Type) : Type := trace -> A * trace.

Definition perform (be : backend) (c : call) : action (result response) :=
  fun tr => let outcome := be tr c in (outcome, tr ++ [EvCall c outcome]).

(** [chat] reaches the backend for each of the three providers; how a
    client converts the conversation for its SDK is part of the backend. *)
Definition client_chat (be : backend) (cl : client) (arg : argument)
  : action (result response) :=
  perform be (Call cl OpChat arg).

Definition embed_not_implemented (k : provider_kind) : exception :=
  Exc NotImplementedError
    match k with
    | Anthropic => "Embeddings not implemented for Anthropic"
    | _ => "Embeddings not implemented for Gemini"
    end.

(** [embed] reaches the backend for Bedrock only; the two other clients
    raise [NotImplementedError] on the spot. *)
Definition client_embed (be : backend) (cl : client) (arg : argument)
  : action (result response) :=
  match client_kind cl with
  | Bedrock => perform be (Call cl OpEmbed arg)
  | k => fun tr =>
      let outcome := Raise (embed_not_implemented k) in
      (outcome, tr ++ [EvCall (Call cl OpEmbed arg) outcome])
  end.

(** [time.sleep(ms / 1000.0)], for CPython on a 64-bit Linux.

    The quotient is a float: an [int] of magnitude [2^1024 - 2^970] or
    more rounds beyond the largest float, and the division raises
    [OverflowError].  [time.sleep] then converts the seconds to a signed
    64-bit count of nanoseconds: a magnitude of [2^63] nanoseconds or more
    raises [OverflowError] too.  For a whole number of milliseconds that
    is any magnitude above [sleep_limit_ms]: the rounding of the two float
    operations moves the count by a few thousand nanoseconds, the nearest
    whole millisecond is more than [10^11] nanoseconds away from [2^63].
    Only then is the sign looked at: a negative interval raises
    [ValueError].  Any other interval blocks and returns.

    The text of the second [OverflowError] is the one of CPython 3.8; it
    names a C type and has changed with the versions.  The invoker never
    reads the text of an exception of [time.sleep], and no property below
    depends on it. *)
Definition float_overflow : Z := 2 ^ 1024 - 2 ^ 970.

Definition sleep_limit_ms : Z := 9223372036854.

Definition int_too_large : exception :=
  Exc OverflowError "int too large to convert to float".

Definition timestamp_too_large : exception :=
  Exc OverflowError "timestamp too large to convert to C _PyTime_t".

Definition negative_sleep : exception :=
  Exc ValueError "sleep length must be non-negative".

(** The exception [time.sleep(ms / 1000.0)] raises, if any. *)
Definition sleep_refusal (ms : Z) : option exception :=
  if float_overflow <=? Z.abs ms then Some int_too_large
  else if sleep_limit_ms <? Z.abs ms then Some timestamp_too_large
  else if ms <? 0 then Some negative_sleep
  else None.

Definition sleep (ms : Z) : action (result unit) :=
  fun tr =>
    match sleep_refusal ms with
    | Some e => (Raise e, tr)
    | None => (Ok tt, tr ++ [EvSleep ms])
    end.

(** ** The Resilient Invoker ([src/router.py]) *)

Definition throttling_keywords : list string :=
  ["throttling"; "rate limit"; "too many requests"; "tokens per minute"].

Definition _is_throttling_error (exc : exception) : bool :=
  let msg := Str.lower (exc_str exc) in
  existsb (fun k => Str.contains k msg) throttling_keywords.

(** How a [while True] retry loop is left. *)
Inductive loop_exit : Type :=
| Returned (r : response)
| Raised (e : exception)
| Exhausted.

(** The retry loop, written twice in [_call_with_retry_and_fallback]:
<<
      while True:
          attempt += 1
          try: return ATTEMPT
          except Exception as e:
              if not self._is_throttling_error(e): raise
              if attempt >= POLICY.max_attempts: break
              time.sleep(POLICY.backoff_ms / 1000.0)
>>
    [attempt] is the counter on entry of an iteration.  The loop ends
    because the distance from the counter to [max_attempts] shrinks with
    every iteration that goes round. *)
Equations? retry_loop (attempt_once : action (result response))
    (policy : RetryPolicy.t) (attempt : Z) (tr : trace)
  : loop_exit * trace
  by wf (Z.to_nat (RetryPolicy.max_attempts policy - attempt)) lt :=
  retry_loop attempt_once policy attempt tr with attempt_once tr => {
    | (Ok r, tr1) := (Returned r, tr1);
    | (Raise e, tr1) with _is_throttling_error e => {
      | false := (Raised e, tr1);
      | true with Z_ge_dec (attempt + 1) (RetryPolicy.max_attempts policy) => {
        | left _ := (Exhausted, tr1);
        | right _ with sleep (RetryPolicy.backoff_ms policy) tr1 => {
          | (Raise e', tr2) := (Raised e', tr2);
          | (Ok _, tr2) := retry_loop attempt_once policy (attempt + 1) tr2 } } } }.
Proof. lia. Qed.

(** The three [ThrottlingError]s of the backup path ([ThrottlingError] is
    the class that the router imports from [utils/exceptions.py] and only
    ever constructs with a message).  The source tells them apart by their
    text; they are the specification's
    [ExhaustedNoBackupError], [BackupNotFoundError] and
    [BothExhaustedError]. *)
Definition ExhaustedNoBackupError (model_cfg : ModelConfig.t) : exception :=
  Exc ThrottlingError
    ("Primary model " +:+ ModelConfig.id model_cfg
     +:+ " throttled and no backup_model_id configured").

Definition BackupNotFoundError (model_cfg : ModelConfig.t) : exception :=
  Exc ThrottlingError
    ("Backup model " +:+ default "" (ModelConfig.backup_model_id model_cfg)
     +:+ " for " +:+ ModelConfig.id model_cfg +:+ " not found in config").

Definition BothExhaustedError (model_cfg backup_cfg : ModelConfig.t)
  : exception :=
  Exc ThrottlingError
    ("Primary model " +:+ ModelConfig.id model_cfg +:+ " and backup "
     +:+ ModelConfig.id backup_cfg +:+ " both throttled").

(** The body of the [try] of the backup loop: the operation is picked by
    the type of the backup model. *)
Definition backup_attempt (be : backend) (backup_cfg : ModelConfig.t)
    (backup_client : client) (func_arg : argument)
  : action (result response) :=
  if String.eqb (ModelConfig.type backup_cfg) "chat"
  then client_chat be backup_client func_arg
  else client_embed be backup_client func_arg.

(** Part 2 of [_call_with_retry_and_fallback], lines 167 to 201: entered
    when the primary loop is left by [break]. *)
Definition fallback (config : RouterConfig.t) (be : backend)
    (model_cfg : ModelConfig.t) (func_arg : argument)
  : action (result response) :=
  fun tr =>
  if negb (truthy_str (ModelConfig.backup_model_id model_cfg))
  then (Raise (ExhaustedNoBackupError model_cfg), tr)
  else
    match RouterConfig.models config
          !! default "" (ModelConfig.backup_model_id model_cfg) with
    | None => (Raise (BackupNotFoundError model_cfg), tr)
    | Some backup_cfg =>
        (* Use same base params, but from backup config defaults *)
        let backup_params := ModelConfig.default_params backup_cfg in
        let backup_selection := ModelSelection.mk backup_cfg backup_params in
        match _create_provider_client backup_cfg backup_params with
        | Raise e => (Raise e, tr)
        | Ok backup_client =>
            match retry_loop
                    (backup_attempt be backup_cfg backup_client func_arg)
                    (ModelConfig.retry_policy backup_cfg) 0 tr with
            | (Returned r, tr') => (Ok r, tr')
            | (Raised e, tr') => (Raise e, tr')
            | (Exhausted, tr') =>
                (Raise (BothExhaustedError model_cfg backup_cfg), tr')
            end
        end
    end.

Definition _call_with_retry_and_fallback (config : RouterConfig.t)
    (be : backend) (selection : ModelSelection.t)
    (func : argument -> action (result response)) (func_arg : argument)
  : action (result response) :=
  fun tr =>
  let model_cfg := ModelSelection.model_config selection in
  let policy := ModelConfig.retry_policy model_cfg in
  (* 1) Retry primary model *)
  match retry_loop (func func_arg) policy 0 tr with
  | (Returned r, tr') => (Ok r, tr')
  | (Raised e, tr') => (Raise e, tr')
  | (Exhausted, tr') =>
      (* 2) Fallback to backup model if configured *)
      fallback config be model_cfg func_arg tr'
  end.

(** ** The call handle ([ModelHandle] of [src/models.py]) *)

Module ModelHandle.

Record t : Type := mk {
  selection : ModelSelection.t;
  provider_client : client;
  router : RouterConfig.t
}.

Definition chat_type_error : exception :=
  Exc TypeError "ModelHandle.chat() called on non-chat model".

Definition embed_type_error : exception :=
  Exc TypeError "ModelHandle.embed() called on non-embedding model".

Definition chat (be : backend) (self : t) (messages : list message)
  : action (result response) :=
  fun tr =>
  if negb (String.eqb
             (ModelConfig.type (ModelSelection.model_config (selection self)))
             "chat")
  then (Raise chat_type_error, tr)
  else _call_with_retry_and_fallback (router self) be (selection self)
         (client_chat be (provider_client self)) (Messages messages) tr.

Definition embed (be : backend) (self : t) (text : string)
  : action (result response) :=
  fun tr =>
  if negb (String.eqb
             (ModelConfig.type (ModelSelection.model_config (selection self)))
             "embedding")
  then (Raise embed_type_error, tr)
  else _call_with_retry_and_fallback (router self) be (selection self)
         (client_embed be (provider_client self)) (Text text) tr.

End ModelHandle.

(** ** The public entry point ([ModelRouter.select_model]) *)

Definition select_model (config : RouterConfig.t) (text : string)
    (task_type : string) (context_tokens : option Z)
    (tenant_id : option string) (tenant_tier : string)
    (metadata : option (gmap string pyval)) : result ModelHandle.t :=
  let task := TaskDescriptor.mk text task_type context_tokens tenant_id
                tenant_tier (default ∅ metadata) in
  let features := build_feature_summary task in
  match _select_model_for_features config features with
  | Raise e => Raise e
  | Ok selection =>
      match _create_provider_client (ModelSelection.model_config selection)
              (ModelSelection.params selection) with
      | Raise e => Raise e
      | Ok provider_client =>
          Ok (ModelHandle.mk selection provider_client config)
      end
  end.

(** * The vocabulary of the properties *)

(** The reading of "set" under which the source's test is the matching
    rule: a string field is set when it holds a non-empty string, the tier
    field when it holds a non-empty list, a range field when it holds a
    range object; a bound of a range when it is not [None].  [None], the
    empty string and the empty list of tiers are all unset. *)
Definition set_to {A} (empty : A) (o : option A) (v : A) : Prop :=
  o = Some v /\ v <> empty.

Definition unset {A} (empty : A) (o : option A) : Prop :=
  forall v, ~ set_to empty o v.

(** [gte] is an inclusive lower bound and [lt] an exclusive upper bound. *)
Definition within (r : RuleConditionRange.t) (v : Z) : Prop :=
  (forall g, RuleConditionRange.gte r = Some g -> g <= v) /\
  (forall l, RuleConditionRange.lt r = Some l -> v < l).

(** The matching rule as the specification words it, a field being set
    when it holds a value, whatever the value: every set field of the
    condition agrees with the feature summary. *)
Definition rule_matches_as_stated (cond : RuleCondition.t)
    (features : FeatureSummary.t) : Prop :=
  (forall k, RuleCondition.task_type cond = Some k ->
             FeatureSummary.task_type features = k) /\
  (forall c, RuleCondition.complexity cond = Some c ->
             FeatureSummary.complexity features = c) /\
  (forall l, RuleCondition.language cond = Some l ->
             FeatureSummary.language features = l) /\
  (forall ts, RuleCondition.tenant_tiers cond = Some ts ->
              FeatureSummary.tenant_tier features ∈ ts) /\
  (forall r, RuleCondition.context_tokens_range cond = Some r ->
             within r (FeatureSummary.context_tokens features)) /\
  (forall r, RuleCondition.chunk_tokens_range cond = Some r ->
             within r (FeatureSummary.token_count features)).

(** The matching rule with the empty string and the empty list of tiers
    counted as unset: every field set to a non-empty value agrees with the
    feature summary. *)
Definition spec_rule_matches (cond : RuleCondition.t)
    (features : FeatureSummary.t) : Prop :=
  (forall k, set_to "" (RuleCondition.task_type cond) k ->
             FeatureSummary.task_type features = k) /\
  (forall c, set_to "" (RuleCondition.complexity cond) c ->
             FeatureSummary.complexity features = c) /\
  (forall l, set_to "" (RuleCondition.language cond) l ->
             FeatureSummary.language features = l) /\
  (forall ts, set_to [] (RuleCondition.tenant_tiers cond) ts ->
              FeatureSummary.tenant_tier features ∈ ts) /\
  (forall r, RuleCondition.context_tokens_range cond = Some r ->
             within r (FeatureSummary.context_tokens features)) /\
  (forall r, RuleCondition.chunk_tokens_range cond = Some r ->
             within r (FeatureSummary.token_count features)).

(** A condition none of whose fields is set. *)
Definition all_wildcard (cond : RuleCondition.t) : Prop :=
  unset "" (RuleCondition.task_type cond) /\
  unset "" (RuleCondition.complexity cond) /\
  unset "" (RuleCondition.language cond) /\
  unset [] (RuleCondition.tenant_tiers cond) /\
  RuleCondition.context_tokens_range cond = None /\
  RuleCondition.chunk_tokens_range cond = None.

(** The rule that wins: the first one of the table that matches. *)
Definition winner (rules : list RoutingRule.t) (features : FeatureSummary.t)
  : option RoutingRule.t :=
  List.find (fun rule => _rule_matches rule features) rules.

(** The table with its list of rules replaced. *)
Definition with_rules (config : RouterConfig.t) (rules : list RoutingRule.t)
  : RouterConfig.t :=
  RouterConfig.mk (RouterConfig.models config) rules
    (RouterConfig.default_chat_model_id config)
    (RouterConfig.default_embedding_model_id config).

(** The capacity boundary of a chat-kind request as the specification
    words it, for a target whose declared max context size is [limit]. *)
Definition max_is_enforced_as_stated (model_cfg : ModelConfig.t)
    (limit : Z) : Prop :=
  ModelConfig.max_context_tokens model_cfg = Some limit ->
  forall features,
    FeatureSummary.task_type features = "chat" ->
    (FeatureSummary.context_tokens features = limit ->
     _ensure_context_limit model_cfg features = Ok tt) /\
    (FeatureSummary.context_tokens features = limit + 1 ->
     exists e, _ensure_context_limit model_cfg features = Raise e /\
               CapacityExceededError e).

(** The number of client calls, and of waits, in a stretch of trace. *)
Fixpoint attempts (evs : trace) : Z :=
  match evs with
  | [] => 0
  | EvCall _ _ :: rest => 1 + attempts rest
  | EvSleep _ :: rest => attempts rest
  end.

Fixpoint waits (evs : trace) : Z :=
  match evs with
  | [] => 0
  | EvCall _ _ :: rest => waits rest
  | EvSleep _ :: rest => 1 + waits rest
  end.

(** An attempt is one client call, of a call among [P], recorded with the
    outcome it had. *)
Definition calls_in (P : call -> Prop) (act : action (result response))
  : Prop :=
  forall tr, exists c out, P c /\ act tr = (out, tr ++ [EvCall c out]).

Definition single_call (act : action (result response)) : Prop :=
  calls_in (fun _ => True) act.

(** An event of a loop whose attempts are calls among [P] and whose waits
    last [ms]. *)
Definition loop_event (P : call -> Prop) (ms : Z) (ev : event) : Prop :=
  match ev with
  | EvCall c _ => P c
  | EvSleep ms' => ms' = ms
  end.




(** The events of one run of the loop, and how the run ends: with the
    outcome of the last attempt, or with the exception of a wait that
    [time.sleep] refused. *)
Inductive loop_trace : trace -> loop_exit -> Prop :=
| run_returned c r :
    loop_trace [EvCall c (Ok r)] (Returned r)
| run_fatal c e :
    _is_throttling_error e = false ->
    loop_trace [EvCall c (Raise e)] (Raised e)
| run_exhausted c e :
    _is_throttling_error e = true ->
    loop_trace [EvCall c (Raise e)] Exhausted
| run_sleep_failed c e ms e' :
    _is_throttling_error e = true ->
    sleep_refusal ms = Some e' ->
    loop_trace [EvCall c (Raise e)] (Raised e')
| run_retry c e ms evs ex :
    _is_throttling_error e = true ->
    loop_trace evs ex ->
    loop_trace (EvCall c (Raise e) :: EvSleep ms :: evs) ex.

(** In a stretch of trace, only throttled calls are followed by anything,
    and a call that raised an error which is not throttling-classified is
    the last event, its error being the result of the run. *)
Definition retried_only_if_throttled (evs : trace) (res : result response)
  : Prop :=
  forall pre c out post,
    evs = pre ++ EvCall c out :: post ->
    (post <> [] -> exists e, out = Raise e /\ _is_throttling_error e = true) /\
    (forall e, out = Raise e -> _is_throttling_error e = false ->
               post = [] /\ res = Raise e).

(** What the invoker hands back when a loop is left by [return] or by an
    exception; [on_break] is what follows a [break]. *)
Definition finish (ex : loop_exit) (tr : trace)
    (on_break : result response * trace) : result response * trace :=
  match ex with
  | Returned r => (Ok r, tr)
  | Raised e => (Raise e, tr)
  | Exhausted => on_break
  end.

(** The call that the backup loop attempts. *)
Definition backup_call (backup_cfg : ModelConfig.t) (cl : client)
    (arg : argument) : call :=
  Call cl (if String.eqb (ModelConfig.type backup_cfg) "chat"
           then OpChat else OpEmbed) arg.

(** [k] occurs in [s]. *)
Definition occurs_in (k s : string) : Prop :=
  exists pre post, s = pre +:+ k +:+ post.


(** The "if" half of "an error is retried if and only if it is
    throttling-classified", as the claim words it, for a loop under
    [policy]: a throttling-classified error met while an attempt remains
    is followed by the wait and by the next attempt. *)
Definition throttling_is_retried_as_stated (policy : RetryPolicy.t) : Prop :=
  forall (act : action (result response)) (attempt : Z) (tr : trace)
         (e : exception) (tr1 : trace),
    act tr = (Raise e, tr1) ->
    _is_throttling_error e = true ->
    attempt + 1 < RetryPolicy.max_attempts policy ->
    retry_loop act policy attempt tr
    = retry_loop act policy (attempt + 1)
        (tr1 ++ [EvSleep (RetryPolicy.backoff_ms policy)]).

(** * Two policy tables and some backends *)

Module Example1.

Definition strong : ModelConfig.t :=
  ModelConfig.mk "model-strong" "bedrock" "chat" "strong-v1" (Some 4096) None
    None None "high" {[ "temperature" := PyFloat 2 (-1) ]} None
    RetryPolicy.default.

Definition cheap : ModelConfig.t :=
  ModelConfig.mk "model-default" "bedrock" "chat" "cheap-v1" None None
    None None "low" ∅ None RetryPolicy.default.

Definition premium_rule : RoutingRule.t :=
  RoutingRule.mk "premium-high"
    (RuleCondition.mk None (Some "high") None (Some ["premium"]) None None)
    "model-strong" {[ "max_tokens" := PyInt 2048 ]}.

Definition catch_all : RoutingRule.t :=
  RoutingRule.mk "catch-all" RuleCondition.default "model-default" ∅.

Definition table : RouterConfig.t :=
  RouterConfig.mk {[ "model-strong" := strong; "model-default" := cheap ]}
    [premium_rule; catch_all] (Some "model-default") None.

Definition request : FeatureSummary.t :=
  FeatureSummary.mk "chat" 12 "small" "en" "high" 0 "premium".

(** A rule whose list of tenant tiers is there and empty. *)
Definition no_tier_rule : RoutingRule.t :=
  RoutingRule.mk "no-tier"
    (RuleCondition.mk None None None (Some []) None None) "model-strong" ∅.

(** A chat model whose declared max context size is 0. *)
Definition zero : ModelConfig.t :=
  ModelConfig.mk "model-zero" "bedrock" "chat" "zero-v1" (Some 0) None
    None None "low" ∅ None RetryPolicy.default.

End Example1.

Module Example2.

Definition primary : ModelConfig.t :=
ModelConfig.mk "model-primary" "anthropic" "chat" "claude-x" (Some 4096) None
  None None "high" {[ "temperature" := PyFloat 3 (-1) ]}
  (Some "model-backup") (RetryPolicy.mk 2 200).

Definition backup : ModelConfig.t :=
ModelConfig.mk "model-backup" "bedrock" "chat" "nova-lite" None None
  None None "low" {[ "max_tokens" := PyInt 512 ]} None (RetryPolicy.mk 3 50).

Definition embedder : ModelConfig.t :=
ModelConfig.mk "model-embed" "bedrock" "embedding" "titan-embed" None
  (Some 8192) None None "low" ∅ None (RetryPolicy.mk 1 100).

(** A chat model without backup whose policy asks for no attempt at all. *)
Definition lonely : ModelConfig.t :=
ModelConfig.mk "model-lonely" "bedrock" "chat" "nova-micro" None None
  None None "low" ∅ None (RetryPolicy.mk 0 200).

(** A chat model whose backup id is not in the table. *)
Definition dangling : ModelConfig.t :=
ModelConfig.mk "model-dangling" "bedrock" "chat" "nova-pro" None None
  None None "medium" ∅ (Some "model-gone") (RetryPolicy.mk 1 200).

(** A chat model whose backup is an embedding model. *)
Definition crossed : ModelConfig.t :=
ModelConfig.mk "model-crossed" "bedrock" "chat" "nova-pro" None None
  None None "medium" ∅ (Some "model-embed") (RetryPolicy.mk 1 200).

Definition hot_rule : RoutingRule.t :=
RoutingRule.mk "premium" (RuleCondition.mk (Some "chat") None None
                            (Some ["premium"]) None None)
  "model-primary" {[ "temperature" := PyFloat 9 (-1) ]}.

Definition table : RouterConfig.t :=
RouterConfig.mk
  {[ "model-primary" := primary; "model-backup" := backup;
     "model-embed" := embedder; "model-lonely" := lonely;
     "model-dangling" := dangling; "model-crossed" := crossed ]}
  [hot_rule] (Some "model-crossed") (Some "model-embed").

Definition throttled : exception :=
Exc (ProviderError "ClientError")
  "An error occurred (ThrottlingException): Rate limit exceeded".

Definition denied : exception :=
Exc (ProviderError "ClientError")
  "An error occurred (AccessDeniedException): not authorized".

(** Every call is throttled. *)
Definition always_throttling : backend := fun _ _ => Raise throttled.


(** Every [chat] is throttled, every [embed] answers. *)
Definition chat_throttling : backend :=
fun _ c =>
  match call_op c with
  | OpChat => Raise throttled
  | OpEmbed => Ok (Response "[0.12, -0.07]")
  end.

(** Every call is refused for good. *)
Definition always_denying : backend := fun _ _ => Raise denied.

Definition hello : list message := [Message "user" "ping"].

Definition selection_of (model_cfg : ModelConfig.t) : ModelSelection.t :=
ModelSelection.mk model_cfg (ModelConfig.default_params model_cfg).

Definition bedrock_client_of (model_cfg : ModelConfig.t) : client :=
Client Bedrock (ModelConfig.model_id model_cfg)
  (ModelConfig.default_params model_cfg).

Definition handle_of (model_cfg : ModelConfig.t) : ModelHandle.t :=
ModelHandle.mk (selection_of model_cfg) (bedrock_client_of model_cfg) table.

(** The handle that [select_model] builds for a premium chat request:
  the rule's override of the temperature is in its parameters. *)
Definition premium_handle : ModelHandle.t :=
ModelHandle.mk
  (ModelSelection.mk primary {[ "temperature" := PyFloat 9 (-1) ]})
  (Client Anthropic "claude-x" {[ "temperature" := PyFloat 9 (-1) ]})
  table.

End Example2.

(** * More of the code: vocabulary *)

(** The number of characters of a text that are not ASCII. *)
Definition count_other (s : string) : Z := Str.len s - Str.count_ascii s.

(** The backup target of a model, when its id is configured and in the
    table. *)
Definition backup_of (config : RouterConfig.t) (model_cfg : ModelConfig.t)
  : option ModelConfig.t :=
  if truthy_str (ModelConfig.backup_model_id model_cfg)
  then RouterConfig.models config
       !! default "" (ModelConfig.backup_model_id model_cfg)
  else None.

(** The most attempts that a target's own retry policy allows. *)
Definition attempt_budget (model_cfg : ModelConfig.t) : Z :=
  Z.max 1 (RetryPolicy.max_attempts (ModelConfig.retry_policy model_cfg)).

(** A model with another backup id, and a table with other models. *)
Definition with_backup_model_id (model_cfg : ModelConfig.t)
    (backup_model_id : option string) : ModelConfig.t :=
  ModelConfig.mk (ModelConfig.id model_cfg) (ModelConfig.provider model_cfg)
    (ModelConfig.type model_cfg) (ModelConfig.model_id model_cfg)
    (ModelConfig.max_context_tokens model_cfg)
    (ModelConfig.max_chunk_tokens model_cfg)
    (ModelConfig.languages model_cfg) (ModelConfig.strengths model_cfg)
    (ModelConfig.cost_tier model_cfg) (ModelConfig.default_params model_cfg)
    backup_model_id (ModelConfig.retry_policy model_cfg).

Definition with_models (config : RouterConfig.t)
    (models : gmap string ModelConfig.t) : RouterConfig.t :=
  RouterConfig.mk models (RouterConfig.rules config)
    (RouterConfig.default_chat_model_id config)
    (RouterConfig.default_embedding_model_id config).


(** * More of the code: what the clients hand to their SDK
    ([src/providers/])

    Each [chat] builds a request from the conversation and from the
    parameters of the client, and passes it to the SDK of its provider.
    The request is built here; the SDK call is the backend's.  A turn is a
    [message], which has its two keys: [m.get("role", "user")] and
    [m["role"]] read the same on it. *)

(** [params.get(key, fallback)] *)
Definition params_get (params : gmap string pyval) (key : string)
    (fallback : pyval) : pyval :=
  default fallback (params !! key).

(** [sep.join(parts)] *)
Fixpoint join (sep : string) (parts : list string) : string :=
  match parts with
  | [] => ""
  | [part] => part
  | part :: rest => part +:+ sep +:+ join sep rest
  end.

(** The line feed, ["\n"]. *)
Definition newline : string := String (ascii_of_nat 10) "".

Module Converse.

(** An entry of [bedrock_messages]:
    [{"role": role, "content": [{"text": content}]}]. *)
Record turn : Type := Turn { turn_role : string; turn_text : string }.

(** [body_kwargs]; [system] is the list of the texts of the
    [{"text": content}] blocks, and is absent when there is none. *)
Record request : Type := Request {
  modelId : string;
  messages : list turn;
  inferenceConfig : gmap string pyval;
  system : option (list string)
}.

End Converse.

(** The body of the [for m in messages] loop of [BedrockProviderClient.chat],
    on the two lists it appends to. *)
Definition bedrock_collect (lists : list Converse.turn * list string)
    (m : message) : list Converse.turn * list string :=
  let '(bedrock_messages, system_prompts) := lists in
  if String.eqb (role m) "system"
  then (bedrock_messages, system_prompts ++ [content m])
  else (bedrock_messages ++ [Converse.Turn (role m) (content m)],
        system_prompts).

Definition bedrock_chat_request (self : client) (messages : list message)
  : Converse.request :=
  let '(bedrock_messages, system_prompts) :=
    fold_left bedrock_collect messages ([], []) in
  let inference_config : gmap string pyval :=
    {[ "maxTokens" := params_get (client_params self) "max_tokens" (PyInt 4096);
       "temperature" :=
         params_get (client_params self) "temperature" (PyFloat 2 (-1)) ]} in
  let inference_config :=
    if negb (Str.contains "sonnet-4-5" (client_model_id self))
    then <[ "topP" := params_get (client_params self) "top_p" (PyFloat 8 (-1)) ]>
           inference_config
    else inference_config in
  Converse.Request (client_model_id self) bedrock_messages inference_config
    match system_prompts with
    | [] => None
    | _ => Some system_prompts
    end.

Module ClaudeRequest.

(** The arguments of [messages.create]. *)
Record t : Type := mk {
  model : string;
  max_tokens : pyval;
  temperature : pyval;
  top_p : pyval;
  messages : list message
}.

End ClaudeRequest.

(** The body of the [for m in messages] loop of
    [AnthropicProviderClient.chat]. *)
Definition anthropic_collect (claude_messages : list message) (m : message)
  : list message :=
  if String.eqb (role m) "user"
  then claude_messages ++ [Message "user" (content m)]
  else if String.eqb (role m) "assistant"
  then claude_messages ++ [Message "assistant" (content m)]
  else claude_messages.

Definition anthropic_chat_request (self : client) (messages : list message)
  : ClaudeRequest.t :=
  let claude_messages := fold_left anthropic_collect messages [] in
  ClaudeRequest.mk (client_model_id self)
    (params_get (client_params self) "max_tokens" (PyInt 4096))
    (params_get (client_params self) "temperature" (PyFloat 3 (-1)))
    (params_get (client_params self) "top_p" (PyFloat 9 (-1)))
    claude_messages.

Module GenerateContent.

(** The arguments of [generate_content]. *)
Record t : Type := mk {
  prompt : string;
  generation_config : gmap string pyval
}.

End GenerateContent.

Definition gemini_chat_request (self : client) (messages : list message)
  : GenerateContent.t :=
  let content :=
    join newline (map (fun m => role m +:+ ": " +:+ content m) messages) in
  GenerateContent.mk content
    {[ "temperature" :=
         params_get (client_params self) "temperature" (PyFloat 2 (-1));
       "top_p" := params_get (client_params self) "top_p" (PyFloat 8 (-1));
       "max_output_tokens" :=
         params_get (client_params self) "max_tokens" (PyInt 4096) ]}.

(** How a conversation reads: its system turn and the two turns that
    follow. *)
Definition briefing : list message :=
  [Message "system" "Answer in one word.";
   Message "user" "Capital of France?";
   Message "assistant" "Paris."].

(** * More of the code: the configuration loader ([src/config_loader.py])

    [get_config] reads two JSON documents and builds the policy table from
    them.  Reading (from S3 or from the file system) is the environment's;
    what is modelled is the construction of the table from the documents,
    and the cache. *)

Set Warnings "-register-all".

(** A JSON document, as [json.loads] returns it. *)
Inductive json : Type :=
| JNull
| JBool (b : bool)
| JInt (n : Z)
| JFloat (mantissa exponent10 : Z)
| JStr (s : string)
| JArr (items : list json)
| JObj (fields : gmap string json).

(** The outcome of building a value from a document: the value; the
    exception that the source raises for a missing key; or [Untyped], when
    the document holds, where the source expects an object, an array or a
    value of the annotated type, something else.  The source stores an
    ill-typed scalar as it is, or fails on it in a way that depends on the
    value; the data model here is typed and says nothing in that case. *)
Inductive loaded (A : Type) : Type :=
| Loaded (a : A)
| Failed (e : exception)
| Untyped.
Arguments Loaded {A} a.
Arguments Failed {A} e.
Arguments Untyped {A}.

#[global] Instance loaded_bind : MBind loaded :=
  fun A B k x =>
    match x with
    | Loaded a => k a
    | Failed e => Failed e
    | Untyped => Untyped
    end.

(** [d[key]] *)
Definition item (d : gmap string json) (key : string) : loaded json :=
  match d !! key with
  | Some v => Loaded v
  | None => Failed (key_error key)
  end.

(** [d.get(key)] and [d.get(key, fallback)] *)
Definition get (d : gmap string json) (key : string) : json :=
  default JNull (d !! key).

Definition get_or (d : gmap string json) (key : string) (fallback : json)
  : json :=
  default fallback (d !! key).

(** [if v:] for a JSON value. *)
Definition json_truthy (v : json) : bool :=
  match v with
  | JNull => false
  | JBool b => b
  | JInt n => negb (n =? 0)
  | JFloat mantissa _ => negb (mantissa =? 0)
  | JStr s => negb (String.eqb s "")
  | JArr items => match items with [] => false | _ => true end
  | JObj fields => negb (bool_decide (fields = ∅))
  end.

(** A value at the type that a field of the data model is annotated with. *)
Definition as_str (v : json) : loaded string :=
  match v with JStr s => Loaded s | _ => Untyped end.

Definition as_int (v : json) : loaded Z :=
  match v with JInt n => Loaded n | _ => Untyped end.

Definition as_opt_str (v : json) : loaded (option string) :=
  match v with JNull => Loaded None | JStr s => Loaded (Some s) | _ => Untyped end.

Definition as_opt_int (v : json) : loaded (option Z) :=
  match v with JNull => Loaded None | JInt n => Loaded (Some n) | _ => Untyped end.

Fixpoint as_strs (items : list json) : loaded (list string) :=
  match items with
  | [] => Loaded []
  | v :: rest => s ← as_str v; strs ← as_strs rest; Loaded (s :: strs)
  end.

Definition as_opt_strs (v : json) : loaded (option (list string)) :=
  match v with
  | JNull => Loaded None
  | JArr items => strs ← as_strs items; Loaded (Some strs)
  | _ => Untyped
  end.

Definition as_pyval (v : json) : option pyval :=
  match v with
  | JNull => Some PyNone
  | JBool b => Some (PyBool b)
  | JInt n => Some (PyInt n)
  | JFloat mantissa exponent10 => Some (PyFloat mantissa exponent10)
  | JStr s => Some (PyStr s)
  | JArr _ | JObj _ => None
  end.

Definition as_params (v : json) : loaded (gmap string pyval) :=
  match v with
  | JObj d =>
      if bool_decide (map_Forall (fun _ x => is_Some (as_pyval x)) d)
      then Loaded (omap as_pyval d)
      else Untyped
  | _ => Untyped
  end.

(** The body of [for m in models_data.get("models", [])] up to the
    construction of [cfg]: lines 74 to 92. *)
Definition load_model (m : json) : loaded ModelConfig.t :=
  match m with
  | JObj m =>
      match get_or m "retry_policy" (JObj ∅) with
      | JObj retry_raw =>
          let max_attempts := get_or retry_raw "max_attempts" (JInt 2) in
          let backoff_ms := get_or retry_raw "backoff_ms" (JInt 200) in
          id ← item m "id";
          provider ← item m "provider";
          type ← item m "type";
          model_id ← item m "model_id";
          (* what the two constructors store, at the types of the fields *)
          max_attempts ← as_int max_attempts;
          backoff_ms ← as_int backoff_ms;
          id ← as_str id;
          provider ← as_str provider;
          type ← as_str type;
          model_id ← as_str model_id;
          max_context_tokens ← as_opt_int (get m "max_context_tokens");
          max_chunk_tokens ← as_opt_int (get m "max_chunk_tokens");
          languages ← as_opt_strs (get m "languages");
          strengths ← as_opt_strs (get m "strengths");
          cost_tier ← as_str (get_or m "cost_tier" (JStr "medium"));
          default_params ← as_params (get_or m "default_params" (JObj ∅));
          backup_model_id ← as_opt_str (get m "backup_model_id");
          Loaded (ModelConfig.mk id provider type model_id max_context_tokens
                    max_chunk_tokens languages strengths cost_tier
                    default_params backup_model_id
                    (RetryPolicy.mk max_attempts backoff_ms))
      | _ => Untyped
      end
  | _ => Untyped
  end.

(** One round of the loop over the models: [models_dict[cfg.id] = cfg]. *)
Definition add_model (models_dict : loaded (gmap string ModelConfig.t))
    (m : json) : loaded (gmap string ModelConfig.t) :=
  models_dict ← models_dict;
  cfg ← load_model m;
  Loaded (<[ModelConfig.id cfg := cfg]> models_dict).

Definition load_models (models_data : json)
  : loaded (gmap string ModelConfig.t) :=
  match models_data with
  | JObj d =>
      match get_or d "models" (JArr []) with
      | JArr items => fold_left add_model items (Loaded ∅)
      | _ => Untyped
      end
  | _ => Untyped
  end.

(** [RuleConditionRange(...) if raw else None], before the bounds are
    looked at as integers. *)
Definition range_bounds (raw : json) : loaded (option (json * json)) :=
  if json_truthy raw then
    match raw with
    | JObj d => Loaded (Some (get d "gte", get d "lt"))
    | _ => Untyped
    end
  else Loaded None.

Definition as_range (bounds : option (json * json))
  : loaded (option RuleConditionRange.t) :=
  match bounds with
  | Some (gte, lt) =>
      gte ← as_opt_int gte; lt ← as_opt_int lt;
      Loaded (Some (RuleConditionRange.mk gte lt))
  | None => Loaded None
  end.

(** The body of [for r in rules_data.get("rules", [])] up to the
    construction of [rule]: lines 97 to 123. *)
Definition load_rule (r : json) : loaded RoutingRule.t :=
  match r with
  | JObj r =>
      match get_or r "when" (JObj ∅) with
      | JObj cond_raw =>
          ctx_range ← range_bounds (get cond_raw "context_tokens");
          chunk_range ← range_bounds (get cond_raw "chunk_tokens");
          id ← item r "id";
          use_model ← item r "use_model";
          (* what the constructors store, at the types of the fields *)
          task_type ← as_opt_str (get cond_raw "task_type");
          complexity ← as_opt_str (get cond_raw "complexity");
          language ← as_opt_str (get cond_raw "language");
          tenant_tiers ← as_opt_strs (get cond_raw "tenant_tier");
          context_tokens_range ← as_range ctx_range;
          chunk_tokens_range ← as_range chunk_range;
          id ← as_str id;
          use_model ← as_str use_model;
          override_params ← as_params (get_or r "override_params" (JObj ∅));
          Loaded (RoutingRule.mk id
                    (RuleCondition.mk task_type complexity language
                       tenant_tiers context_tokens_range chunk_tokens_range)
                    use_model override_params)
      | _ => Untyped
      end
  | _ => Untyped
  end.

(** One round of the loop over the rules: [rules.append(rule)]. *)
Definition add_rule (rules : loaded (list RoutingRule.t)) (r : json)
  : loaded (list RoutingRule.t) :=
  rules ← rules;
  rule ← load_rule r;
  Loaded (rules ++ [rule]).

(** Lines 72 to 132 of [get_config]: from the two documents to the
    table. *)
Definition load_config (models_data rules_data : json)
  : loaded RouterConfig.t :=
  models_dict ← load_models models_data;
  match rules_data with
  | JObj d =>
      match get_or d "rules" (JArr []) with
      | JArr items =>
          rules ← fold_left add_rule items (Loaded []);
          match get_or d "defaults" (JObj ∅) with
          | JObj defaults =>
              default_chat ← as_opt_str (get defaults "chat");
              default_embedding ← as_opt_str (get defaults "embedding");
              Loaded (RouterConfig.mk models_dict rules default_chat
                        default_embedding)
          | _ => Untyped
          end
      | _ => Untyped
      end
  | _ => Untyped
  end.

Module ConfigLoader.

(** The loader, as far as [get_config] changes it: its cache. *)
Record t : Type := mk { _cache : option RouterConfig.t }.

(** [read] is what reading the two documents gives at the time of the
    call: the documents, or the exception that reading raised.  The
    result is what the call returns or raises, and the loader after it:
    the cache is assigned on the last line before [return], so that a call
    that raises leaves it alone.  There is no result, [None], for documents
    outside the typed data model: of what the source makes of them, and of
    what it then stores in the cache, nothing is said. *)
Definition get_config (read : result (json * json)) (force_reload : bool)
    (self : t) : option (result RouterConfig.t * t) :=
  match _cache self, force_reload with
  | Some cached, false => Some (Ok cached, self)
  | _, _ =>
      match read with
      | Raise e => Some (Raise e, self)
      | Ok (models_data, rules_data) =>
          match load_config models_data rules_data with
          | Loaded cfg => Some (Ok cfg, mk (Some cfg))
          | Failed e => Some (Raise e, self)
          | Untyped => None
          end
      end
  end.

End ConfigLoader.

Module Example3.

(** A [models.json] with two entries for one id, and a [routing_rules.json]
    whose last rule has no condition. *)
Definition models_json : json :=
  JObj {[ "models" := JArr [
    JObj {[ "id" := JStr "fast"; "provider" := JStr "bedrock";
            "type" := JStr "chat"; "model_id" := JStr "nova-micro" ]};
    JObj {[ "id" := JStr "deep"; "provider" := JStr "anthropic";
            "type" := JStr "chat"; "model_id" := JStr "claude-x";
            "max_context_tokens" := JInt 4096;
            "backup_model_id" := JStr "fast";
            "default_params" := JObj {[ "temperature" := JFloat 3 (-1) ]};
            "retry_policy" := JObj {[ "max_attempts" := JInt 3 ]} ]};
    JObj {[ "id" := JStr "fast"; "provider" := JStr "bedrock";
            "type" := JStr "chat"; "model_id" := JStr "nova-lite" ]} ] ]}.

Definition rules_json : json :=
  JObj {[ "rules" := JArr [
    JObj {[ "id" := JStr "premium-deep"; "use_model" := JStr "deep";
            "when" := JObj {[ "tenant_tier" := JArr [JStr "premium"];
                             "context_tokens" := JObj {[ "gte" := JInt 0;
                                                        "lt" := JInt 4096 ]} ]};
            "override_params" := JObj {[ "max_tokens" := JInt 2048 ]} ]};
    JObj {[ "id" := JStr "everything-else"; "use_model" := JStr "fast" ]} ];
          "defaults" := JObj {[ "chat" := JStr "fast" ]} ]}.

(** A model entry without its [provider]. *)
Definition broken_model : gmap string json :=
  {[ "id" := JStr "broken"; "type" := JStr "chat";
     "model_id" := JStr "nova-pro" ]}.

(** A rule entry whose condition is there and says nothing: every value
    in it counts as false. *)
Definition silent_when : gmap string json :=
  {[ "task_type" := JStr ""; "complexity" := JNull;
     "tenant_tier" := JArr []; "context_tokens" := JObj ∅ ]}.

Definition silent_rule : gmap string json :=
  {[ "id" := JStr "silent"; "use_model" := JStr "fast";
     "when" := JObj silent_when ]}.

(** What [silent_rule] loads to. *)
Definition silent_loaded : RoutingRule.t :=
  RoutingRule.mk "silent"
    (RuleCondition.mk (Some "") None None (Some []) None None) "fast" ∅.

End Example3.

(** * Properties *)

(** ** Rule matching *)

Section Matching.

Lemma string_field_agrees (o : option string) (s : string) :
  truthy_str o && differs o s = false <->
  (forall k, set_to "" o k -> s = k).
Proof.
  unfold set_to. destruct o as [x|]; simpl.
  - destruct (String.eqb_spec x "") as [->|Hne]; simpl.
    + split; [|done]. intros _ k [[= <-] Hk]. done.
    + destruct (String.eqb_spec x s) as [->|Hxs]; simpl.
      * split; [|done]. by intros _ k [[= <-] _].
      * split; [done|]. intros H. destruct Hxs. symmetry. by apply H.
  - split; [|done]. by intros _ k [? _].
Qed.

Lemma tier_field_agrees (o : option (list string)) (tier : string) :
  truthy_list o && negb (bool_decide (tier ∈ default [] o)) = false <->
  (forall ts, set_to [] o ts -> tier ∈ ts).
Proof.
  unfold set_to. destruct o as [[|t ts]|]; simpl.
  - split; [|done]. by intros _ ts [[= <-] ?].
  - case_bool_decide as Hin; simpl.
    + split; [|done]. by intros _ ts' [[= <-] _].
    + split; [done|]. intros H. destruct Hin. by apply H.
  - split; [|done]. by intros _ ts [? _].
Qed.

Lemma range_field_agrees (o : option RuleConditionRange.t) (v : Z) :
  match o with
  | Some r => below v (RuleConditionRange.gte r)
              || at_or_above v (RuleConditionRange.lt r)
  | None => false
  end = false <->
  (forall r, o = Some r -> within r v).
Proof.
  unfold within. destruct o as [[g l]|]; simpl.
  - rewrite orb_false_iff. split.
    + intros [Hg Hl] r [= <-]; simpl. split.
      * intros g' ->. simpl in Hg. lia.
      * intros l' ->. simpl in Hl. lia.
    + intros H. destruct (H _ eq_refl) as [Hg Hl]. simpl in *. split.
      * destruct g as [g|]; simpl; [|done]. specialize (Hg _ eq_refl). lia.
      * destruct l as [l|]; simpl; [|done]. specialize (Hl _ eq_refl). lia.
  - split; [|done]. by intros _ r ?.
Qed.

Lemma rule_matches_iff (rule : RoutingRule.t) (features : FeatureSummary.t) :
  _rule_matches rule features = true <->
  spec_rule_matches (RoutingRule.when rule) features.
Proof.
  unfold _rule_matches, spec_rule_matches.
  rewrite <- !string_field_agrees, <- tier_field_agrees,
    <- !range_field_agrees.
  repeat match goal with
         | |- context [if ?b then false else _] => destruct b
         end; intuition congruence.
Qed.

Lemma unset_string (o : option string) :
  unset "" o -> truthy_str o = false.
Proof.
  intros H. destruct o as [s|]; simpl; [|done].
  destruct (String.eqb_spec s ""); [done|]. by destruct (H s).
Qed.

Lemma unset_list (o : option (list string)) :
  unset [] o -> truthy_list o = false.
Proof.
  intros H. destruct o as [[|t ts]|]; simpl; try done.
  by destruct (H (t :: ts)).
Qed.

Lemma wildcard_matches (rule : RoutingRule.t) (features : FeatureSummary.t) :
  all_wildcard (RoutingRule.when rule) -> _rule_matches rule features = true.
Proof.
  intros (Hk & Hc & Hl & Ht & Hx & Hn). unfold _rule_matches.
  by rewrite (unset_string _ Hk), (unset_string _ Hc), (unset_string _ Hl),
    (unset_list _ Ht), Hx, Hn.
Qed.

End Matching.

(** ** The Selector *)

Section Selector.

Variable config : RouterConfig.t.
Variable features : FeatureSummary.t.

Lemma try_rules_winner (rules : list RoutingRule.t) :
  try_rules config rules features =
  (fun rule => select_by_rule config rule features) <$> winner rules features.
Proof.
  induction rules as [|rule rest IH]; simpl; [done|].
  by destruct (_rule_matches rule features).
Qed.

Lemma winner_earliest (pre post : list RoutingRule.t) (rule : RoutingRule.t) :
  Forall (fun earlier => _rule_matches earlier features = false) pre ->
  _rule_matches rule features = true ->
  winner (pre ++ rule :: post) features = Some rule.
Proof.
  intros Hpre Hrule. induction Hpre as [|earlier pre Hno _ IH]; simpl.
  - by rewrite Hrule.
  - by rewrite Hno.
Qed.

Lemma winner_app (rules extra : list RoutingRule.t) (rule : RoutingRule.t) :
  winner rules features = Some rule ->
  winner (rules ++ extra) features = Some rule.
Proof.
  induction rules as [|r rest IH]; simpl; [done|].
  by destruct (_rule_matches r features).
Qed.

Lemma winner_none_app (rules : list RoutingRule.t) (rule : RoutingRule.t) :
  winner rules features = None ->
  _rule_matches rule features = true ->
  winner (rules ++ [rule]) features = Some rule.
Proof.
  induction rules as [|r rest IH]; simpl.
  - by intros _ ->.
  - by destruct (_rule_matches r features).
Qed.

Lemma select_winner (rule : RoutingRule.t) :
  winner (RouterConfig.rules config) features = Some rule ->
  _select_model_for_features config features =
  select_by_rule config rule features.
Proof.
  intros Hw. unfold _select_model_for_features.
  by rewrite try_rules_winner, Hw.
Qed.

Lemma select_by_rule_ok (rule : RoutingRule.t) (sel : ModelSelection.t) :
  select_by_rule config rule features = Ok sel ->
  RouterConfig.models config !! RoutingRule.use_model rule
    = Some (ModelSelection.model_config sel) /\
  ModelSelection.params sel =
    RoutingRule.override_params rule
    ∪ ModelConfig.default_params (ModelSelection.model_config sel) /\
  _ensure_context_limit (ModelSelection.model_config sel) features = Ok tt.
Proof.
  unfold select_by_rule, getitem.
  destruct (RouterConfig.models config !! RoutingRule.use_model rule)
    as [model_cfg|]; [|done].
  destruct (_ensure_context_limit model_cfg features) as [[]|e] eqn:Hcap;
    [|done].
  by intros [= <-].
Qed.

End Selector.

(** Selecting by a rule reads the models of the table and nothing else
    of it. *)
Lemma select_by_rule_models (c1 c2 : RouterConfig.t) (rule : RoutingRule.t)
    (features : FeatureSummary.t) :
  RouterConfig.models c1 = RouterConfig.models c2 ->
  select_by_rule c1 rule features = select_by_rule c2 rule features.
Proof. unfold select_by_rule. by intros ->. Qed.

(** C1. For every policy table and feature summary, when several rules
    match, the Selector commits to the matching rule that comes first in
    table order: its outcome is the outcome of selecting by that rule, a
    Selection that it returns has the target named by that rule (with the
    rule's overrides merged over the target's defaults), and neither the
    rules after it nor the defaults are consulted, since replacing them by
    anything else leaves the outcome unchanged. *)
Theorem first_match_wins (config : RouterConfig.t) (features : FeatureSummary.t)
    (pre post : list RoutingRule.t) (rule : RoutingRule.t) :
  RouterConfig.rules config = pre ++ rule :: post ->
  Forall (fun earlier => _rule_matches earlier features = false) pre ->
  _rule_matches rule features = true ->
  _select_model_for_features config features
    = select_by_rule config rule features /\
  (forall sel, _select_model_for_features config features = Ok sel ->
     RouterConfig.models config !! RoutingRule.use_model rule
       = Some (ModelSelection.model_config sel) /\
     ModelSelection.params sel =
       RoutingRule.override_params rule
       ∪ ModelConfig.default_params (ModelSelection.model_config sel)) /\
  (forall model_cfg,
     RouterConfig.models config !! RoutingRule.use_model rule = Some model_cfg ->
     _ensure_context_limit model_cfg features = Ok tt ->
     _select_model_for_features config features =
       Ok (ModelSelection.mk model_cfg
             (RoutingRule.override_params rule
              ∪ ModelConfig.default_params model_cfg))) /\
  (forall post' default_chat default_embedding,
     _select_model_for_features
       (RouterConfig.mk (RouterConfig.models config) (pre ++ rule :: post')
          default_chat default_embedding) features
     = _select_model_for_features config features).
Proof.
  intros Hrules Hpre Hrule.
  assert (Hsel : _select_model_for_features config features
                 = select_by_rule config rule features).
  { apply select_winner. rewrite Hrules. by apply winner_earliest. }
  split; [done|]. split; [|split].
  - intros sel Hok. rewrite Hsel in Hok.
    by destruct (select_by_rule_ok _ _ _ _ Hok) as (? & ? & _).
  - intros model_cfg Hlook Hcap. rewrite Hsel.
    unfold select_by_rule, getitem. by rewrite Hlook, Hcap.
  - intros post' d1 d2. rewrite Hsel.
    rewrite (select_winner _ _ rule); [by apply select_by_rule_models|].
    simpl. by apply winner_earliest.
Qed.

Lemma first_match_wins_witness :
  _rule_matches Example1.catch_all Example1.request = true /\
  _select_model_for_features Example1.table Example1.request
  = Ok (ModelSelection.mk Example1.strong
          {[ "max_tokens" := PyInt 2048; "temperature" := PyFloat 2 (-1) ]}).
Proof.
  split; [reflexivity|].
  destruct (first_match_wins Example1.table Example1.request
              [] [Example1.catch_all] Example1.premium_rule)
    as (_ & _ & Hok & _); [reflexivity|constructor|reflexivity|].
  rewrite (Hok Example1.strong); [|reflexivity|reflexivity].
  f_equal.
Defined.

(** C2, as amended.  A field of a condition is set when it holds a
    non-empty value: [None], and also the empty string and the empty list
    of tenant tiers, are unset.  With that, a rule matches if and only if
    every set field of its condition agrees with the feature summary:
    equality for task kind, complexity and language, membership for the
    tenant tier, and for the two ranges [gte <= v] and [v < lt], the
    context range on the context tokens and the chunk range on the token
    count.  Unset fields do not constrain: a rule with no field set matches
    every feature summary.  Appending a rule at the end of a table, an
    all-wildcard one in particular, changes neither the earlier rule that
    wins nor the outcome of the Selector; the appended wildcard wins only
    when no earlier rule matches. *)
Theorem rule_matches_spec :
  (forall rule features,
     _rule_matches rule features = true <->
     spec_rule_matches (RoutingRule.when rule) features) /\
  (forall rule features,
     all_wildcard (RoutingRule.when rule) ->
     _rule_matches rule features = true) /\
  (forall config rules wild features earlier,
     winner rules features = Some earlier ->
     winner (rules ++ [wild]) features = Some earlier /\
     _select_model_for_features (with_rules config (rules ++ [wild])) features
     = _select_model_for_features (with_rules config rules) features) /\
  (forall rules wild features,
     all_wildcard (RoutingRule.when wild) ->
     winner rules features = None ->
     winner (rules ++ [wild]) features = Some wild).
Proof.
  split; [exact rule_matches_iff|]. split; [exact wildcard_matches|]. split.
  - intros config rules wild features earlier Hw.
    pose proof (winner_app features rules [wild] earlier Hw) as Hw'.
    split; [done|].
    rewrite (select_winner _ _ earlier), (select_winner _ _ earlier) by done.
    by apply select_by_rule_models.
  - intros rules wild features Hwild Hnone.
    apply winner_none_app; [done|by apply wildcard_matches].
Qed.

Lemma rule_matches_spec_witness :
  all_wildcard (RoutingRule.when Example1.catch_all) /\
  winner [Example1.premium_rule] Example1.request = Some Example1.premium_rule /\
  winner ([Example1.premium_rule] ++ [Example1.catch_all]) Example1.request
  = Some Example1.premium_rule /\
  winner ([] ++ [Example1.catch_all]) Example1.request
  = Some Example1.catch_all.
Proof.
  assert (Hwild : all_wildcard (RoutingRule.when Example1.catch_all)).
  { repeat split; intros v [Hv _]; discriminate Hv. }
  split; [exact Hwild|]. split; [reflexivity|].
  destruct rule_matches_spec as (_ & _ & Happend & Hlast). split.
  - exact (proj1 (Happend Example1.table [Example1.premium_rule]
                    Example1.catch_all Example1.request Example1.premium_rule
                    eq_refl)).
  - exact (Hlast [] Example1.catch_all Example1.request Hwild eq_refl).
Defined.

(** C2, as the specification words it, does not hold: a rule whose list
    of tenant tiers is set to the empty list matches a request although
    the tier of the request is not a member of the list. *)
Lemma rule_matches_spec_counterexample :
  RuleCondition.tenant_tiers (RoutingRule.when Example1.no_tier_rule)
  = Some [] /\
  _rule_matches Example1.no_tier_rule Example1.request = true /\
  ~ rule_matches_as_stated (RoutingRule.when Example1.no_tier_rule)
      Example1.request /\
  ~ (forall rule features,
       _rule_matches rule features = true <->
       rule_matches_as_stated (RoutingRule.when rule) features).
Proof.
  assert (Hno : ~ rule_matches_as_stated
                    (RoutingRule.when Example1.no_tier_rule) Example1.request).
  { intros (_ & _ & _ & Htier & _).
    specialize (Htier [] eq_refl). by apply elem_of_nil in Htier. }
  split; [reflexivity|]. split; [reflexivity|]. split; [exact Hno|].
  intros Hiff. apply Hno. by apply Hiff.
Qed.

(** ** Capacity *)

Lemma nonzero_limit_truthy (field : option Z) (limit : Z) :
  field = Some limit -> limit <> 0 ->
  truthy_int field = true /\ default 0 field = limit.
Proof.
  intros -> Hne. simpl. split; [|done].
  destruct (Z.eqb_spec limit 0); done.
Qed.

Lemma select_default_ok (config : RouterConfig.t) (features : FeatureSummary.t)
    (sel : ModelSelection.t) :
  select_default config features = Ok sel ->
  _ensure_context_limit (ModelSelection.model_config sel) features = Ok tt.
Proof.
  unfold select_default.
  destruct (negb _); [done|].
  destruct (getitem _ _) as [model_cfg|]; [|done].
  destruct (_ensure_context_limit model_cfg features) as [[]|] eqn:Hcap;
    [|done].
  by intros [= <-].
Qed.

Lemma select_ok_within_capacity (config : RouterConfig.t)
    (features : FeatureSummary.t) (sel : ModelSelection.t) :
  _select_model_for_features config features = Ok sel ->
  _ensure_context_limit (ModelSelection.model_config sel) features = Ok tt.
Proof.
  unfold _select_model_for_features. rewrite try_rules_winner.
  destruct (winner _ _) as [rule|]; simpl.
  - intros Hok. by destruct (select_by_rule_ok _ _ _ _ Hok) as (_ & _ & ?).
  - apply select_default_ok.
Qed.

(** C4, as amended.  For a chat-kind feature summary and a target that
    declares a max context size other than 0, a context token count equal
    to the max is accepted and any larger one, one token over included, is
    rejected with the capacity error; for an embedding-kind summary and a
    target that declares a max chunk size other than 0, a token count over
    the max is rejected the same way and one within it is accepted.  A
    declared max of 0 is no limit: nothing is rejected for it.  Nothing is
    truncated: the Selector returns a Selection only if the summary it was
    given passes the check of the chosen target as it is. *)
Theorem capacity_boundary (model_cfg : ModelConfig.t)
    (features : FeatureSummary.t) (limit : Z) :
  (FeatureSummary.task_type features = "chat" ->
   ModelConfig.max_context_tokens model_cfg = Some limit ->
   (limit <> 0 ->
    (FeatureSummary.context_tokens features <= limit ->
     _ensure_context_limit model_cfg features = Ok tt) /\
    (FeatureSummary.context_tokens features > limit ->
     _ensure_context_limit model_cfg features
       = Raise (context_exceeded model_cfg features) /\
     CapacityExceededError (context_exceeded model_cfg features))) /\
   (limit = 0 -> _ensure_context_limit model_cfg features = Ok tt)) /\
  (FeatureSummary.task_type features = "embedding" ->
   ModelConfig.max_chunk_tokens model_cfg = Some limit ->
   (limit <> 0 ->
    (FeatureSummary.token_count features <= limit ->
     _ensure_context_limit model_cfg features = Ok tt) /\
    (FeatureSummary.token_count features > limit ->
     _ensure_context_limit model_cfg features
       = Raise (chunk_exceeded model_cfg features) /\
     CapacityExceededError (chunk_exceeded model_cfg features))) /\
   (limit = 0 -> _ensure_context_limit model_cfg features = Ok tt)) /\
  (forall config sel,
     _select_model_for_features config features = Ok sel ->
     _ensure_context_limit (ModelSelection.model_config sel) features = Ok tt).
Proof.
  split; [|split].
  - intros Hkind Hdecl. split.
    + intros Hne. destruct (nonzero_limit_truthy _ _ Hdecl Hne) as [Ht Hd].
      unfold _ensure_context_limit. rewrite Hkind, Ht, Hd. simpl. split.
      * intros Hle. by destruct (Z.ltb_spec limit
                                   (FeatureSummary.context_tokens features));
          [lia|].
      * intros Hgt. destruct (Z.ltb_spec limit
                                (FeatureSummary.context_tokens features));
          [|lia].
        split; [done|]. exists model_cfg, features. by left.
    + intros ->. unfold _ensure_context_limit. by rewrite Hkind, Hdecl.
  - intros Hkind Hdecl. split.
    + intros Hne. destruct (nonzero_limit_truthy _ _ Hdecl Hne) as [Ht Hd].
      unfold _ensure_context_limit. rewrite Hkind, Ht, Hd. simpl. split.
      * intros Hle. by destruct (Z.ltb_spec limit
                                   (FeatureSummary.token_count features));
          [lia|].
      * intros Hgt. destruct (Z.ltb_spec limit
                                (FeatureSummary.token_count features));
          [|lia].
        split; [done|]. exists model_cfg, features. by right.
    + intros ->. unfold _ensure_context_limit. by rewrite Hkind, Hdecl.
  - intros config sel. apply select_ok_within_capacity.
Qed.

Lemma capacity_boundary_witness :
  _ensure_context_limit Example1.strong
    (FeatureSummary.mk "chat" 12 "small" "en" "high" 4096 "premium") = Ok tt /\
  _ensure_context_limit Example1.strong
    (FeatureSummary.mk "chat" 12 "small" "en" "high" 4097 "premium")
  = Raise (Exc ValueError
      "Context (4097) exceeds model max_context_tokens (4096) for model model-strong").
Proof.
  split.
  - destruct (capacity_boundary Example1.strong
                (FeatureSummary.mk "chat" 12 "small" "en" "high" 4096 "premium")
                4096) as [Hchat _].
    destruct (Hchat eq_refl eq_refl) as [Hlimit _].
    apply Hlimit; [lia|simpl; lia].
  - destruct (capacity_boundary Example1.strong
                (FeatureSummary.mk "chat" 12 "small" "en" "high" 4097 "premium")
                4096) as [Hchat _].
    destruct (Hchat eq_refl eq_refl) as [Hlimit _].
    apply Hlimit; [lia|simpl; lia].
Defined.

(** C4, as the specification words it, does not hold: a chat target that
    declares a max context size of 0 accepts a context of one token, which
    is one over its max. *)
Lemma capacity_boundary_counterexample :
  ModelConfig.max_context_tokens Example1.zero = Some 0 /\
  _ensure_context_limit Example1.zero
    (FeatureSummary.mk "chat" 12 "small" "en" "high" 1 "premium")
  = Ok tt /\
  ~ max_is_enforced_as_stated Example1.zero 0.
Proof.
  split; [reflexivity|]. split; [reflexivity|].
  intros Hstated.
  destruct (Hstated eq_refl
              (FeatureSummary.mk "chat" 12 "small" "en" "high" 1 "premium")
              eq_refl) as [_ Hover].
  destruct (Hover eq_refl) as (e & Hraise & _). discriminate Hraise.
Qed.

(** Scenario C of the specification: a context of 5000 tokens against a
    target whose max is 4096 makes the Selector fail. *)
Example scenario_C :
  _select_model_for_features Example1.table
    (FeatureSummary.mk "chat" 12 "small" "en" "high" 5000 "premium")
  = Raise (Exc ValueError
      "Context (5000) exceeds model max_context_tokens (4096) for model model-strong").
Proof. reflexivity. Qed.

(** ** The retry loop *)

(** The intervals that [time.sleep] accepts. *)
Lemma sleep_refusal_none (ms : Z) :
  sleep_refusal ms = None <-> 0 <= ms <= sleep_limit_ms.
Proof.
  assert (Hbig : sleep_limit_ms < float_overflow) by (by vm_compute).
  unfold sleep_refusal.
  destruct (Z.leb_spec float_overflow (Z.abs ms)); [split; [done|lia]|].
  destruct (Z.ltb_spec sleep_limit_ms (Z.abs ms)); [split; [done|lia]|].
  destruct (Z.ltb_spec ms 0); [split; [done|lia]|].
  split; [lia|done].
Qed.

Lemma sleep_accepted (ms : Z) (tr : trace) :
  sleep_refusal ms = None -> sleep ms tr = (Ok tt, tr ++ [EvSleep ms]).
Proof. unfold sleep. by intros ->. Qed.

Lemma sleep_refused (ms : Z) (e : exception) (tr : trace) :
  sleep_refusal ms = Some e -> sleep ms tr = (Raise e, tr).
Proof. unfold sleep. by intros ->. Qed.


Lemma attempts_app (evs1 evs2 : trace) :
  attempts (evs1 ++ evs2) = attempts evs1 + attempts evs2.
Proof.
  induction evs1 as [|[c out|ms] evs1 IH]; simpl; lia.
Qed.

Section RetryLoop.

Variable attempt_once : action (result response).
Variable policy : RetryPolicy.t.

(** One iteration of the loop, as an equation. *)
Lemma retry_loop_step (attempt : Z) (tr : trace) :
  retry_loop attempt_once policy attempt tr =
  match attempt_once tr with
  | (Ok r, tr1) => (Returned r, tr1)
  | (Raise e, tr1) =>
      if _is_throttling_error e then
        if Z_ge_dec (attempt + 1) (RetryPolicy.max_attempts policy)
        then (Exhausted, tr1)
        else match sleep (RetryPolicy.backoff_ms policy) tr1 with
             | (Raise e', tr2) => (Raised e', tr2)
             | (Ok _, tr2) => retry_loop attempt_once policy (attempt + 1) tr2
             end
      else (Raised e, tr1)
  end.
Proof.
  rewrite retry_loop_equation_1.
  destruct (attempt_once tr) as [[r|e] tr1]; simpl; [done|].
  destruct (_is_throttling_error e); simpl; [|done].
  destruct (Z_ge_dec _ _); simpl; [done|].
  by destruct (sleep _ tr1) as [[[]|e'] tr2].
Qed.

(** Whatever the backend answers, a run of the loop is a sequence of
    throttled attempts separated by waits, closed by one last attempt; it
    makes at least one attempt and at most [max 1 (max_attempts -
    attempt)], all of them when it is left by [break]. *)
Lemma retry_loop_trace (P : call -> Prop) :
  calls_in P attempt_once ->
  forall (n : nat) (attempt : Z) (tr : trace),
    (Z.to_nat (RetryPolicy.max_attempts policy - attempt) <= n)%nat ->
    exists ex evs,
      retry_loop attempt_once policy attempt tr = (ex, tr ++ evs) /\
      loop_trace evs ex /\
      1 <= attempts evs
        <= Z.max 1 (RetryPolicy.max_attempts policy - attempt) /\
      (ex = Exhausted ->
       attempts evs = Z.max 1 (RetryPolicy.max_attempts policy - attempt)) /\
      Forall (loop_event P (RetryPolicy.backoff_ms policy)) evs.
Proof.
  intros Hact. induction n as [|n IH]; intros attempt tr Hn;
    rewrite retry_loop_step;
    destruct (Hact tr) as (c & [r|e] & Hc & ->);
    try (exists (Returned r), [EvCall c (Ok r)]; simpl;
         repeat split; [constructor|lia|lia|done|by repeat constructor]);
    (destruct (_is_throttling_error e) eqn:He;
     [|exists (Raised e), [EvCall c (Raise e)]; simpl;
       repeat split; [by constructor|lia|lia|done|by repeat constructor]]);
    (destruct (Z_ge_dec _ _) as [Hge|Hlt];
     [exists Exhausted, [EvCall c (Raise e)]; simpl;
      repeat split; [by constructor|lia|lia|lia|by repeat constructor]|]);
    [lia|].
  unfold sleep.
  destruct (sleep_refusal (RetryPolicy.backoff_ms policy)) as [e'|] eqn:Hms.
  - exists (Raised e'), [EvCall c (Raise e)]. simpl.
    repeat split;
      [exact (run_sleep_failed c e _ e' He Hms)|lia|lia|done
      |by repeat constructor].
  - destruct (IH (attempt + 1)
                ((tr ++ [EvCall c (Raise e)])
                 ++ [EvSleep (RetryPolicy.backoff_ms policy)]))
      as (ex & evs & -> & Hrun & Hcount & Hall & Hevs); [lia|].
    exists ex, (EvCall c (Raise e)
                :: EvSleep (RetryPolicy.backoff_ms policy) :: evs).
    simpl. repeat split.
    + by rewrite <- !app_assoc.
    + by constructor.
    + lia.
    + lia.
    + intros Hex. specialize (Hall Hex). lia.
    + by repeat constructor.
Qed.


End RetryLoop.

(** ** The shape of a run *)

Section RunShape.

Lemma loop_trace_split (evs : trace) (ex : loop_exit) :
  loop_trace evs ex ->
  forall pre c out post,
    evs = pre ++ EvCall c out :: post ->
    (post <> [] -> exists e, out = Raise e /\ _is_throttling_error e = true) /\
    (forall e, out = Raise e -> _is_throttling_error e = false ->
               post = [] /\ ex = Raised e).
Proof.
  induction 1 as [c0 r|c0 e0 He0|c0 e0 He0|c0 e0 ms0 e1 He0 Hms0
                 |c0 e0 ms evs ex He0 _ IH];
    intros pre c out post Heq.
  1-4: destruct pre as [|x [|y pre]]; simplify_eq/=;
       (split; [intros Hne; by destruct Hne|]);
       intros e ??; simplify_eq/=; first [done|congruence].
  destruct pre as [|x [|y pre]]; simplify_eq/=.
  - split; [by eauto|]. intros e ??; simplify_eq/=. congruence.
  - exact (IH pre c out post eq_refl).
Qed.

Lemma loop_trace_exhausted (evs : trace) :
  loop_trace evs Exhausted ->
  forall pre c out post,
    evs = pre ++ EvCall c out :: post ->
    exists e, out = Raise e /\ _is_throttling_error e = true.
Proof.
  intros Hrun. remember Exhausted as ex eqn:Hex.
  induction Hrun as [c0 r|c0 e0 He0|c0 e0 He0|c0 e0 ms0 e1 He0 Hms0
                    |c0 e0 ms evs ex He0 _ IH];
    intros pre c out post Heq; try discriminate Hex.
  - destruct pre as [|x [|y pre]]; simplify_eq/=. eauto.
  - destruct pre as [|x [|y pre]]; simplify_eq/=; [by eauto|].
    by apply (IH eq_refl pre c out post).
Qed.

Lemma retried_nil (res : result response) :
  retried_only_if_throttled [] res.
Proof. intros [|x pre] c out post Heq; discriminate Heq. Qed.

Lemma retried_loop (evs : trace) (ex : loop_exit) (tr : trace)
    (on_break : result response * trace) :
  loop_trace evs ex ->
  retried_only_if_throttled evs (finish ex tr on_break).1.
Proof.
  intros Hrun pre c out post Heq.
  destruct (loop_trace_split _ _ Hrun _ _ _ _ Heq) as [Hnext Hfatal].
  split; [done|]. intros e Hout He.
  destruct (Hfatal e Hout He) as [-> ->]. done.
Qed.

Lemma retried_after_exhausted (evs1 evs2 : trace) (res : result response) :
  loop_trace evs1 Exhausted ->
  retried_only_if_throttled evs2 res ->
  retried_only_if_throttled (evs1 ++ evs2) res.
Proof.
  intros Hrun Hrest pre c out post Heq. symmetry in Heq.
  apply app_eq_inv in Heq as [(k & -> & Hk)|(k & Hevs1 & Hk)].
  - exact (Hrest k c out post Hk).
  - destruct k as [|x k]; simplify_eq/=.
    + exact (Hrest [] c out post eq_refl).
    + destruct (loop_trace_exhausted _ Hrun pre c out k eq_refl)
        as (e & -> & He).
      split; [by eauto|]. intros e' ??; simplify_eq/=. congruence.
Qed.

Lemma calls_chat (be : backend) (cl : client) (arg : argument) :
  calls_in (eq (Call cl OpChat arg)) (client_chat be cl arg).
Proof. intros tr. by eexists _, _. Qed.

Lemma calls_embed (be : backend) (cl : client) (arg : argument) :
  calls_in (eq (Call cl OpEmbed arg)) (client_embed be cl arg).
Proof.
  intros tr. unfold client_embed. destruct (client_kind cl); by eexists _, _.
Qed.

Lemma calls_backup (be : backend) (backup_cfg : ModelConfig.t)
    (cl : client) (arg : argument) :
  calls_in (eq (backup_call backup_cfg cl arg))
    (backup_attempt be backup_cfg cl arg).
Proof.
  unfold backup_attempt, backup_call. destruct (String.eqb _ _);
    [apply calls_chat|apply calls_embed].
Qed.

Lemma calls_in_single (P : call -> Prop) (act : action (result response)) :
  calls_in P act -> single_call act.
Proof. intros Hact tr. destruct (Hact tr) as (c & out & _ & ->). by eexists _, _. Qed.

(** A loop always runs to an exit: the distance to [max_attempts] at the
    start bounds the number of its iterations. *)
Lemma retry_loop_runs (P : call -> Prop) (act : action (result response))
    (policy : RetryPolicy.t) (tr : trace) :
  calls_in P act ->
  exists ex evs,
    retry_loop act policy 0 tr = (ex, tr ++ evs) /\
    loop_trace evs ex /\
    1 <= attempts evs <= Z.max 1 (RetryPolicy.max_attempts policy) /\
    (ex = Exhausted ->
     attempts evs = Z.max 1 (RetryPolicy.max_attempts policy)) /\
    Forall (loop_event P (RetryPolicy.backoff_ms policy)) evs.
Proof.
  intros Hact.
  destruct (retry_loop_trace act policy P Hact
              (Z.to_nat (RetryPolicy.max_attempts policy - 0)) 0 tr)
    as (ex & evs & Heq & Hrun & Hcount & Hall & Hevs); [done|].
  rewrite Z.sub_0_r in Hcount, Hall. by exists ex, evs.
Qed.

Lemma fallback_shape (config : RouterConfig.t) (be : backend)
    (model_cfg : ModelConfig.t) (func_arg : argument) (tr : trace) :
  exists res evs,
    fallback config be model_cfg func_arg tr = (res, tr ++ evs) /\
    retried_only_if_throttled evs res.
Proof.
  unfold fallback.
  destruct (negb _).
  { eexists _, []. rewrite app_nil_r. split; [done|apply retried_nil]. }
  destruct (RouterConfig.models config !! _) as [backup_cfg|]; last first.
  { eexists _, []. rewrite app_nil_r. split; [done|apply retried_nil]. }
  destruct (_create_provider_client _ _) as [backup_client|e]; last first.
  { eexists _, []. rewrite app_nil_r. split; [done|apply retried_nil]. }
  destruct (retry_loop_runs _
              (backup_attempt be backup_cfg backup_client func_arg)
              (ModelConfig.retry_policy backup_cfg) tr
              (calls_backup be backup_cfg backup_client func_arg))
    as (ex & evs & -> & Hrun & _).
  pose proof (retried_loop evs ex (tr ++ evs)
                (Raise (BothExhaustedError model_cfg backup_cfg), tr ++ evs)
                Hrun) as Hshape.
  destruct ex; eexists _, evs; (split; [done|exact Hshape]).
Qed.

Lemma invoker_shape (config : RouterConfig.t) (be : backend)
    (selection : ModelSelection.t)
    (func : argument -> action (result response)) (func_arg : argument)
    (tr : trace) :
  single_call (func func_arg) ->
  exists res evs,
    _call_with_retry_and_fallback config be selection func func_arg tr
      = (res, tr ++ evs) /\
    retried_only_if_throttled evs res.
Proof.
  intros Hact. unfold _call_with_retry_and_fallback.
  destruct (retry_loop_runs _ (func func_arg)
              (ModelConfig.retry_policy (ModelSelection.model_config selection))
              tr Hact) as (ex & evs & -> & Hrun & _).
  destruct ex as [r|e|].
  - eexists _, evs. split; [done|].
    exact (retried_loop evs (Returned r) (tr ++ evs) (Ok r, tr) Hrun).
  - eexists _, evs. split; [done|].
    exact (retried_loop evs (Raised e) (tr ++ evs) (Ok (Response ""), tr) Hrun).
  - destruct (fallback_shape config be (ModelSelection.model_config selection)
                func_arg (tr ++ evs)) as (res & evs2 & -> & Hrest).
    exists res, (evs ++ evs2). split; [by rewrite app_assoc|].
    by apply retried_after_exhausted.
Qed.

End RunShape.

(** ** Substrings and the classification of errors *)

Lemma append_cons (c : ascii) (s t : string) :
  String c s +:+ t = String c (s +:+ t).
Proof. reflexivity. Qed.

Lemma prefix_spec (k s : string) :
  String.prefix k s = true <-> exists post, s = k +:+ post.
Proof.
  revert s. induction k as [|a k IH]; intros s; simpl.
  - split; [by eauto|]. by destruct s.
  - destruct s as [|b s]; simpl.
    + split; [done|]. by intros [post ?].
    + setoid_rewrite append_cons. destruct (ascii_dec a b) as [->|Hab].
      * rewrite IH. split; intros [post Hpost]; exists post; congruence.
      * split; [done|]. intros [post [= ? _]]. done.
Qed.

Lemma contains_spec (k s : string) :
  Str.contains k s = true <-> occurs_in k s.
Proof.
  unfold occurs_in. induction s as [|b s IH].
  - change (Str.contains k "") with (String.prefix k "" || false).
    rewrite orb_false_r, prefix_spec. split.
    + intros [post Hpost]. by exists "", post.
    + intros ([|c pre] & post & Heq); [by exists post|discriminate Heq].
  - change (Str.contains k (String b s))
      with (String.prefix k (String b s) || Str.contains k s).
    rewrite orb_true_iff, IH, prefix_spec. split.
    + intros [[post Hpost]|(pre & post & ->)].
      * by exists "", post.
      * by exists (String b pre), post.
    + intros ([|c pre] & post & Heq).
      * left. by exists post.
      * right. rewrite append_cons in Heq. injection Heq as _ ->.
        by exists pre, post.
Qed.

Lemma is_throttling_error_spec (exc : exception) :
  _is_throttling_error exc = true <->
  occurs_in "throttling" (Str.lower (exc_str exc)) \/
  occurs_in "rate limit" (Str.lower (exc_str exc)) \/
  occurs_in "too many requests" (Str.lower (exc_str exc)) \/
  occurs_in "tokens per minute" (Str.lower (exc_str exc)).
Proof.
  unfold _is_throttling_error, throttling_keywords. simpl.
  rewrite !orb_true_iff, !contains_spec. intuition congruence.
Qed.

(** ** The retry boundary *)




(** A backoff longer than [time.sleep] can count is refused as well: ten
    to the thirteenth milliseconds make the first wait raise
    [OverflowError], and the second attempt that the policy allows is
    never made. *)
Example overlong_backoff_stops_retry :
  retry_loop
    (client_chat Example2.always_throttling
       (Example2.bedrock_client_of Example2.lonely) (Messages Example2.hello))
    (RetryPolicy.mk 2 10000000000000) 0 []
  = (Raised timestamp_too_large,
     [EvCall (Call (Example2.bedrock_client_of Example2.lonely) OpChat
                (Messages Example2.hello))
        (Raise Example2.throttled)]).
Proof. reflexivity. Qed.


(** The handle of [scenario_D] is the one the router builds for a premium
    chat request. *)
Example premium_selection :
  select_model Example2.table "ping" "chat" None (Some "tenant_123")
    "premium" None
  = Ok Example2.premium_handle.
Proof. reflexivity. Qed.

(** ** Propagation *)

(** C5, as amended.  An error is throttling-classified exactly when its
    lower-cased message contains "throttling", "rate limit", "too many
    requests" or "tokens per minute".  In a retry loop, the primary one or
    the backup one, an error that is not throttling-classified leaves the
    loop at once as the error of the call.  A throttling-classified one is
    retried when an attempt remains and [time.sleep] accepts the backoff;
    when an attempt remains and [time.sleep] refuses the backoff, the
    exception of [time.sleep] leaves the loop and nothing is retried; when
    no attempt remains the loop ends by [break].  For a whole invocation:
    a client call is followed by another event only if it raised a
    throttling-classified error, and a call that raised any other error is
    the last event of the run, its error being what the caller receives. *)
Theorem only_throttling_is_retried :
  (forall exc,
     _is_throttling_error exc = true <->
     occurs_in "throttling" (Str.lower (exc_str exc)) \/
     occurs_in "rate limit" (Str.lower (exc_str exc)) \/
     occurs_in "too many requests" (Str.lower (exc_str exc)) \/
     occurs_in "tokens per minute" (Str.lower (exc_str exc))) /\
  (forall act policy attempt tr e tr1,
     act tr = (Raise e, tr1) ->
     _is_throttling_error e = false ->
     retry_loop act policy attempt tr = (Raised e, tr1)) /\
  (forall act policy attempt tr e tr1,
     act tr = (Raise e, tr1) ->
     _is_throttling_error e = true ->
     (attempt + 1 < RetryPolicy.max_attempts policy ->
      sleep_refusal (RetryPolicy.backoff_ms policy) = None ->
      retry_loop act policy attempt tr
      = retry_loop act policy (attempt + 1)
          (tr1 ++ [EvSleep (RetryPolicy.backoff_ms policy)])) /\
     (forall refusal,
        attempt + 1 < RetryPolicy.max_attempts policy ->
        sleep_refusal (RetryPolicy.backoff_ms policy) = Some refusal ->
        retry_loop act policy attempt tr = (Raised refusal, tr1)) /\
     (attempt + 1 >= RetryPolicy.max_attempts policy ->
      retry_loop act policy attempt tr = (Exhausted, tr1))) /\
  (forall config be selection func func_arg tr,
     single_call (func func_arg) ->
     exists res evs,
       _call_with_retry_and_fallback config be selection func func_arg tr
       = (res, tr ++ evs) /\
       retried_only_if_throttled evs res).
Proof.
  split; [exact is_throttling_error_spec|]. split; [|split].
  - intros act policy attempt tr e tr1 Hact He.
    by rewrite retry_loop_step, Hact, He.
  - intros act policy attempt tr e tr1 Hact He. split; [|split].
    + intros Hlt Hms. rewrite retry_loop_step, Hact, He.
      destruct (Z_ge_dec _ _); [lia|]. by rewrite (sleep_accepted _ _ Hms).
    + intros refusal Hlt Hms. rewrite retry_loop_step, Hact, He.
      destruct (Z_ge_dec _ _); [lia|]. by rewrite (sleep_refused _ _ _ Hms).
    + intros Hge. rewrite retry_loop_step, Hact, He.
      by destruct (Z_ge_dec _ _).
  - intros config be selection func func_arg tr. apply invoker_shape.
Qed.

Lemma only_throttling_is_retried_witness :
  _is_throttling_error Example2.throttled = true /\
  _is_throttling_error Example2.denied = false /\
  ModelHandle.chat Example2.always_denying Example2.premium_handle
    Example2.hello []
  = (Raise Example2.denied,
     [EvCall (Call (ModelHandle.provider_client Example2.premium_handle)
                OpChat (Messages Example2.hello))
        (Raise Example2.denied)]) /\
  retry_loop
    (client_chat Example2.always_throttling
       (ModelHandle.provider_client Example2.premium_handle)
       (Messages Example2.hello))
    (RetryPolicy.mk 2 200) 0 []
  = retry_loop
      (client_chat Example2.always_throttling
         (ModelHandle.provider_client Example2.premium_handle)
         (Messages Example2.hello))
      (RetryPolicy.mk 2 200) (0 + 1)
      ([EvCall (Call (ModelHandle.provider_client Example2.premium_handle)
                  OpChat (Messages Example2.hello))
          (Raise Example2.throttled)]
       ++ [EvSleep 200]).
Proof.
  split; [reflexivity|]. split; [reflexivity|].
  destruct only_throttling_is_retried as (_ & Hfatal & Hthrottled & _).
  split.
  - unfold ModelHandle.chat, _call_with_retry_and_fallback. simpl.
    by rewrite (Hfatal _ _ 0 [] Example2.denied
                  [EvCall (Call (ModelHandle.provider_client
                                   Example2.premium_handle)
                             OpChat (Messages Example2.hello))
                     (Raise Example2.denied)]).
  - destruct (Hthrottled
                (client_chat Example2.always_throttling
                   (ModelHandle.provider_client Example2.premium_handle)
                   (Messages Example2.hello))
                (RetryPolicy.mk 2 200) 0 [] Example2.throttled
                [EvCall (Call (ModelHandle.provider_client
                                 Example2.premium_handle)
                           OpChat (Messages Example2.hello))
                   (Raise Example2.throttled)] eq_refl eq_refl)
      as [Hretry _].
    apply Hretry; [simpl; lia|reflexivity].
Defined.

(** C5, as the specification words it, does not hold: under a policy of
    two attempts and a negative backoff, a throttling-classified error met
    at the first attempt is not retried, [time.sleep] raises instead. *)
Lemma only_throttling_is_retried_counterexample :
  _is_throttling_error Example2.throttled = true /\
  retry_loop
    (client_chat Example2.always_throttling
       (Example2.bedrock_client_of Example2.lonely) (Messages Example2.hello))
    (RetryPolicy.mk 2 (-200)) 0 []
  = (Raised negative_sleep,
     [EvCall (Call (Example2.bedrock_client_of Example2.lonely) OpChat
                (Messages Example2.hello))
        (Raise Example2.throttled)]) /\
  ~ throttling_is_retried_as_stated (RetryPolicy.mk 2 (-200)).
Proof.
  split; [reflexivity|]. split; [reflexivity|].
  intros Hstated.
  specialize (Hstated
                (client_chat Example2.always_throttling
                   (Example2.bedrock_client_of Example2.lonely)
                   (Messages Example2.hello))
                0 [] Example2.throttled _ eq_refl eq_refl).
  simpl in Hstated. specialize (Hstated ltac:(lia)).
  vm_compute in Hstated. discriminate Hstated.
Qed.

(** ** The backup path *)

(** C6. When the primary loop has exhausted its attempts on throttling:
    if the primary target has no backup id configured ([None], or the
    empty string, which the source takes for none), the call fails with
    [ExhaustedNoBackupError]; if it has one that is not in the policy table,
    the call fails with [BackupNotFoundError].  In both cases nothing more
    is attempted. *)
Theorem backup_missing (config : RouterConfig.t) (be : backend)
    (selection : ModelSelection.t)
    (func : argument -> action (result response)) (func_arg : argument)
    (tr tr1 : trace) :
  retry_loop (func func_arg)
    (ModelConfig.retry_policy (ModelSelection.model_config selection)) 0 tr
  = (Exhausted, tr1) ->
  (unset "" (ModelConfig.backup_model_id
               (ModelSelection.model_config selection)) ->
   _call_with_retry_and_fallback config be selection func func_arg tr
   = (Raise (ExhaustedNoBackupError (ModelSelection.model_config selection)),
      tr1)) /\
  (forall backup_id,
     set_to "" (ModelConfig.backup_model_id
                  (ModelSelection.model_config selection)) backup_id ->
     RouterConfig.models config !! backup_id = None ->
     _call_with_retry_and_fallback config be selection func func_arg tr
     = (Raise (BackupNotFoundError (ModelSelection.model_config selection)),
        tr1)).
Proof.
  intros Hloop. unfold _call_with_retry_and_fallback. rewrite Hloop.
  unfold fallback. split.
  - intros Hunset. by rewrite (unset_string _ Hunset).
  - intros backup_id [Hid Hne] Hlook. rewrite Hid. simpl.
    destruct (String.eqb_spec backup_id ""); [done|]. simpl. by rewrite Hlook.
Qed.

Lemma backup_missing_witness :
  ModelHandle.chat Example2.always_throttling
    (Example2.handle_of Example2.lonely) Example2.hello []
  = (Raise (Exc ThrottlingError
       "Primary model model-lonely throttled and no backup_model_id configured"),
     [EvCall (Call (Example2.bedrock_client_of Example2.lonely)
                OpChat (Messages Example2.hello))
        (Raise Example2.throttled)]) /\
  ModelHandle.chat Example2.always_throttling
    (Example2.handle_of Example2.dangling) Example2.hello []
  = (Raise (Exc ThrottlingError
       "Backup model model-gone for model-dangling not found in config"),
     [EvCall (Call (Example2.bedrock_client_of Example2.dangling)
                OpChat (Messages Example2.hello))
        (Raise Example2.throttled)]).
Proof.
  split.
  - refine (proj1 (backup_missing Example2.table Example2.always_throttling
                     (Example2.selection_of Example2.lonely) _ _ [] _ _) _).
    + reflexivity.
    + intros v [Hv _]. discriminate Hv.
  - refine (proj2 (backup_missing Example2.table Example2.always_throttling
                     (Example2.selection_of Example2.dangling) _ _ [] _ _)
              "model-gone" _ _).
    + reflexivity.
    + split; [reflexivity|discriminate].
    + reflexivity.
Defined.

Lemma create_provider_client_ok (model_cfg : ModelConfig.t)
    (params : gmap string pyval) (cl : client) :
  _create_provider_client model_cfg params = Ok cl ->
  client_params cl = params /\
  client_model_id cl = ModelConfig.model_id model_cfg.
Proof.
  unfold _create_provider_client.
  repeat (destruct (String.eqb _ _); [by intros [= <-]|]). done.
Qed.

Lemma fallback_resolved (config : RouterConfig.t) (be : backend)
    (model_cfg : ModelConfig.t) (func_arg : argument) (tr : trace)
    (backup_id : string) (backup_cfg : ModelConfig.t) (backup_client : client) :
  set_to "" (ModelConfig.backup_model_id model_cfg) backup_id ->
  RouterConfig.models config !! backup_id = Some backup_cfg ->
  _create_provider_client backup_cfg (ModelConfig.default_params backup_cfg)
  = Ok backup_client ->
  exists ex evs,
    retry_loop (backup_attempt be backup_cfg backup_client func_arg)
      (ModelConfig.retry_policy backup_cfg) 0 tr
    = (ex, tr ++ evs) /\
    fallback config be model_cfg func_arg tr
    = finish ex (tr ++ evs)
        (Raise (BothExhaustedError model_cfg backup_cfg), tr ++ evs) /\
    loop_trace evs ex /\
    1 <= attempts evs
      <= Z.max 1 (RetryPolicy.max_attempts (ModelConfig.retry_policy backup_cfg)) /\
    (ex = Exhausted ->
     attempts evs
     = Z.max 1 (RetryPolicy.max_attempts (ModelConfig.retry_policy backup_cfg))) /\
    Forall (loop_event (eq (backup_call backup_cfg backup_client func_arg))
              (RetryPolicy.backoff_ms (ModelConfig.retry_policy backup_cfg)))
      evs.
Proof.
  intros [Hid Hne] Hlook Hclient.
  destruct (retry_loop_runs _
              (backup_attempt be backup_cfg backup_client func_arg)
              (ModelConfig.retry_policy backup_cfg) tr
              (calls_backup be backup_cfg backup_client func_arg))
    as (ex & evs & Hloop & Hrun & Hcount & Hall & Hevs).
  exists ex, evs. repeat split; try done; try lia.
  unfold fallback. rewrite Hid. simpl.
  destruct (String.eqb_spec backup_id ""); [done|]. simpl.
  rewrite Hlook, Hclient, Hloop. by destruct ex.
Qed.

Lemma fallback_after_exhaustion (config : RouterConfig.t) (be : backend)
    (selection : ModelSelection.t)
    (func : argument -> action (result response)) (func_arg : argument)
    (tr tr1 : trace) (backup_id : string) (backup_cfg : ModelConfig.t)
    (backup_client : client) :
  retry_loop (func func_arg)
    (ModelConfig.retry_policy (ModelSelection.model_config selection)) 0 tr
  = (Exhausted, tr1) ->
  set_to "" (ModelConfig.backup_model_id
               (ModelSelection.model_config selection)) backup_id ->
  RouterConfig.models config !! backup_id = Some backup_cfg ->
  _create_provider_client backup_cfg (ModelConfig.default_params backup_cfg)
  = Ok backup_client ->
  exists ex evs,
    retry_loop (backup_attempt be backup_cfg backup_client func_arg)
      (ModelConfig.retry_policy backup_cfg) 0 tr1
    = (ex, tr1 ++ evs) /\
    _call_with_retry_and_fallback config be selection func func_arg tr
    = finish ex (tr1 ++ evs)
        (Raise (BothExhaustedError (ModelSelection.model_config selection)
                  backup_cfg), tr1 ++ evs) /\
    1 <= attempts evs /\
    Forall (loop_event (eq (backup_call backup_cfg backup_client func_arg))
              (RetryPolicy.backoff_ms (ModelConfig.retry_policy backup_cfg)))
      evs.
Proof.
  intros Hloop Hset Hlook Hclient.
  destruct (fallback_resolved config be (ModelSelection.model_config selection)
              func_arg tr1 backup_id backup_cfg backup_client
              Hset Hlook Hclient)
    as (ex & evs & Hbackup & Hfall & Hrun & Hcount & Hall & Hevs).
  exists ex, evs. repeat split; try done; try lia.
  unfold _call_with_retry_and_fallback. by rewrite Hloop.
Qed.

(** C7. When the primary loop has exhausted its attempts on throttling and
    the backup target resolves (its id is in the policy table and the
    Dispatcher resolves its provider), the backup client carries exactly
    the backup target's own default parameters, whatever parameters the
    primary Selection had; a retry loop is run on it under the backup's own
    retry policy (at least one attempt, at most [max 1 max_attempts] of the
    backup, waits of the backup's backoff), all of whose calls go to that
    client with the caller's argument; the outcome of this loop is the
    outcome of the call, and when it too is exhausted on throttling the
    call fails with [BothExhaustedError]. *)
Theorem backup_on_its_own_terms (config : RouterConfig.t) (be : backend)
    (selection : ModelSelection.t)
    (func : argument -> action (result response)) (func_arg : argument)
    (tr tr1 : trace) (backup_id : string) (backup_cfg : ModelConfig.t)
    (backup_client : client) :
  retry_loop (func func_arg)
    (ModelConfig.retry_policy (ModelSelection.model_config selection)) 0 tr
  = (Exhausted, tr1) ->
  set_to "" (ModelConfig.backup_model_id
               (ModelSelection.model_config selection)) backup_id ->
  RouterConfig.models config !! backup_id = Some backup_cfg ->
  _create_provider_client backup_cfg (ModelConfig.default_params backup_cfg)
  = Ok backup_client ->
  client_params backup_client = ModelConfig.default_params backup_cfg /\
  client_model_id backup_client = ModelConfig.model_id backup_cfg /\
  exists ex evs,
    retry_loop (backup_attempt be backup_cfg backup_client func_arg)
      (ModelConfig.retry_policy backup_cfg) 0 tr1
    = (ex, tr1 ++ evs) /\
    _call_with_retry_and_fallback config be selection func func_arg tr
    = finish ex (tr1 ++ evs)
        (Raise (BothExhaustedError (ModelSelection.model_config selection)
                  backup_cfg), tr1 ++ evs) /\
    loop_trace evs ex /\
    1 <= attempts evs
      <= Z.max 1 (RetryPolicy.max_attempts (ModelConfig.retry_policy backup_cfg)) /\
    (ex = Exhausted ->
     attempts evs
     = Z.max 1 (RetryPolicy.max_attempts (ModelConfig.retry_policy backup_cfg)) /\
     _call_with_retry_and_fallback config be selection func func_arg tr
     = (Raise (BothExhaustedError (ModelSelection.model_config selection)
                 backup_cfg), tr1 ++ evs)) /\
    Forall (loop_event (eq (backup_call backup_cfg backup_client func_arg))
              (RetryPolicy.backoff_ms (ModelConfig.retry_policy backup_cfg)))
      evs.
Proof.
  intros Hloop Hset Hlook Hclient.
  destruct (create_provider_client_ok _ _ _ Hclient) as [Hparams Hmodel].
  split; [done|]. split; [done|].
  destruct (fallback_resolved config be (ModelSelection.model_config selection)
              func_arg tr1 backup_id backup_cfg backup_client
              Hset Hlook Hclient)
    as (ex & evs & Hbackup & Hfall & Hrun & Hcount & Hall & Hevs).
  assert (Hcall : _call_with_retry_and_fallback config be selection func
                    func_arg tr
                  = finish ex (tr1 ++ evs)
                      (Raise (BothExhaustedError
                                (ModelSelection.model_config selection)
                                backup_cfg), tr1 ++ evs)).
  { unfold _call_with_retry_and_fallback. by rewrite Hloop. }
  exists ex, evs. repeat split; try done; try lia.
  - by apply Hall.
  - rewrite Hcall. by subst ex.
Qed.

Lemma backup_on_its_own_terms_witness :
  ModelHandle.chat Example2.always_throttling Example2.premium_handle
    Example2.hello []
  = (Raise (Exc ThrottlingError
       "Primary model model-primary and backup model-backup both throttled"),
     let primary_call :=
       EvCall (Call (Client Anthropic "claude-x"
                       {[ "temperature" := PyFloat 9 (-1) ]})
                 OpChat (Messages Example2.hello))
         (Raise Example2.throttled) in
     let backup_call :=
       EvCall (Call (Client Bedrock "nova-lite" {[ "max_tokens" := PyInt 512 ]})
                 OpChat (Messages Example2.hello))
         (Raise Example2.throttled) in
     [primary_call; EvSleep 200; primary_call;
      backup_call; EvSleep 50; backup_call; EvSleep 50; backup_call]).
Proof.
  destruct (backup_on_its_own_terms Example2.table Example2.always_throttling
              (ModelHandle.selection Example2.premium_handle)
              (client_chat Example2.always_throttling
                 (ModelHandle.provider_client Example2.premium_handle))
              (Messages Example2.hello) []
              [EvCall (Call (ModelHandle.provider_client Example2.premium_handle)
                         OpChat (Messages Example2.hello))
                 (Raise Example2.throttled);
               EvSleep 200;
               EvCall (Call (ModelHandle.provider_client Example2.premium_handle)
                         OpChat (Messages Example2.hello))
                 (Raise Example2.throttled)]
              "model-backup" Example2.backup
              (Example2.bedrock_client_of Example2.backup))
    as (_ & _ & ex & evs & Hbackup & Hcall & _).
  - reflexivity.
  - split; [reflexivity|discriminate].
  - reflexivity.
  - reflexivity.
  - change (ModelHandle.chat Example2.always_throttling
              Example2.premium_handle Example2.hello [])
      with (_call_with_retry_and_fallback Example2.table
              Example2.always_throttling
              (ModelHandle.selection Example2.premium_handle)
              (client_chat Example2.always_throttling
                 (ModelHandle.provider_client Example2.premium_handle))
              (Messages Example2.hello) []).
    rewrite Hcall. vm_compute in Hbackup. injection Hbackup as <- <-.
    reflexivity.
Defined.

(** C10. A chat call that fails over to a backup whose task kind is
    "embedding": nothing in the failover compares the two kinds, and the
    operation of the backup loop is picked by the backup's own kind.  The
    loop performs at least one attempt, and every attempt is the backup
    client's [embed] applied to the conversation that the caller gave to
    [chat]. *)
Theorem failover_follows_backup_kind (be : backend) (handle : ModelHandle.t)
    (messages : list message) (tr tr1 : trace) (backup_id : string)
    (backup_cfg : ModelConfig.t) (backup_client : client) :
  ModelConfig.type (ModelSelection.model_config (ModelHandle.selection handle))
  = "chat" ->
  retry_loop
    (client_chat be (ModelHandle.provider_client handle) (Messages messages))
    (ModelConfig.retry_policy
       (ModelSelection.model_config (ModelHandle.selection handle))) 0 tr
  = (Exhausted, tr1) ->
  set_to "" (ModelConfig.backup_model_id
               (ModelSelection.model_config (ModelHandle.selection handle)))
    backup_id ->
  RouterConfig.models (ModelHandle.router handle) !! backup_id
  = Some backup_cfg ->
  ModelConfig.type backup_cfg = "embedding" ->
  _create_provider_client backup_cfg (ModelConfig.default_params backup_cfg)
  = Ok backup_client ->
  exists ex evs,
    retry_loop (client_embed be backup_client (Messages messages))
      (ModelConfig.retry_policy backup_cfg) 0 tr1
    = (ex, tr1 ++ evs) /\
    ModelHandle.chat be handle messages tr
    = finish ex (tr1 ++ evs)
        (Raise (BothExhaustedError
                  (ModelSelection.model_config (ModelHandle.selection handle))
                  backup_cfg), tr1 ++ evs) /\
    1 <= attempts evs /\
    Forall (loop_event (eq (Call backup_client OpEmbed (Messages messages)))
              (RetryPolicy.backoff_ms (ModelConfig.retry_policy backup_cfg)))
      evs.
Proof.
  intros Hkind Hloop Hset Hlook Hbackup Hclient.
  destruct (fallback_after_exhaustion (ModelHandle.router handle) be
              (ModelHandle.selection handle)
              (client_chat be (ModelHandle.provider_client handle))
              (Messages messages) tr tr1 backup_id backup_cfg backup_client
              Hloop Hset Hlook Hclient)
    as (ex & evs & Hrun & Hcall & Hcount & Hevs).
  unfold backup_attempt, backup_call in *. rewrite Hbackup in *. simpl in *.
  exists ex, evs. repeat split; try done; try lia.
  unfold ModelHandle.chat. by rewrite Hkind.
Qed.

Lemma failover_follows_backup_kind_witness :
  select_model Example2.table "ping" "chat" None None "standard" None
  = Ok (Example2.handle_of Example2.crossed) /\
  ModelHandle.chat Example2.chat_throttling
    (Example2.handle_of Example2.crossed) Example2.hello []
  = (Ok (Response "[0.12, -0.07]"),
     [EvCall (Call (Client Bedrock "nova-pro" ∅) OpChat
                (Messages Example2.hello))
        (Raise Example2.throttled);
      EvCall (Call (Client Bedrock "titan-embed" ∅) OpEmbed
                (Messages Example2.hello))
        (Ok (Response "[0.12, -0.07]"))]).
Proof.
  split; [reflexivity|].
  destruct (failover_follows_backup_kind Example2.chat_throttling
              (Example2.handle_of Example2.crossed) Example2.hello []
              [EvCall (Call (Client Bedrock "nova-pro" ∅) OpChat
                         (Messages Example2.hello))
                 (Raise Example2.throttled)]
              "model-embed" Example2.embedder
              (Example2.bedrock_client_of Example2.embedder))
    as (ex & evs & Hbackup & Hcall & _).
  - reflexivity.
  - reflexivity.
  - split; [reflexivity|discriminate].
  - reflexivity.
  - reflexivity.
  - reflexivity.
  - rewrite Hcall. vm_compute in Hbackup. injection Hbackup as <- <-.
    reflexivity.
Defined.

(** ** The call handle *)

(** C8. [chat] on a handle whose target is not of kind "chat", and [embed]
    on a handle whose target is not of kind "embedding", fail at once with
    the type-mismatch error: whatever the backend and the policy table are,
    the trace is left as it was, so no client call and no wait took place,
    and neither the retry loop nor the backup path was entered. *)
Theorem type_mismatch_immediate (be : backend) (handle : ModelHandle.t)
    (tr : trace) :
  (ModelConfig.type (ModelSelection.model_config (ModelHandle.selection handle))
   <> "chat" ->
   forall messages,
     ModelHandle.chat be handle messages tr
     = (Raise ModelHandle.chat_type_error, tr)) /\
  (ModelConfig.type (ModelSelection.model_config (ModelHandle.selection handle))
   <> "embedding" ->
   forall text,
     ModelHandle.embed be handle text tr
     = (Raise ModelHandle.embed_type_error, tr)) /\
  exc_cls ModelHandle.chat_type_error = TypeError /\
  exc_cls ModelHandle.embed_type_error = TypeError.
Proof.
  split; [|split; [|done]].
  - intros Hkind messages. unfold ModelHandle.chat.
    by destruct (String.eqb_spec
                   (ModelConfig.type
                      (ModelSelection.model_config (ModelHandle.selection handle)))
                   "chat").
  - intros Hkind text. unfold ModelHandle.embed.
    by destruct (String.eqb_spec
                   (ModelConfig.type
                      (ModelSelection.model_config (ModelHandle.selection handle)))
                   "embedding").
Qed.

Lemma type_mismatch_immediate_witness :
  ModelHandle.chat Example2.always_throttling
    (Example2.handle_of Example2.embedder) Example2.hello []
  = (Raise (Exc TypeError "ModelHandle.chat() called on non-chat model"), []) /\
  ModelHandle.embed Example2.always_throttling
    (Example2.handle_of Example2.crossed) "ping" []
  = (Raise (Exc TypeError "ModelHandle.embed() called on non-embedding model"),
     []).
Proof.
  split.
  - apply (type_mismatch_immediate Example2.always_throttling
             (Example2.handle_of Example2.embedder) []).
    discriminate.
  - apply (type_mismatch_immediate Example2.always_throttling
             (Example2.handle_of Example2.crossed) []).
    discriminate.
Defined.

(** ** Feature extraction *)

Lemma estimate_tokens_mono (text1 text2 : string) :
  Str.len text1 <= Str.len text2 ->
  estimate_tokens text1 <= estimate_tokens text2.
Proof.
  intros Hlen. unfold estimate_tokens.
  apply Z.max_le_compat_l. by apply Z.div_le_mono.
Qed.

(** C9. The Feature Extractor is a function of the request descriptor and
    of nothing else: two descriptors with the same text, task kind, context
    token count and tenant tier yield the same feature summary, field by
    field, even when their tenant id or metadata differ, so that extracting
    twice from one descriptor yields identical summaries.  The token
    estimate is monotonic in the length of the text. *)
Theorem feature_extraction_pure :
  (forall task : TaskDescriptor.t,
     build_feature_summary task = build_feature_summary task) /\
  (forall task1 task2 : TaskDescriptor.t,
     TaskDescriptor.text task1 = TaskDescriptor.text task2 ->
     TaskDescriptor.task_type task1 = TaskDescriptor.task_type task2 ->
     TaskDescriptor.context_tokens task1 = TaskDescriptor.context_tokens task2 ->
     TaskDescriptor.tenant_tier task1 = TaskDescriptor.tenant_tier task2 ->
     build_feature_summary task1 = build_feature_summary task2) /\
  (forall text1 text2 : string,
     Str.len text1 <= Str.len text2 ->
     estimate_tokens text1 <= estimate_tokens text2) /\
  (forall text1 text2 : string,
     Str.len text1 = Str.len text2 ->
     estimate_tokens text1 = estimate_tokens text2).
Proof.
  split; [done|]. split; [|split].
  - intros task1 task2 Htext Hkind Hctx Htier. unfold build_feature_summary.
    by rewrite Htext, Hkind, Hctx, Htier.
  - exact estimate_tokens_mono.
  - intros text1 text2 Hlen. unfold estimate_tokens. by rewrite Hlen.
Qed.

Lemma feature_extraction_pure_witness :
  build_feature_summary
    (TaskDescriptor.mk "Explain in detail how routing works" "chat" None
       (Some "tenant_123") "premium" ∅)
  = build_feature_summary
      (TaskDescriptor.mk "Explain in detail how routing works" "chat" None
         None "premium" {[ "trace_id" := PyStr "abc" ]}) /\
  estimate_tokens "ping" <= estimate_tokens "Explain in detail".
Proof.
  destruct feature_extraction_pure as (_ & Hsame & Hmono & _). split.
  - by apply Hsame.
  - apply Hmono. vm_compute. discriminate.
Defined.


(** * Further properties *)

(** ** Feature extraction, continued *)

Lemma len_nonneg (s : string) : 0 <= Str.len s.
Proof. unfold Str.len. lia. Qed.

Lemma len_cons (c : ascii) (s : string) : Str.len (String c s) = 1 + Str.len s.
Proof. unfold Str.len. simpl. lia. Qed.

Lemma len_zero (s : string) : Str.len s = 0 <-> s = "".
Proof.
  destruct s as [|c s]; [done|]. rewrite len_cons.
  pose proof (len_nonneg s). split; [lia|done].
Qed.

Lemma count_ascii_bounds (s : string) : 0 <= Str.count_ascii s <= Str.len s.
Proof.
  induction s as [|c s IH]; [done|]. rewrite len_cons. simpl.
  destruct (N_of_ascii c <? 128)%N; lia.
Qed.

Lemma lower_app (s t : string) :
  Str.lower (s +:+ t) = Str.lower s +:+ Str.lower t.
Proof.
  induction s as [|c s IH]; [done|].
  rewrite append_cons. simpl. by rewrite IH, append_cons.
Qed.

Lemma occurs_in_lower (k s : string) :
  occurs_in k s -> occurs_in (Str.lower k) (Str.lower s).
Proof.
  intros (pre & post & ->). exists (Str.lower pre), (Str.lower post).
  by rewrite !lower_app.
Qed.

(** X1. The token estimate is the length of the text divided by four and
    rounded down, but never less than 1: every text shorter than eight
    characters, the empty one included, is estimated at one token. *)
Theorem token_estimate_bounds (text : string) :
  1 <= estimate_tokens text /\
  (Str.len text < 8 <-> estimate_tokens text = 1) /\
  (4 <= Str.len text ->
   4 * estimate_tokens text <= Str.len text < 4 * estimate_tokens text + 4).
Proof.
  unfold estimate_tokens. pose proof (len_nonneg text).
  split; [lia|].
  split; [split; intros ?|intros ?]; Z.to_euclidean_division_equations; lia.
Qed.

Lemma token_estimate_bounds_witness :
  estimate_tokens "" = 1 /\
  4 * estimate_tokens "What is the capital of France?"
  <= Str.len "What is the capital of France?".
Proof.
  split.
  - apply (token_estimate_bounds ""). reflexivity.
  - apply (token_estimate_bounds "What is the capital of France?").
    vm_compute. discriminate.
Defined.

(** X2. The size class of a request is decided by the length of its text:
    small below 1024 characters, large from 8192 characters on, medium in
    between. *)
Theorem size_class_by_length (task : TaskDescriptor.t) :
  (FeatureSummary.size_class (build_feature_summary task) = "small" <->
   Str.len (TaskDescriptor.text task) < 1024) /\
  (FeatureSummary.size_class (build_feature_summary task) = "medium" <->
   1024 <= Str.len (TaskDescriptor.text task) < 8192) /\
  (FeatureSummary.size_class (build_feature_summary task) = "large" <->
   8192 <= Str.len (TaskDescriptor.text task)).
Proof.
  simpl. unfold classify_size, estimate_tokens.
  pose proof (len_nonneg (TaskDescriptor.text task)).
  destruct (Z.ltb_spec (Z.max 1 (Str.len (TaskDescriptor.text task) / 4)) 256);
    [|destruct (Z.ltb_spec (Z.max 1 (Str.len (TaskDescriptor.text task) / 4))
                 2048)];
    (split; [|split]; (split; [intros [=]|intros ?]); try done;
     Z.to_euclidean_division_equations; lia).
Qed.

(** X3. The language class: the empty text is "multi"; a text is "en"
    exactly when it is not empty and fewer than one in five of its
    characters are outside ASCII, so a non-empty text of ASCII characters
    only is "en" and a text without any ASCII character is "multi". *)
Theorem language_by_share_of_ascii (text : string) :
  (detect_language text = "en" <->
   text <> "" /\ 5 * count_other text < Str.len text) /\
  (detect_language text = "multi" <->
   text = "" \/ Str.len text <= 5 * count_other text) /\
  (text <> "" -> count_other text = 0 -> detect_language text = "en") /\
  (Str.count_ascii text = 0 -> detect_language text = "multi").
Proof.
  unfold detect_language, count_other.
  pose proof (count_ascii_bounds text) as Hc.
  pose proof (len_zero text) as Hz.
  assert (Hempty : text = "" -> Str.len text = 0) by (by intros ->).
  assert (Hfilled : text <> "" -> 0 < Str.len text).
  { intros Hne. destruct (decide (Str.len text = 0)) as [H0|H0];
      [by apply Hz in H0|lia]. }
  destruct (Z.ltb_spec (4 * Z.max 1 (Str.len text))
              (5 * Str.count_ascii text)) as [Hlt|Hge].
  - split; [|split; [|split]].
    + split; [intros _|done]. split; [|lia].
      intros Htext. specialize (Hempty Htext). lia.
    + split; [done|]. intros [Htext|?]; [specialize (Hempty Htext)|]; lia.
    + done.
    + intros ?. lia.
  - split; [|split; [|split]].
    + split; [done|]. intros [Hne ?]. specialize (Hfilled Hne). lia.
    + split; [|done]. intros _.
      destruct (decide (text = "")) as [?|Hne]; [by left|right].
      specialize (Hfilled Hne). lia.
    + intros Hne ?. specialize (Hfilled Hne). lia.
    + done.
Qed.

Lemma language_by_share_of_ascii_witness :
  detect_language "What is the capital of France?" = "en" /\
  detect_language "" = "multi".
Proof.
  split.
  - apply (language_by_share_of_ascii "What is the capital of France?");
      [discriminate|reflexivity].
  - apply (language_by_share_of_ascii ""). reflexivity.
Defined.

Lemma contains_true (k s : string) :
  occurs_in k s -> Str.contains k s = true.
Proof. apply contains_spec. Qed.

Lemma contains_false (k s : string) :
  ~ occurs_in k s -> Str.contains k s = false.
Proof.
  intros Hno. destruct (Str.contains k s) eqn:Hc; [|done].
  by apply contains_spec in Hc.
Qed.

Lemma contains_spec_false (k s : string) :
  Str.contains k s = false -> ~ occurs_in k s.
Proof. intros Hc Hin. apply contains_spec in Hin. congruence. Qed.

(** X4. The complexity class is one of three levels.  A trigger phrase,
    "explain in detail" or "architecture" in any mix of upper and lower
    case, anywhere in the text, makes it "high" whatever the length;
    without a trigger phrase the length decides: "low" up to 300
    characters, "medium" up to 1000, "high" beyond. *)
Theorem complexity_levels (text : string) :
  (estimate_complexity text = "low" \/ estimate_complexity text = "medium"
   \/ estimate_complexity text = "high") /\
  (forall phrase,
     occurs_in phrase text ->
     Str.lower phrase = "explain in detail"
     \/ Str.lower phrase = "architecture" ->
     estimate_complexity text = "high") /\
  (~ occurs_in "explain in detail" (Str.lower text) ->
   ~ occurs_in "architecture" (Str.lower text) ->
   (estimate_complexity text = "low" <-> Str.len text <= 300) /\
   (estimate_complexity text = "medium" <-> 300 < Str.len text <= 1000) /\
   (estimate_complexity text = "high" <-> 1000 < Str.len text)).
Proof.
  unfold estimate_complexity. split; [|split].
  - destruct (_ || _); [by auto|].
    destruct (1000 <? Str.len text); [by auto|].
    destruct (300 <? Str.len text); by auto.
  - intros phrase Hin Hphrase. apply occurs_in_lower in Hin.
    destruct Hphrase as [Heq|Heq]; rewrite Heq in Hin;
      rewrite (contains_true _ _ Hin); [done|by rewrite orb_true_r].
  - intros Hno1 Hno2.
    rewrite (contains_false _ _ Hno1), (contains_false _ _ Hno2). simpl.
    destruct (Z.ltb_spec 1000 (Str.len text));
      [|destruct (Z.ltb_spec 300 (Str.len text))];
      (split; [|split]; (split; [intros [=]|intros ?]); try done; lia).
Qed.

Lemma complexity_levels_witness :
  estimate_complexity "Our ARCHITECTURE docs" = "high" /\
  estimate_complexity "What is the capital of France?" = "low".
Proof.
  split.
  - apply (complexity_levels "Our ARCHITECTURE docs") with "ARCHITECTURE".
    + by exists "Our ", " docs".
    + by right.
  - apply (complexity_levels "What is the capital of France?").
    + apply contains_spec_false. reflexivity.
    + apply contains_spec_false. reflexivity.
    + vm_compute. discriminate.
Defined.

(** ** Capacity, continued *)

(** X5. The capacity check in terms of the request.  An embedding request
    against a target with a max chunk size of at least one token passes
    exactly when its text is shorter than [4 * (max + 1)] characters; a
    chat request whose context size is unknown is taken to have no
    context, and passes any non-negative max context size. *)
Theorem capacity_of_a_request (task : TaskDescriptor.t)
    (model_cfg : ModelConfig.t) (limit : Z) :
  (TaskDescriptor.task_type task = "embedding" ->
   ModelConfig.max_chunk_tokens model_cfg = Some limit ->
   1 <= limit ->
   (_ensure_context_limit model_cfg (build_feature_summary task) = Ok tt <->
    Str.len (TaskDescriptor.text task) < 4 * (limit + 1))) /\
  (TaskDescriptor.task_type task = "chat" ->
   TaskDescriptor.context_tokens task = None ->
   ModelConfig.max_context_tokens model_cfg = Some limit ->
   0 <= limit ->
   _ensure_context_limit model_cfg (build_feature_summary task) = Ok tt).
Proof.
  split.
  - intros Hkind Hmax Hlimit. unfold _ensure_context_limit. simpl.
    rewrite Hkind, Hmax. simpl.
    pose proof (len_nonneg (TaskDescriptor.text task)).
    destruct (Z.eqb_spec limit 0); [lia|]. simpl. unfold estimate_tokens.
    destruct (Z.ltb_spec limit
                (Z.max 1 (Str.len (TaskDescriptor.text task) / 4)));
      (split; [intros [=]|intros ?]); try done;
      Z.to_euclidean_division_equations; lia.
  - intros Hkind Hctx Hmax Hlimit. unfold _ensure_context_limit. simpl.
    rewrite Hkind, Hctx, Hmax. simpl.
    destruct (Z.eqb_spec limit 0); [done|]. simpl.
    change (or_zero None) with 0.
    by destruct (Z.ltb_spec limit 0); [lia|].
Qed.

Lemma capacity_of_a_request_witness :
  _ensure_context_limit Example2.embedder
    (build_feature_summary
       (TaskDescriptor.mk "Serverless RAG architecture details..." "embedding"
          None None "standard" ∅)) = Ok tt /\
  _ensure_context_limit Example1.strong
    (build_feature_summary
       (TaskDescriptor.mk "What is the capital of France?" "chat"
          None None "premium" ∅)) = Ok tt.
Proof.
  split.
  - apply (proj1 (capacity_of_a_request
                    (TaskDescriptor.mk "Serverless RAG architecture details..."
                       "embedding" None None "standard" ∅)
                    Example2.embedder 8192));
      [reflexivity|reflexivity|lia|vm_compute; reflexivity].
  - apply (proj2 (capacity_of_a_request
                    (TaskDescriptor.mk "What is the capital of France?" "chat"
                       None None "premium" ∅)
                    Example1.strong 4096));
      [reflexivity|reflexivity|reflexivity|lia].
Defined.

Lemma ensure_raises_capacity (model_cfg : ModelConfig.t)
    (features : FeatureSummary.t) (e : exception) :
  _ensure_context_limit model_cfg features = Raise e ->
  e = context_exceeded model_cfg features
  \/ e = chunk_exceeded model_cfg features.
Proof.
  unfold _ensure_context_limit.
  destruct (_ && _); [intros [= <-]; by left|].
  destruct (_ && _); [intros [= <-]; by right|done].
Qed.

(** X6. Which limit applies is decided by the task kind of the request
    alone: a chat request can only be refused for its context size, an
    embedding request only for its chunk size, and a request of any other
    kind is never refused, whatever limits the target declares. *)
Theorem capacity_by_kind (model_cfg : ModelConfig.t)
    (features : FeatureSummary.t) :
  (FeatureSummary.task_type features = "chat" ->
   _ensure_context_limit model_cfg features = Ok tt
   \/ _ensure_context_limit model_cfg features
      = Raise (context_exceeded model_cfg features)) /\
  (FeatureSummary.task_type features = "embedding" ->
   _ensure_context_limit model_cfg features = Ok tt
   \/ _ensure_context_limit model_cfg features
      = Raise (chunk_exceeded model_cfg features)) /\
  (FeatureSummary.task_type features <> "chat" ->
   FeatureSummary.task_type features <> "embedding" ->
   _ensure_context_limit model_cfg features = Ok tt).
Proof.
  unfold _ensure_context_limit. split; [|split].
  - intros ->. simpl. destruct (_ && _); by auto.
  - intros ->. simpl. destruct (_ && _); by auto.
  - intros Hchat Hembed.
    destruct (String.eqb_spec (FeatureSummary.task_type features) "chat");
      [done|].
    by destruct (String.eqb_spec (FeatureSummary.task_type features)
                   "embedding").
Qed.

Lemma capacity_by_kind_witness :
  _ensure_context_limit
    (ModelConfig.mk "model-tiny" "bedrock" "chat" "tiny-v1" (Some 1) (Some 1)
       None None "low" ∅ None RetryPolicy.default)
    (FeatureSummary.mk "completion" 9000 "large" "en" "high" 9000 "free")
  = Ok tt.
Proof.
  apply (proj2 (proj2 (capacity_by_kind
           (ModelConfig.mk "model-tiny" "bedrock" "chat" "tiny-v1" (Some 1)
              (Some 1) None None "low" ∅ None RetryPolicy.default)
           (FeatureSummary.mk "completion" 9000 "large" "en" "high" 9000
              "free")))); discriminate.
Defined.

(** ** The Selector, continued *)

Lemma no_winner (rules : list RoutingRule.t) (features : FeatureSummary.t) :
  Forall (fun rule => _rule_matches rule features = false) rules ->
  winner rules features = None.
Proof.
  induction 1 as [|rule rules Hno _ IH]; simpl; [done|]. by rewrite Hno.
Qed.

Lemma winner_matches (rules : list RoutingRule.t)
    (features : FeatureSummary.t) (rule : RoutingRule.t) :
  winner rules features = Some rule ->
  rule ∈ rules /\ _rule_matches rule features = true.
Proof.
  induction rules as [|r rules IH]; simpl; [done|].
  destruct (_rule_matches r features) eqn:Hr.
  - intros [= <-]. split; [by left|done].
  - intros Hw. destruct (IH Hw). split; [by right|done].
Qed.

(** The default target id that the Selector falls back to. *)
Lemma select_without_winner (config : RouterConfig.t)
    (features : FeatureSummary.t) :
  winner (RouterConfig.rules config) features = None ->
  _select_model_for_features config features = select_default config features.
Proof.
  intros Hw. unfold _select_model_for_features.
  by rewrite try_rules_winner, Hw.
Qed.

(** X7. When no rule matches, the Selector falls back to the default of the
    task kind: the chat default for a chat request, the embedding default
    for a request of any other kind.  A default that is missing or empty
    fails with the no-default error; one that is set selects its target
    with exactly the target's default parameters, provided the target is in
    the table and the request is within its capacity, and fails with
    [KeyError], whose text is the [repr] of the id, when the target is not
    in the table. *)
Theorem default_selection (config : RouterConfig.t)
    (features : FeatureSummary.t) (default_id : option string) :
  Forall (fun rule => _rule_matches rule features = false)
    (RouterConfig.rules config) ->
  (FeatureSummary.task_type features = "chat" /\
   default_id = RouterConfig.default_chat_model_id config) \/
  (FeatureSummary.task_type features <> "chat" /\
   default_id = RouterConfig.default_embedding_model_id config) ->
  (unset "" default_id ->
   _select_model_for_features config features = Raise (no_default features)) /\
  (forall target, set_to "" default_id target ->
     (RouterConfig.models config !! target = None ->
      _select_model_for_features config features
      = Raise (Exc KeyError (Str.repr target))) /\
     (forall model_cfg,
        RouterConfig.models config !! target = Some model_cfg ->
        _ensure_context_limit model_cfg features = Ok tt ->
        _select_model_for_features config features
        = Ok (ModelSelection.mk model_cfg
                (ModelConfig.default_params model_cfg)))).
Proof.
  intros Hnone Hkind.
  rewrite (select_without_winner _ _ (no_winner _ _ Hnone)).
  unfold select_default.
  assert (Hid : (if String.eqb (FeatureSummary.task_type features) "chat"
                 then RouterConfig.default_chat_model_id config
                 else RouterConfig.default_embedding_model_id config)
                = default_id).
  { destruct Hkind as [[Hk ->]|[Hk ->]].
    - by rewrite Hk.
    - by destruct (String.eqb_spec (FeatureSummary.task_type features) "chat"). }
  rewrite Hid. split.
  - intros Hunset. by rewrite (unset_string _ Hunset).
  - intros target [-> Hne]. simpl.
    destruct (String.eqb_spec target ""); [done|]. simpl. unfold getitem.
    split.
    + by intros ->.
    + intros model_cfg -> Hcap. by rewrite Hcap.
Qed.

Lemma default_selection_witness :
  _select_model_for_features Example2.table
    (FeatureSummary.mk "completion" 3 "small" "en" "low" 0 "standard")
  = Ok (Example2.selection_of Example2.embedder) /\
  _select_model_for_features (RouterConfig.mk ∅ [] (Some "it's") None)
    Example1.request
  = Raise (Exc KeyError (String Str.dquote ("it's" +:+ String Str.dquote ""))).
Proof.
  split.
  - destruct (default_selection Example2.table
                (FeatureSummary.mk "completion" 3 "small" "en" "low" 0
                   "standard")
                (Some "model-embed")) as [_ Hset].
    + repeat constructor.
    + right. split; [discriminate|reflexivity].
    + destruct (Hset "model-embed") as [_ Hok];
        [split; [reflexivity|discriminate]|].
      apply (Hok Example2.embedder); reflexivity.
  - destruct (default_selection (RouterConfig.mk ∅ [] (Some "it's") None)
                Example1.request (Some "it's")) as [_ Hset].
    + constructor.
    + left. split; reflexivity.
    + destruct (Hset "it's") as [Hmissing _];
        [split; [reflexivity|discriminate]|].
      exact (Hmissing eq_refl).
Defined.

(** X8. The Selector fails in three ways only: with the [KeyError] of a
    target id that is not in the table, whose text is the [repr] of the
    id, with the capacity error, or with the no-default error. *)
Theorem selection_errors (config : RouterConfig.t)
    (features : FeatureSummary.t) (e : exception) :
  _select_model_for_features config features = Raise e ->
  (exists target,
     RouterConfig.models config !! target = None /\
     e = Exc KeyError (Str.repr target)) \/
  CapacityExceededError e \/
  e = no_default features.
Proof.
  unfold _select_model_for_features. rewrite try_rules_winner.
  destruct (winner _ _) as [rule|]; simpl.
  - unfold select_by_rule, getitem.
    destruct (RouterConfig.models config !! RoutingRule.use_model rule)
      as [model_cfg|] eqn:Hlook.
    + destruct (_ensure_context_limit model_cfg features) as [[]|e'] eqn:Hcap;
        [done|]. intros [= <-]. right; left.
      exists model_cfg, features. by apply ensure_raises_capacity.
    + intros [= <-]. left. by exists (RoutingRule.use_model rule).
  - unfold select_default, getitem.
    destruct (negb _); [intros [= <-]; by right; right|].
    destruct (RouterConfig.models config !! _) as [model_cfg|] eqn:Hlook.
    + destruct (_ensure_context_limit model_cfg features) as [[]|e'] eqn:Hcap;
        [done|]. intros [= <-]. right; left.
      exists model_cfg, features. by apply ensure_raises_capacity.
    + intros [= <-]. left. by eexists.
Qed.

Lemma selection_errors_witness :
  CapacityExceededError
    (Exc ValueError
       "Context (5000) exceeds model max_context_tokens (4096) for model model-strong") /\
  exists target,
    Exc KeyError (String Str.dquote ("it's" +:+ String Str.dquote ""))
    = Exc KeyError (Str.repr target).
Proof.
  split.
  - destruct (selection_errors Example1.table
                (FeatureSummary.mk "chat" 12 "small" "en" "high" 5000 "premium")
                (Exc ValueError
                   "Context (5000) exceeds model max_context_tokens (4096) for model model-strong"))
      as [(target & _ & Hkey)|[Hcap|Hno]].
    + reflexivity.
    + discriminate Hkey.
    + exact Hcap.
    + discriminate Hno.
  - destruct (selection_errors (RouterConfig.mk ∅ [] (Some "it's") None)
                Example1.request
                (Exc KeyError
                   (String Str.dquote ("it's" +:+ String Str.dquote ""))))
      as [(target & _ & Hkey)|[(model_cfg & features & [Hcap|Hcap])|Hno]].
    + reflexivity.
    + exists target. exact Hkey.
    + unfold context_exceeded in Hcap. discriminate Hcap.
    + unfold chunk_exceeded in Hcap. discriminate Hcap.
    + discriminate Hno.
Defined.

(** X9. The parameters of a Selection made by a rule: a key that the rule
    overrides has the rule's value, every other key has the value of the
    target's defaults, and no other key is present. *)
Theorem merged_parameters (config : RouterConfig.t)
    (features : FeatureSummary.t) (rule : RoutingRule.t)
    (sel : ModelSelection.t) (key : string) :
  winner (RouterConfig.rules config) features = Some rule ->
  _select_model_for_features config features = Ok sel ->
  ModelSelection.params sel !! key =
  match RoutingRule.override_params rule !! key with
  | Some v => Some v
  | None =>
      ModelConfig.default_params (ModelSelection.model_config sel) !! key
  end.
Proof.
  intros Hw Hsel. rewrite (select_winner _ _ _ Hw) in Hsel.
  destruct (select_by_rule_ok _ _ _ _ Hsel) as (_ & -> & _).
  rewrite lookup_union.
  destruct (RoutingRule.override_params rule !! key);
    by destruct (ModelConfig.default_params _ !! key).
Qed.

Lemma merged_parameters_witness :
  ModelSelection.params
    (ModelSelection.mk Example1.strong
       {[ "max_tokens" := PyInt 2048; "temperature" := PyFloat 2 (-1) ]})
  !! "temperature" = Some (PyFloat 2 (-1)).
Proof.
  rewrite (merged_parameters Example1.table Example1.request
             Example1.premium_rule _ "temperature"); reflexivity.
Defined.

(** ** Handles *)

Lemma features_ignore_tenant_and_metadata (text task_type : string)
    (context_tokens : option Z) (tenant_id tenant_id' : option string)
    (tenant_tier : string) (metadata metadata' : gmap string pyval) :
  build_feature_summary
    (TaskDescriptor.mk text task_type context_tokens tenant_id tenant_tier
       metadata)
  = build_feature_summary
      (TaskDescriptor.mk text task_type context_tokens tenant_id' tenant_tier
         metadata').
Proof. reflexivity. Qed.

Lemma create_provider_client_cases (model_cfg : ModelConfig.t)
    (params : gmap string pyval) :
  ((ModelConfig.provider model_cfg ∈ ["bedrock"; "anthropic"; "gemini"]) /\
   exists kind,
     _create_provider_client model_cfg params
     = Ok (Client kind (ModelConfig.model_id model_cfg) params)) \/
  ((ModelConfig.provider model_cfg ∉ ["bedrock"; "anthropic"; "gemini"]) /\
   _create_provider_client model_cfg params
   = Raise (unsupported_provider model_cfg)).
Proof.
  unfold _create_provider_client. rewrite !list_elem_of_In. simpl.
  destruct (String.eqb_spec (ModelConfig.provider model_cfg) "bedrock")
    as [->|Hb]; [left; split; [by auto|by eexists]|].
  destruct (String.eqb_spec (ModelConfig.provider model_cfg) "anthropic")
    as [->|Ha]; [left; split; [by auto|by eexists]|].
  destruct (String.eqb_spec (ModelConfig.provider model_cfg) "gemini")
    as [->|Hg]; [left; split; [by auto|by eexists]|].
  right. split; [|done]. intros [?|[?|[?|[]]]]; congruence.
Qed.

(** X10. What [select_model] builds.  The tenant id and the metadata of a
    request have no influence on the outcome, and a context size of 0 is
    the same as an unknown one.  A handle that is returned holds the
    Selection of the Selector for the features of the request, a client
    for the backend model of that target carrying the Selection's merged
    parameters, and the table it was selected from; and when the Selector
    succeeds on a target whose provider is none of "bedrock", "anthropic"
    and "gemini", no handle is returned: the call fails with the
    unsupported-provider error. *)
Theorem handle_construction (config : RouterConfig.t) (text task_type : string)
    (context_tokens : option Z) (tenant_id : option string)
    (tenant_tier : string) (metadata : option (gmap string pyval)) :
  (forall tenant_id' metadata',
     select_model config text task_type context_tokens tenant_id' tenant_tier
       metadata'
     = select_model config text task_type context_tokens tenant_id tenant_tier
         metadata) /\
  select_model config text task_type (Some 0) tenant_id tenant_tier metadata
  = select_model config text task_type None tenant_id tenant_tier metadata /\
  (forall handle,
     select_model config text task_type context_tokens tenant_id tenant_tier
       metadata = Ok handle ->
     ModelHandle.router handle = config /\
     _select_model_for_features config
       (build_feature_summary
          (TaskDescriptor.mk text task_type context_tokens tenant_id
             tenant_tier (default ∅ metadata)))
     = Ok (ModelHandle.selection handle) /\
     client_params (ModelHandle.provider_client handle)
     = ModelSelection.params (ModelHandle.selection handle) /\
     client_model_id (ModelHandle.provider_client handle)
     = ModelConfig.model_id
         (ModelSelection.model_config (ModelHandle.selection handle))) /\
  (forall sel,
     _select_model_for_features config
       (build_feature_summary
          (TaskDescriptor.mk text task_type context_tokens tenant_id
             tenant_tier (default ∅ metadata)))
     = Ok sel ->
     ModelConfig.provider (ModelSelection.model_config sel)
     ∉ ["bedrock"; "anthropic"; "gemini"] ->
     select_model config text task_type context_tokens tenant_id tenant_tier
       metadata
     = Raise (unsupported_provider (ModelSelection.model_config sel))).
Proof.
  split; [done|]. split; [done|]. split.
  - intros handle. unfold select_model.
    destruct (_select_model_for_features _ _) as [sel|]; [|done].
    destruct (_create_provider_client _ _) as [cl|] eqn:Hcl; [|done].
    intros [= <-]. simpl.
    by destruct (create_provider_client_ok _ _ _ Hcl).
  - intros sel Hsel Hprov. unfold select_model. rewrite Hsel.
    destruct (create_provider_client_cases (ModelSelection.model_config sel)
                (ModelSelection.params sel)) as [[? _]|[_ ->]]; done.
Qed.

Lemma handle_construction_witness :
  ModelHandle.router Example2.premium_handle = Example2.table /\
  client_params (ModelHandle.provider_client Example2.premium_handle)
  = {[ "temperature" := PyFloat 9 (-1) ]}.
Proof.
  destruct (handle_construction Example2.table "ping" "chat" None
              (Some "tenant_123") "premium" None) as (_ & _ & Hok & _).
  destruct (Hok Example2.premium_handle) as (Hrouter & _ & Hparams & _);
    [reflexivity|].
  split; [exact Hrouter|exact Hparams].
Defined.

(** ** The invoker, continued *)

Lemma waits_app (evs1 evs2 : trace) :
  waits (evs1 ++ evs2) = waits evs1 + waits evs2.
Proof.
  induction evs1 as [|[c out|ms] evs1 IH]; simpl; lia.
Qed.

(** A loop waits between two attempts and nowhere else. *)
Lemma loop_trace_waits (evs : trace) (ex : loop_exit) :
  loop_trace evs ex -> waits evs = attempts evs - 1.
Proof. induction 1; simpl; lia. Qed.



(** The ways through the backup path. *)
Lemma fallback_cases (config : RouterConfig.t) (be : backend)
    (model_cfg : ModelConfig.t) (func_arg : argument) (tr : trace) :
  (backup_of config model_cfg = None /\
   (fallback config be model_cfg func_arg tr
    = (Raise (ExhaustedNoBackupError model_cfg), tr)
    \/ fallback config be model_cfg func_arg tr
       = (Raise (BackupNotFoundError model_cfg), tr))) \/
  (exists backup_cfg,
     backup_of config model_cfg = Some backup_cfg /\
     (fallback config be model_cfg func_arg tr
      = (Raise (unsupported_provider backup_cfg), tr)
      \/ exists ex evs,
           loop_trace evs ex /\
           1 <= attempts evs <= attempt_budget backup_cfg /\
           fallback config be model_cfg func_arg tr
           = finish ex (tr ++ evs)
               (Raise (BothExhaustedError model_cfg backup_cfg), tr ++ evs))).
Proof.
  unfold fallback, backup_of.
  destruct (truthy_str (ModelConfig.backup_model_id model_cfg)); simpl;
    [|left; by auto].
  destruct (RouterConfig.models config !! _) as [backup_cfg|];
    [|left; by auto].
  right. exists backup_cfg. split; [done|].
  destruct (create_provider_client_cases backup_cfg
              (ModelConfig.default_params backup_cfg))
    as [[_ [kind ->]]|[_ ->]]; [|by left].
  right.
  destruct (retry_loop_runs _
              (backup_attempt be backup_cfg
                 (Client kind (ModelConfig.model_id backup_cfg)
                    (ModelConfig.default_params backup_cfg)) func_arg)
              (ModelConfig.retry_policy backup_cfg) tr
              (calls_backup be backup_cfg _ func_arg))
    as (ex & evs & -> & Hrun & Hcount & _).
  exists ex, evs. split; [done|]. split; [done|]. by destruct ex.
Qed.

(** X11. The cost of one invocation.  It makes at least one client call and
    at most as many as the retry policies of the primary target and of its
    backup allow together, [max 1 max_attempts] each; and it waits fewer
    times than it calls. *)
Theorem invocation_cost (config : RouterConfig.t) (be : backend)
    (selection : ModelSelection.t)
    (func : argument -> action (result response)) (func_arg : argument)
    (tr : trace) :
  single_call (func func_arg) ->
  exists res evs,
    _call_with_retry_and_fallback config be selection func func_arg tr
    = (res, tr ++ evs) /\
    1 <= attempts evs
      <= attempt_budget (ModelSelection.model_config selection)
         + from_option attempt_budget 0
             (backup_of config (ModelSelection.model_config selection)) /\
    waits evs < attempts evs.
Proof.
  intros Hact. unfold _call_with_retry_and_fallback.
  destruct (retry_loop_runs _ (func func_arg)
              (ModelConfig.retry_policy (ModelSelection.model_config selection))
              tr Hact) as (ex & evs & -> & Hrun & Hcount & _).
  pose proof (loop_trace_waits _ _ Hrun) as Hwaits.
  assert (Hextra : 0 <= from_option attempt_budget 0
                          (backup_of config
                             (ModelSelection.model_config selection))).
  { destruct (backup_of _ _); simpl; unfold attempt_budget; lia. }
  fold (attempt_budget (ModelSelection.model_config selection)) in Hcount.
  destruct ex as [r|e|].
  1-2: eexists _, evs; split; [done|]; lia.
  destruct (fallback_cases config be (ModelSelection.model_config selection)
              func_arg (tr ++ evs))
    as [[_ [->| ->]]|(backup_cfg & Hb & [->|(ex & evs2 & Hrun2 & Hcount2 & ->)])].
  1-3: eexists _, evs; split; [done|]; lia.
  pose proof (loop_trace_waits _ _ Hrun2) as Hwaits2.
  rewrite Hb. simpl.
  exists (finish ex ((tr ++ evs) ++ evs2)
            (Raise (BothExhaustedError
                      (ModelSelection.model_config selection) backup_cfg),
             (tr ++ evs) ++ evs2)).1, (evs ++ evs2).
  rewrite attempts_app, waits_app. split; [|lia].
  rewrite app_assoc. by destruct ex.
Qed.

Lemma invocation_cost_witness :
  exists res evs,
    ModelHandle.chat Example2.always_throttling Example2.premium_handle
      Example2.hello [] = (res, [] ++ evs) /\
    1 <= attempts evs <= 2 + 3.
Proof.
  destruct (invocation_cost Example2.table Example2.always_throttling
              (ModelHandle.selection Example2.premium_handle)
              (client_chat Example2.always_throttling
                 (ModelHandle.provider_client Example2.premium_handle))
              (Messages Example2.hello) [])
    as (res & evs & Hcall & Hcount & _).
  - intros tr. eexists _, _. split; [exact I|reflexivity].
  - exists res, evs. split; [exact Hcall|exact Hcount].
Defined.



(** X13. Failover is one level deep: the backup id that the backup target
    itself declares is never looked at.  Giving the backup of the primary
    any other backup id, or none, changes nothing in an invocation. *)
Theorem failover_is_one_level (config : RouterConfig.t) (be : backend)
    (selection : ModelSelection.t)
    (func : argument -> action (result response)) (func_arg : argument)
    (tr : trace) (backup_id : string) (backup_cfg : ModelConfig.t)
    (other : option string) :
  set_to "" (ModelConfig.backup_model_id
               (ModelSelection.model_config selection)) backup_id ->
  RouterConfig.models config !! backup_id = Some backup_cfg ->
  _call_with_retry_and_fallback
    (with_models config
       (<[backup_id := with_backup_model_id backup_cfg other]>
          (RouterConfig.models config)))
    be selection func func_arg tr
  = _call_with_retry_and_fallback config be selection func func_arg tr.
Proof.
  intros [Hid Hne] Hlook. unfold _call_with_retry_and_fallback.
  destruct (retry_loop _ _ _ _) as [[r|e|] tr1]; try done.
  unfold fallback. rewrite Hid. simpl.
  destruct (String.eqb_spec backup_id ""); [done|]. simpl.
  by rewrite lookup_insert_eq, Hlook.
Qed.

Lemma failover_is_one_level_witness :
  ModelHandle.chat Example2.always_throttling
    (ModelHandle.mk (ModelHandle.selection Example2.premium_handle)
       (ModelHandle.provider_client Example2.premium_handle)
       (with_models Example2.table
          (<["model-backup" :=
               with_backup_model_id Example2.backup (Some "model-embed")]>
             (RouterConfig.models Example2.table))))
    Example2.hello []
  = ModelHandle.chat Example2.always_throttling Example2.premium_handle
      Example2.hello [].
Proof.
  apply (failover_is_one_level Example2.table Example2.always_throttling
           (ModelHandle.selection Example2.premium_handle)
           (client_chat Example2.always_throttling
              (ModelHandle.provider_client Example2.premium_handle))
           (Messages Example2.hello) [] "model-backup" Example2.backup
           (Some "model-embed")).
  - split; [reflexivity|discriminate].
  - reflexivity.
Defined.

(** X14. [embed] on an Anthropic or a Gemini client is final: on a handle of
    an embedding target served by one of these two providers it fails with
    [NotImplementedError] at the first and only client call, without wait,
    retry or failover, whatever the retry policy, the backup and the
    backend are. *)
Theorem embed_not_implemented_is_final (be : backend)
    (handle : ModelHandle.t) (text : string) (tr : trace) :
  ModelConfig.type (ModelSelection.model_config (ModelHandle.selection handle))
  = "embedding" ->
  client_kind (ModelHandle.provider_client handle) <> Bedrock ->
  ModelHandle.embed be handle text tr
  = (Raise (embed_not_implemented
              (client_kind (ModelHandle.provider_client handle))),
     tr ++ [EvCall (Call (ModelHandle.provider_client handle) OpEmbed
                      (Text text))
              (Raise (embed_not_implemented
                        (client_kind (ModelHandle.provider_client handle))))]).
Proof.
  intros Hkind Hprov. unfold ModelHandle.embed. rewrite Hkind. simpl.
  unfold _call_with_retry_and_fallback. rewrite retry_loop_step.
  unfold client_embed.
  by destruct (client_kind (ModelHandle.provider_client handle)).
Qed.

Lemma embed_not_implemented_is_final_witness :
  ModelHandle.embed Example2.always_throttling
    (ModelHandle.mk (Example2.selection_of Example2.embedder)
       (Client Gemini "titan-embed" ∅) Example2.table)
    "ping" []
  = (Raise (Exc NotImplementedError "Embeddings not implemented for Gemini"),
     [EvCall (Call (Client Gemini "titan-embed" ∅) OpEmbed (Text "ping"))
        (Raise (Exc NotImplementedError
                  "Embeddings not implemented for Gemini"))]).
Proof.
  apply (embed_not_implemented_is_final Example2.always_throttling
           (ModelHandle.mk (Example2.selection_of Example2.embedder)
              (Client Gemini "titan-embed" ∅) Example2.table)
           "ping" []).
  - reflexivity.
  - discriminate.
Defined.

(** X15. The classification of an error looks at its message only, and
    without regard to case: a message in which one of the four keywords
    occurs, in any mix of upper and lower case, is throttling-classified
    whatever the class of the exception is. *)
Theorem throttling_keyword_any_case (cls : exc_class)
    (before keyword after : string) :
  Str.lower keyword ∈ throttling_keywords ->
  _is_throttling_error (Exc cls (before +:+ keyword +:+ after)) = true.
Proof.
  intros Hk. unfold _is_throttling_error. simpl exc_str.
  apply existsb_exists. exists (Str.lower keyword).
  split; [by apply list_elem_of_In|].
  apply contains_spec, occurs_in_lower. by exists before, after.
Qed.

Lemma throttling_keyword_any_case_witness :
  _is_throttling_error
    (Exc TypeError "HTTP 429: Too Many Requests, slow down") = true.
Proof.
  apply (throttling_keyword_any_case TypeError "HTTP 429: "
           "Too Many Requests" ", slow down").
  apply list_elem_of_In. right; right; left. reflexivity.
Defined.

(** ** The requests of the clients *)

Lemma bedrock_collect_all (messages : list message)
    (turns : list Converse.turn) (prompts : list string) :
  fold_left bedrock_collect messages (turns, prompts)
  = (turns ++ map (fun m => Converse.Turn (role m) (content m))
                (filter (fun m => role m <> "system") messages),
     prompts ++ map content (filter (fun m => role m = "system") messages)).
Proof.
  revert turns prompts.
  induction messages as [|m messages IH]; intros turns prompts.
  - by rewrite !filter_nil, !app_nil_r.
  - simpl. rewrite !filter_cons.
    destruct (String.eqb_spec (role m) "system") as [Hsys|Hsys].
    + rewrite IH.
      rewrite (decide_True (P := role m = "system")) by done.
      rewrite (decide_False (P := role m <> "system"))
        by (intros Hno; by apply Hno).
      simpl. by rewrite <- app_assoc.
    + rewrite IH.
      rewrite (decide_False (P := role m = "system")) by done.
      rewrite (decide_True (P := role m <> "system")) by done.
      simpl. by rewrite <- app_assoc.
Qed.

Lemma filter_split_length {A} (P : A -> Prop) `{!forall x, Decision (P x)}
    (l : list A) :
  (List.length (filter (fun x => ~ P x) l) + List.length (filter P l) = List.length l)%nat.
Proof.
  induction l as [|x l IH]; [done|]. rewrite !filter_cons.
  destruct (decide (P x)).
  - rewrite decide_False by auto. simpl. lia.
  - rewrite decide_True by auto. simpl. lia.
Qed.

Lemma filter_none {A} (P : A -> Prop) `{!forall x, Decision (P x)}
    (l : list A) :
  filter P l = [] <-> Forall (fun x => ~ P x) l.
Proof.
  induction l as [|x l IH]; [by rewrite filter_nil|]. rewrite filter_cons.
  destruct (decide (P x)).
  - split; [done|]. by inversion 1.
  - rewrite IH. split; [by constructor|by inversion 1].
Qed.

(** X16. The Bedrock client loses no turn of a conversation and keeps the
    order: the turns whose role is "system" go, in order, to the [system]
    blocks of the request, all other turns go, in order and with their own
    role, to its [messages]; [system] is absent exactly when the
    conversation has no system turn. *)
Theorem bedrock_splits_conversation (self : client)
    (messages : list message) :
  Converse.messages (bedrock_chat_request self messages)
  = map (fun m => Converse.Turn (role m) (content m))
      (filter (fun m => role m <> "system") messages) /\
  default [] (Converse.system (bedrock_chat_request self messages))
  = map content (filter (fun m => role m = "system") messages) /\
  (Converse.system (bedrock_chat_request self messages) = None <->
   Forall (fun m => role m <> "system") messages) /\
  (List.length (Converse.messages (bedrock_chat_request self messages))
   + List.length (default [] (Converse.system (bedrock_chat_request self messages)))
   = List.length messages)%nat.
Proof.
  unfold bedrock_chat_request. rewrite bedrock_collect_all. simpl.
  pose proof (filter_none (fun m => role m = "system") messages) as Hnone.
  pose proof (filter_split_length (fun m => role m = "system") messages)
    as Hlen.
  destruct (filter (fun m => role m = "system") messages) as [|p prompts];
    simpl in *.
  - split; [done|]. split; [done|]. split; [by rewrite <- Hnone|].
    rewrite length_map. lia.
  - split; [done|]. split; [done|]. split.
    + split; [done|]. intros Hno. by apply Hnone in Hno.
    + rewrite !length_map. lia.
Qed.

Lemma anthropic_collect_all (messages kept : list message) :
  fold_left anthropic_collect messages kept
  = kept ++ filter (fun m => role m = "user" \/ role m = "assistant") messages.
Proof.
  revert kept. induction messages as [|[r c] messages IH]; intros kept.
  - by rewrite filter_nil, app_nil_r.
  - simpl. rewrite filter_cons. unfold anthropic_collect at 2. simpl.
    destruct (String.eqb_spec r "user") as [->|Hu].
    + rewrite IH, decide_True by auto. by rewrite <- app_assoc.
    + destruct (String.eqb_spec r "assistant") as [->|Ha].
      * rewrite IH, decide_True by auto. by rewrite <- app_assoc.
      * rewrite IH, decide_False by (simpl; intuition). done.
Qed.

(** X17. The Anthropic client sends the user and assistant turns of a
    conversation, unchanged and in order, and drops every other turn
    without a word: no turn with another role, a system turn for one,
    reaches the request. *)
Theorem anthropic_keeps_two_roles (self : client) (messages : list message) :
  ClaudeRequest.messages (anthropic_chat_request self messages)
  = filter (fun m => role m = "user" \/ role m = "assistant") messages /\
  (forall m, m ∈ ClaudeRequest.messages (anthropic_chat_request self messages)
             <-> m ∈ messages /\ (role m = "user" \/ role m = "assistant")) /\
  (List.length (ClaudeRequest.messages (anthropic_chat_request self messages))
   <= List.length messages)%nat.
Proof.
  unfold anthropic_chat_request. simpl. rewrite anthropic_collect_all. simpl.
  split; [done|]. split.
  - intros m. rewrite list_elem_of_filter. tauto.
  - apply length_filter.
Qed.

Lemma append_nil_right (s : string) : s +:+ "" = s.
Proof. induction s as [|c s IH]; [done|]. by rewrite append_cons, IH. Qed.

Lemma append_assoc (s t u : string) : (s +:+ t) +:+ u = s +:+ (t +:+ u).
Proof. induction s as [|c s IH]; [done|]. by rewrite !append_cons, IH. Qed.

Lemma occurs_in_join (sep part : string) (parts : list string) :
  part ∈ parts -> occurs_in part (join sep parts).
Proof.
  induction parts as [|p parts IH]; [by inversion 1|].
  intros Hin. apply elem_of_cons in Hin as [->|Hin].
  - destruct parts as [|q parts].
    + exists "", "". simpl. by rewrite append_nil_right.
    + by exists "", (sep +:+ join sep (q :: parts)).
  - destruct (IH Hin) as (pre & post & Hjoin).
    destruct parts as [|q parts]; [by inversion Hin|].
    exists (p +:+ sep +:+ pre), post.
    change (join sep (p :: q :: parts))
      with (p +:+ sep +:+ join sep (q :: parts)).
    by rewrite Hjoin, !append_assoc.
Qed.

(** X18. The Gemini client flattens a conversation into one prompt in which
    every turn is present as ["role: content"], the system turns like the
    others; the prompt of the empty conversation is empty. *)
Theorem gemini_keeps_every_turn (self : client) (messages : list message) :
  (forall m, m ∈ messages ->
     occurs_in (role m +:+ ": " +:+ content m)
       (GenerateContent.prompt (gemini_chat_request self messages))) /\
  (messages = [] ->
   GenerateContent.prompt (gemini_chat_request self messages) = "").
Proof.
  split.
  - intros m Hin. simpl. apply occurs_in_join.
    apply list_elem_of_fmap. by exists m.
  - by intros ->.
Qed.

(** The three clients on one conversation with a system turn: Bedrock
    moves it to [system], Anthropic drops it, Gemini inlines it. *)
Lemma bedrock_splits_conversation_witness :
  Converse.system (bedrock_chat_request (Client Bedrock "nova-lite" ∅) briefing)
  = Some ["Answer in one word."] /\
  Converse.messages (bedrock_chat_request (Client Bedrock "nova-lite" ∅) briefing)
  = [Converse.Turn "user" "Capital of France?";
     Converse.Turn "assistant" "Paris."].
Proof.
  destruct (bedrock_splits_conversation (Client Bedrock "nova-lite" ∅) briefing)
    as (Hturns & _). split; [reflexivity|]. rewrite Hturns. reflexivity.
Defined.

Lemma anthropic_keeps_two_roles_witness :
  ClaudeRequest.messages
    (anthropic_chat_request (Client Anthropic "claude-x" ∅) briefing)
  = [Message "user" "Capital of France?"; Message "assistant" "Paris."].
Proof.
  destruct (anthropic_keeps_two_roles (Client Anthropic "claude-x" ∅) briefing)
    as (Hkept & _). rewrite Hkept. reflexivity.
Defined.

Lemma gemini_keeps_every_turn_witness :
  occurs_in "system: Answer in one word."
    (GenerateContent.prompt
       (gemini_chat_request (Client Gemini "gemini-pro" ∅) briefing)).
Proof.
  apply (proj1 (gemini_keeps_every_turn (Client Gemini "gemini-pro" ∅)
                  briefing) (Message "system" "Answer in one word.")).
  by left.
Defined.

(** What a client of each kind sends as the bound on the length of the
    answer. *)
Lemma sent_max_tokens (self : client) (messages : list message) :
  match client_kind self with
  | Bedrock =>
      Converse.inferenceConfig (bedrock_chat_request self messages)
      !! "maxTokens"
  | Anthropic =>
      Some (ClaudeRequest.max_tokens (anthropic_chat_request self messages))
  | Gemini =>
      GenerateContent.generation_config (gemini_chat_request self messages)
      !! "max_output_tokens"
  end = Some (params_get (client_params self) "max_tokens" (PyInt 4096)).
Proof.
  destruct (client_kind self); [|done|done].
  unfold bedrock_chat_request. destruct (fold_left _ _ _) as [turns prompts].
  simpl. by destruct (negb _).
Qed.

(** X19. From the policy table to the SDK: when a rule wins and a handle is
    built, the [max_tokens] that the client of the handle sends in its
    request, under the name that its provider uses ([maxTokens],
    [max_tokens], [max_output_tokens]), is the override of the rule if it
    has one, else the default of the target if it has one, else 4096. *)
Theorem max_tokens_reaches_request (config : RouterConfig.t)
    (features : FeatureSummary.t) (rule : RoutingRule.t)
    (sel : ModelSelection.t) (self : client) (messages : list message) :
  winner (RouterConfig.rules config) features = Some rule ->
  _select_model_for_features config features = Ok sel ->
  _create_provider_client (ModelSelection.model_config sel)
    (ModelSelection.params sel) = Ok self ->
  match client_kind self with
  | Bedrock =>
      Converse.inferenceConfig (bedrock_chat_request self messages)
      !! "maxTokens"
  | Anthropic =>
      Some (ClaudeRequest.max_tokens (anthropic_chat_request self messages))
  | Gemini =>
      GenerateContent.generation_config (gemini_chat_request self messages)
      !! "max_output_tokens"
  end
  = Some (default (PyInt 4096)
            match RoutingRule.override_params rule !! "max_tokens" with
            | Some v => Some v
            | None =>
                ModelConfig.default_params (ModelSelection.model_config sel)
                !! "max_tokens"
            end).
Proof.
  intros Hw Hsel Hself. rewrite (select_winner _ _ _ Hw) in Hsel.
  destruct (select_by_rule_ok _ _ _ _ Hsel) as (_ & Hparams & _).
  destruct (create_provider_client_ok _ _ _ Hself) as [Hp _].
  rewrite sent_max_tokens, Hp.
  unfold params_get. rewrite Hparams, lookup_union.
  destruct (RoutingRule.override_params rule !! "max_tokens");
    by destruct (ModelConfig.default_params _ !! "max_tokens").
Qed.

Lemma max_tokens_reaches_request_witness :
  Converse.inferenceConfig
    (bedrock_chat_request
       (Client Bedrock "strong-v1"
          {[ "max_tokens" := PyInt 2048; "temperature" := PyFloat 2 (-1) ]})
       Example2.hello)
  !! "maxTokens" = Some (PyInt 2048).
Proof.
  apply (max_tokens_reaches_request Example1.table Example1.request
           Example1.premium_rule
           (ModelSelection.mk Example1.strong
              {[ "max_tokens" := PyInt 2048; "temperature" := PyFloat 2 (-1) ]})
           (Client Bedrock "strong-v1"
              {[ "max_tokens" := PyInt 2048; "temperature" := PyFloat 2 (-1) ]})
           Example2.hello); reflexivity.
Defined.

(** X20. The inference configuration of a Bedrock request has [maxTokens]
    and [temperature] always, and [topP] exactly when "sonnet-4-5" does not
    occur in the model id: for such a model a [top_p] of the client, be it
    a rule's override, is not sent.  It has no other entry. *)
Theorem bedrock_inference_config (self : client) (messages : list message) :
  Converse.inferenceConfig (bedrock_chat_request self messages) !! "maxTokens"
  = Some (params_get (client_params self) "max_tokens" (PyInt 4096)) /\
  Converse.inferenceConfig (bedrock_chat_request self messages) !! "temperature"
  = Some (params_get (client_params self) "temperature" (PyFloat 2 (-1))) /\
  (occurs_in "sonnet-4-5" (client_model_id self) ->
   Converse.inferenceConfig (bedrock_chat_request self messages) !! "topP"
   = None) /\
  (~ occurs_in "sonnet-4-5" (client_model_id self) ->
   Converse.inferenceConfig (bedrock_chat_request self messages) !! "topP"
   = Some (params_get (client_params self) "top_p" (PyFloat 8 (-1)))) /\
  (forall key,
     is_Some (Converse.inferenceConfig (bedrock_chat_request self messages)
              !! key) ->
     key ∈ ["maxTokens"; "temperature"; "topP"]).
Proof.
  unfold bedrock_chat_request. destruct (fold_left _ _ _) as [turns prompts].
  simpl.
  destruct (Str.contains "sonnet-4-5" (client_model_id self)) eqn:Hc; simpl.
  - apply contains_spec in Hc. repeat split; try done.
    intros key [v Hv]. rewrite list_elem_of_In. simpl.
    destruct (decide (key = "maxTokens")) as [->|?]; [by auto|].
    destruct (decide (key = "temperature")) as [->|?]; [by auto|].
    by simplify_map_eq.
  - apply contains_spec_false in Hc. repeat split; try done.
    intros key [v Hv]. rewrite list_elem_of_In. simpl.
    destruct (decide (key = "maxTokens")) as [->|?]; [by auto|].
    destruct (decide (key = "temperature")) as [->|?]; [by auto|].
    destruct (decide (key = "topP")) as [->|?]; [by auto|].
    by simplify_map_eq.
Qed.

Lemma bedrock_inference_config_witness :
  Converse.inferenceConfig
    (bedrock_chat_request
       (Client Bedrock "anthropic.claude-sonnet-4-5-v1"
          {[ "top_p" := PyFloat 5 (-1) ]})
       Example2.hello)
  !! "topP" = None.
Proof.
  apply (bedrock_inference_config
           (Client Bedrock "anthropic.claude-sonnet-4-5-v1"
              {[ "top_p" := PyFloat 5 (-1) ]}) Example2.hello).
  by exists "anthropic.claude-", "-v1".
Defined.

(** ** The configuration loader *)

Lemma add_rule_failed (items : list json) (e : exception) :
  fold_left add_rule items (Failed e) = Failed e.
Proof. by induction items. Qed.

Lemma add_rule_untyped (items : list json) :
  fold_left add_rule items Untyped = Untyped.
Proof. by induction items. Qed.

Lemma add_model_failed (items : list json) (e : exception) :
  fold_left add_model items (Failed e) = Failed e.
Proof. by induction items. Qed.

Lemma add_model_untyped (items : list json) :
  fold_left add_model items Untyped = Untyped.
Proof. by induction items. Qed.

(** The rules that are loaded are the entries of the array, one by one and
    in the order of the array. *)
Lemma load_rules_in_order (items : list json)
    (seen rules : list RoutingRule.t) :
  fold_left add_rule items (Loaded seen) = Loaded rules ->
  exists more,
    rules = seen ++ more /\
    Forall2 (fun rule r => load_rule r = Loaded rule) more items.
Proof.
  revert seen. induction items as [|r items IH]; intros seen.
  - intros [= <-]. exists []. by rewrite app_nil_r.
  - change (fold_left add_rule (r :: items) (Loaded seen))
      with (fold_left add_rule items
              (rule ← load_rule r; Loaded (seen ++ [rule]))).
    destruct (load_rule r) as [rule| |] eqn:Hr; simpl.
    + intros Hrest. destruct (IH _ Hrest) as (more & -> & Hmore).
      exists (rule :: more). split; [by rewrite <- app_assoc|by constructor].
    + by rewrite add_rule_failed.
    + by rewrite add_rule_untyped.
Qed.

(** What a loaded table was built from. *)
Lemma load_config_loaded (models_data rules_data : json)
    (cfg : RouterConfig.t) :
  load_config models_data rules_data = Loaded cfg ->
  load_models models_data = Loaded (RouterConfig.models cfg) /\
  exists d items,
    rules_data = JObj d /\
    get_or d "rules" (JArr []) = JArr items /\
    fold_left add_rule items (Loaded []) = Loaded (RouterConfig.rules cfg).
Proof.
  unfold load_config.
  destruct (load_models models_data) as [models_dict| |]; simpl; try done.
  destruct rules_data as [| | | | | |d]; try done.
  destruct (get_or d "rules" (JArr [])) as [| | | | |items|] eqn:Hitems;
    try done.
  destruct (fold_left add_rule items (Loaded [])) as [rules| |] eqn:Hrules;
    simpl; try done.
  destruct (get_or d "defaults" (JObj ∅)) as [| | | | | |defaults]; try done.
  destruct (as_opt_str (get defaults "chat")) as [chat| |]; simpl; try done.
  destruct (as_opt_str (get defaults "embedding")) as [embedding| |]; simpl;
    try done.
  intros [= <-]. simpl. split; [done|]. exists d, items. by rewrite Hrules.
Qed.

(** X21. The order of the rules is the order of the file: when a table is
    loaded, its list of rules has one rule for each entry of the ["rules"]
    array, the rule that the entry at the same position loads to, and it is
    empty when the document has no ["rules"]. *)
Theorem rules_keep_file_order (models_data : json) (d : gmap string json)
    (cfg : RouterConfig.t) :
  load_config models_data (JObj d) = Loaded cfg ->
  (forall items,
     d !! "rules" = Some (JArr items) ->
     Forall2 (fun rule r => load_rule r = Loaded rule)
       (RouterConfig.rules cfg) items /\
     List.length (RouterConfig.rules cfg) = List.length items) /\
  (d !! "rules" = None -> RouterConfig.rules cfg = []).
Proof.
  intros Hcfg.
  destruct (load_config_loaded _ _ _ Hcfg)
    as (_ & d' & items' & [= <-] & Hitems & Hrules).
  destruct (load_rules_in_order _ _ _ Hrules) as (more & Heq & Hmore).
  simpl in Heq. subst more. unfold get_or in Hitems. split.
  - intros items Hd. rewrite Hd in Hitems. simpl in Hitems.
    injection Hitems as <-. split; [done|]. by eapply Forall2_length.
  - intros Hd. rewrite Hd in Hitems. simpl in Hitems.
    injection Hitems as <-. by inversion Hmore.
Qed.

Lemma rules_keep_file_order_witness :
  exists cfg,
    load_config Example3.models_json Example3.rules_json = Loaded cfg /\
    map RoutingRule.id (RouterConfig.rules cfg)
    = ["premium-deep"; "everything-else"].
Proof.
  destruct (load_config Example3.models_json Example3.rules_json)
    as [cfg| |] eqn:Hcfg; [|by vm_compute in Hcfg|by vm_compute in Hcfg].
  exists cfg. split; [reflexivity|].
  destruct Example3.rules_json as [| | | | | |d] eqn:Hd; try discriminate Hd.
  destruct (rules_keep_file_order Example3.models_json d cfg Hcfg)
    as [Hitems _].
  injection Hd as <-.
  destruct (Hitems _ eq_refl) as [Horder _].
  inversion Horder as [|rule1 r1 rules1 rs1 H1 Hrest1]; subst.
  inversion Hrest1 as [|rule2 r2 rules2 rs2 H2 Hrest2]; subst.
  inversion Hrest2; subst.
  vm_compute in H1. vm_compute in H2.
  injection H1 as <-. injection H2 as <-. reflexivity.
Defined.

Lemma add_model_loaded (models_dict : gmap string ModelConfig.t) (m : json)
    (cfg : ModelConfig.t) :
  load_model m = Loaded cfg ->
  add_model (Loaded models_dict) m
  = Loaded (<[ModelConfig.id cfg := cfg]> models_dict).
Proof. intros Hm. unfold add_model. simpl. by rewrite Hm. Qed.

Lemma add_model_step (models_dict : gmap string ModelConfig.t) (m : json)
    (items : list json) (models : gmap string ModelConfig.t) :
  fold_left add_model (m :: items) (Loaded models_dict) = Loaded models ->
  exists cfg,
    load_model m = Loaded cfg /\
    fold_left add_model items
      (Loaded (<[ModelConfig.id cfg := cfg]> models_dict))
    = Loaded models.
Proof.
  change (fold_left add_model (m :: items) (Loaded models_dict))
    with (fold_left add_model items
            (cfg ← load_model m;
             Loaded (<[ModelConfig.id cfg := cfg]> models_dict))).
  destruct (load_model m) as [cfg| |]; simpl.
  - intros Hrest. by exists cfg.
  - by rewrite add_model_failed.
  - by rewrite add_model_untyped.
Qed.

(** Every model is filed under its own id. *)
Lemma load_models_keys (items : list json)
    (seen models : gmap string ModelConfig.t) :
  map_Forall (fun key cfg => ModelConfig.id cfg = key) seen ->
  fold_left add_model items (Loaded seen) = Loaded models ->
  map_Forall (fun key cfg => ModelConfig.id cfg = key) models.
Proof.
  revert seen. induction items as [|m items IH]; intros seen Hseen.
  - by intros [= <-].
  - intros Hfold. destruct (add_model_step _ _ _ _ Hfold) as (cfg & _ & Hrest).
    apply (IH _ (map_Forall_insert_2 _ _ _ _ eq_refl Hseen) Hrest).
Qed.

(** An entry stays unless a later entry has its id. *)
Lemma load_models_keep (items : list json)
    (seen models : gmap string ModelConfig.t) (key : string)
    (cfg : ModelConfig.t) :
  seen !! key = Some cfg ->
  Forall (fun m => forall later, load_model m = Loaded later ->
                                 ModelConfig.id later <> key) items ->
  fold_left add_model items (Loaded seen) = Loaded models ->
  models !! key = Some cfg.
Proof.
  revert seen. induction items as [|m items IH]; intros seen Hseen Hitems.
  - by intros [= <-].
  - intros Hfold. destruct (add_model_step _ _ _ _ Hfold) as (later & Hm & Hrest).
    inversion Hitems as [|?? Hother Hothers]; subst.
    apply (IH (<[ModelConfig.id later := later]> seen)); [|done|done].
    rewrite lookup_insert_ne; [done|]. by apply Hother.
Qed.

Lemma load_models_prefix (pre post : list json)
    (seen models : gmap string ModelConfig.t) :
  fold_left add_model (pre ++ post) (Loaded seen) = Loaded models ->
  exists middle,
    fold_left add_model pre (Loaded seen) = Loaded middle /\
    fold_left add_model post (Loaded middle) = Loaded models.
Proof.
  rewrite fold_left_app.
  destruct (fold_left add_model pre (Loaded seen)) as [middle| |].
  - intros Hpost. by exists middle.
  - by rewrite add_model_failed.
  - by rewrite add_model_untyped.
Qed.

Lemma load_models_loaded (d : gmap string json)
    (models : gmap string ModelConfig.t) :
  load_models (JObj d) = Loaded models ->
  exists items,
    get_or d "models" (JArr []) = JArr items /\
    fold_left add_model items (Loaded ∅) = Loaded models.
Proof.
  unfold load_models.
  destruct (get_or d "models" (JArr [])) as [| | | | |items|]; try done.
  intros Hfold. by exists items.
Qed.

(** X22. The models of a loaded table are filed under their own ids, and of
    two entries of the file with the same id the later one is kept: an
    entry is in the table, under its id, when no entry after it has that
    id. *)
Theorem models_filed_by_id (d : gmap string json) (rules_data : json)
    (cfg : RouterConfig.t) :
  load_config (JObj d) rules_data = Loaded cfg ->
  (forall key model_cfg,
     RouterConfig.models cfg !! key = Some model_cfg ->
     ModelConfig.id model_cfg = key) /\
  (forall pre m post model_cfg,
     d !! "models" = Some (JArr (pre ++ m :: post)) ->
     load_model m = Loaded model_cfg ->
     Forall (fun m' => forall later, load_model m' = Loaded later ->
               ModelConfig.id later <> ModelConfig.id model_cfg) post ->
     RouterConfig.models cfg !! ModelConfig.id model_cfg = Some model_cfg).
Proof.
  intros Hcfg. destruct (load_config_loaded _ _ _ Hcfg) as (Hmodels & _).
  destruct (load_models_loaded _ _ Hmodels) as (items & Hitems & Hfold).
  split.
  - intros key model_cfg Hlook.
    apply (load_models_keys items ∅ _ (map_Forall_empty _) Hfold key _ Hlook).
  - intros pre m post model_cfg Hd Hm Hpost.
    unfold get_or in Hitems. rewrite Hd in Hitems. simpl in Hitems.
    injection Hitems as <-.
    destruct (load_models_prefix _ _ _ _ Hfold) as (middle & _ & Hrest).
    destruct (add_model_step _ _ _ _ Hrest) as (cfg' & Hm' & Hpost').
    rewrite Hm in Hm'. injection Hm' as <-.
    apply (load_models_keep post _ _ _ _ (lookup_insert_eq _ _ _) Hpost Hpost').
Qed.

Lemma models_filed_by_id_witness :
  exists cfg,
    load_config Example3.models_json Example3.rules_json = Loaded cfg /\
    ModelConfig.model_id <$> RouterConfig.models cfg !! "fast"
    = Some "nova-lite".
Proof.
  destruct (load_config Example3.models_json Example3.rules_json)
    as [cfg| |] eqn:Hcfg; [|by vm_compute in Hcfg|by vm_compute in Hcfg].
  exists cfg. split; [reflexivity|].
  destruct Example3.models_json as [| | | | | |d] eqn:Hd; try discriminate Hd.
  destruct (models_filed_by_id d Example3.rules_json cfg Hcfg) as [_ Hlast].
  injection Hd as <-.
  rewrite (Hlast
             [JObj {[ "id" := JStr "fast"; "provider" := JStr "bedrock";
                      "type" := JStr "chat";
                      "model_id" := JStr "nova-micro" ]};
              JObj {[ "id" := JStr "deep"; "provider" := JStr "anthropic";
                      "type" := JStr "chat"; "model_id" := JStr "claude-x";
                      "max_context_tokens" := JInt 4096;
                      "backup_model_id" := JStr "fast";
                      "default_params" :=
                        JObj {[ "temperature" := JFloat 3 (-1) ]};
                      "retry_policy" := JObj {[ "max_attempts" := JInt 3 ]} ]}]
             (JObj {[ "id" := JStr "fast"; "provider" := JStr "bedrock";
                      "type" := JStr "chat"; "model_id" := JStr "nova-lite" ]})
             []
             (ModelConfig.mk "fast" "bedrock" "chat" "nova-lite" None None
                None None "medium" ∅ None RetryPolicy.default));
    [reflexivity|reflexivity|reflexivity|constructor].
Defined.

Lemma load_models_all_loaded (items : list json)
    (seen : gmap string ModelConfig.t) :
  Forall (fun m => exists cfg, load_model m = Loaded cfg) items ->
  exists models, fold_left add_model items (Loaded seen) = Loaded models.
Proof.
  intros Hitems. revert seen.
  induction Hitems as [|m items [cfg Hm] _ IH]; intros seen.
  - by exists seen.
  - change (fold_left add_model (m :: items) (Loaded seen))
      with (fold_left add_model items (add_model (Loaded seen) m)).
    rewrite (add_model_loaded _ _ _ Hm). apply IH.
Qed.

(** The first of the four required keys that an entry lacks is the one
    that [KeyError] names. *)
Lemma load_model_missing (m : gmap string json)
    (key : string) (before after : list string) :
  m !! "retry_policy" = None
  \/ (exists retry_raw, m !! "retry_policy" = Some (JObj retry_raw)) ->
  ["id"; "provider"; "type"; "model_id"] = before ++ key :: after ->
  Forall (fun k => is_Some (m !! k)) before ->
  m !! key = None ->
  load_model (JObj m) = Failed (Exc KeyError ("'" +:+ key +:+ "'")).
Proof.
  intros Hretry Hkeys Hbefore Hkey. unfold load_model.
  assert (Hraw : exists retry_raw,
             get_or m "retry_policy" (JObj ∅) = JObj retry_raw).
  { unfold get_or. destruct Hretry as [->|[retry_raw ->]]; by eexists. }
  destruct Hraw as [retry_raw ->]. unfold item.
  destruct before as [|k1 [|k2 [|k3 [|k4 before]]]]; simplify_eq/=;
    repeat match goal with
           | H : Forall _ (_ :: _) |- _ =>
               let v := fresh "v" in
               let Hv := fresh "Hv" in
               apply Forall_cons in H as [[v Hv] H]; rewrite Hv
           end; simpl; try by rewrite Hkey.
  by destruct before.
Qed.

(** X23. A model entry that lacks one of the four required keys, ["id"],
    ["provider"], ["type"], ["model_id"], fails the whole load with the
    [KeyError] of the first key it lacks, whatever the entries after it
    and the rules document are: no table is built from the entries that
    were read before it. *)
Theorem missing_key_fails_the_load (d m : gmap string json)
    (pre post : list json) (key : string) (before after : list string)
    (rules_data : json) :
  d !! "models" = Some (JArr (pre ++ JObj m :: post)) ->
  Forall (fun entry => exists cfg, load_model entry = Loaded cfg) pre ->
  m !! "retry_policy" = None
  \/ (exists retry_raw, m !! "retry_policy" = Some (JObj retry_raw)) ->
  ["id"; "provider"; "type"; "model_id"] = before ++ key :: after ->
  Forall (fun k => is_Some (m !! k)) before ->
  m !! key = None ->
  load_config (JObj d) rules_data
  = Failed (Exc KeyError ("'" +:+ key +:+ "'")).
Proof.
  intros Hd Hpre Hretry Hkeys Hbefore Hkey.
  pose proof (load_model_missing m key before after Hretry Hkeys Hbefore Hkey)
    as Hm.
  unfold load_config, load_models, get_or. rewrite Hd. simpl.
  rewrite fold_left_app.
  destruct (load_models_all_loaded pre ∅ Hpre) as [seen ->].
  change (fold_left add_model (JObj m :: post) (Loaded seen))
    with (fold_left add_model post
            (cfg ← load_model (JObj m);
             Loaded (<[ModelConfig.id cfg := cfg]> seen))).
  rewrite Hm. simpl. by rewrite add_model_failed.
Qed.

Lemma missing_key_fails_the_load_witness :
  load_config
    (JObj {[ "models" := JArr [JObj Example3.broken_model] ]})
    Example3.rules_json
  = Failed (Exc KeyError "'provider'").
Proof.
  apply (missing_key_fails_the_load
           {[ "models" := JArr [JObj Example3.broken_model] ]}
           Example3.broken_model [] [] "provider" ["id"] ["type"; "model_id"]
           Example3.rules_json).
  - reflexivity.
  - constructor.
  - by left.
  - reflexivity.
  - repeat constructor. by eexists.
  - reflexivity.
Defined.

(** X24. What an entry that says nothing more than it must loads to: with
    the four required keys and none of the optional ones, a model has no
    limits, no languages or strengths, cost tier "medium", no default
    parameters, no backup, and the retry policy of two attempts 200 ms
    apart, which is also the default of the data model. *)
Theorem bare_model_entry (m : gmap string json)
    (id provider type model_id : string) :
  m !! "id" = Some (JStr id) ->
  m !! "provider" = Some (JStr provider) ->
  m !! "type" = Some (JStr type) ->
  m !! "model_id" = Some (JStr model_id) ->
  Forall (fun key => m !! key = None)
    ["max_context_tokens"; "max_chunk_tokens"; "languages"; "strengths";
     "cost_tier"; "default_params"; "backup_model_id"; "retry_policy"] ->
  load_model (JObj m)
  = Loaded (ModelConfig.mk id provider type model_id None None None None
              "medium" ∅ None RetryPolicy.default).
Proof.
  intros Hid Hprovider Htype Hmodel Hnone.
  repeat match goal with
         | H : Forall _ (_ :: _) |- _ =>
             let Hk := fresh "Hk" in
             apply Forall_cons in H as [Hk H]
         end.
  unfold load_model, get_or, get, item.
  rewrite Hid, Hprovider, Htype, Hmodel, Hk, Hk0, Hk1, Hk2, Hk3, Hk4, Hk5, Hk6.
  reflexivity.
Qed.

Lemma bare_model_entry_witness :
  load_model
    (JObj {[ "id" := JStr "fast"; "provider" := JStr "bedrock";
             "type" := JStr "chat"; "model_id" := JStr "nova-lite" ]})
  = Loaded (ModelConfig.mk "fast" "bedrock" "chat" "nova-lite" None None
              None None "medium" ∅ None (RetryPolicy.mk 2 200)).
Proof.
  apply (bare_model_entry
           {[ "id" := JStr "fast"; "provider" := JStr "bedrock";
              "type" := JStr "chat"; "model_id" := JStr "nova-lite" ]}
           "fast" "bedrock" "chat" "nova-lite");
    try reflexivity.
  repeat constructor.
Defined.

(** Where the condition of a loaded rule comes from. *)
Lemma load_rule_condition (r : gmap string json) (rule : RoutingRule.t) :
  load_rule (JObj r) = Loaded rule ->
  exists cond ctx chunk,
    get_or r "when" (JObj ∅) = JObj cond /\
    range_bounds (get cond "context_tokens") = Loaded ctx /\
    range_bounds (get cond "chunk_tokens") = Loaded chunk /\
    as_opt_str (get cond "task_type")
    = Loaded (RuleCondition.task_type (RoutingRule.when rule)) /\
    as_opt_str (get cond "complexity")
    = Loaded (RuleCondition.complexity (RoutingRule.when rule)) /\
    as_opt_str (get cond "language")
    = Loaded (RuleCondition.language (RoutingRule.when rule)) /\
    as_opt_strs (get cond "tenant_tier")
    = Loaded (RuleCondition.tenant_tiers (RoutingRule.when rule)) /\
    as_range ctx
    = Loaded (RuleCondition.context_tokens_range (RoutingRule.when rule)) /\
    as_range chunk
    = Loaded (RuleCondition.chunk_tokens_range (RoutingRule.when rule)).
Proof.
  unfold load_rule.
  destruct (get_or r "when" (JObj ∅)) as [| | | | | |cond]; try done.
  repeat match goal with
         | |- context [mbind _ ?x] =>
             let H := fresh "Hbind" in
             destruct x eqn:H; simpl; try done
         end.
  intros [= <-]. simpl. by eexists cond, _, _.
Qed.

Lemma get_falsy (cond : gmap string json) (key : string) :
  map_Forall (fun _ v => json_truthy v = false) cond ->
  json_truthy (get cond key) = false.
Proof.
  intros Hcond. unfold get. destruct (cond !! key) as [v|] eqn:Hv; [|done].
  by apply (Hcond key).
Qed.

Lemma falsy_str_unset (v : json) (o : option string) :
  json_truthy v = false -> as_opt_str v = Loaded o -> unset "" o.
Proof.
  destruct v as [| | | |s| |]; simpl; try done.
  - intros _ [= <-] x [? _]. done.
  - intros Hs [= <-] x [[= <-] Hne].
    by destruct (String.eqb_spec s "").
Qed.

Lemma falsy_strs_unset (v : json) (o : option (list string)) :
  json_truthy v = false -> as_opt_strs v = Loaded o -> unset [] o.
Proof.
  destruct v as [| | | | |items|]; simpl; try done.
  - intros _ [= <-] x [? _]. done.
  - destruct items; [|done]. simpl. intros _ [= <-] x [[= <-] Hne]. done.
Qed.

Lemma falsy_range_none (v : json) (bounds : option (json * json))
    (range : option RuleConditionRange.t) :
  json_truthy v = false ->
  range_bounds v = Loaded bounds -> as_range bounds = Loaded range ->
  range = None.
Proof.
  unfold range_bounds. intros ->. intros [= <-]. simpl. by intros [= <-].
Qed.

(** X25. A rule whose condition says nothing is a catch-all: when the
    ["when"] of an entry is absent or holds only values that count as
    false, such as [null], an empty string, an empty list or an empty
    object, the rule it loads to has no field set and matches every
    request. *)
Theorem empty_condition_is_catch_all (r cond : gmap string json)
    (rule : RoutingRule.t) :
  load_rule (JObj r) = Loaded rule ->
  get_or r "when" (JObj ∅) = JObj cond ->
  map_Forall (fun _ v => json_truthy v = false) cond ->
  all_wildcard (RoutingRule.when rule) /\
  forall features, _rule_matches rule features = true.
Proof.
  intros Hrule Hwhen Hcond.
  destruct (load_rule_condition _ _ Hrule)
    as (cond' & ctx & chunk & Hwhen' & Hctx & Hchunk & Hkind & Hcomplexity
        & Hlanguage & Htiers & Hctx' & Hchunk').
  rewrite Hwhen in Hwhen'. injection Hwhen' as <-.
  assert (Hwild : all_wildcard (RoutingRule.when rule)).
  { repeat split.
    - exact (falsy_str_unset _ _ (get_falsy _ _ Hcond) Hkind).
    - exact (falsy_str_unset _ _ (get_falsy _ _ Hcond) Hcomplexity).
    - exact (falsy_str_unset _ _ (get_falsy _ _ Hcond) Hlanguage).
    - exact (falsy_strs_unset _ _ (get_falsy _ _ Hcond) Htiers).
    - exact (falsy_range_none _ _ _ (get_falsy _ _ Hcond) Hctx Hctx').
    - exact (falsy_range_none _ _ _ (get_falsy _ _ Hcond) Hchunk Hchunk'). }
  split; [done|]. intros features. by apply wildcard_matches.
Qed.

Lemma empty_condition_is_catch_all_witness :
  load_rule (JObj Example3.silent_rule) = Loaded Example3.silent_loaded /\
  RuleCondition.task_type (RoutingRule.when Example3.silent_loaded)
  = Some "" /\
  RuleCondition.tenant_tiers (RoutingRule.when Example3.silent_loaded)
  = Some [] /\
  _rule_matches Example3.silent_loaded Example1.request = true.
Proof.
  split; [reflexivity|]. split; [reflexivity|]. split; [reflexivity|].
  apply (empty_condition_is_catch_all Example3.silent_rule
           Example3.silent_when Example3.silent_loaded).
  - reflexivity.
  - reflexivity.
  - unfold Example3.silent_when.
    repeat (apply map_Forall_insert_2; [reflexivity|]).
    apply map_Forall_empty.
Defined.

(** ** The cache of the loader *)

(** X26. The cache of the loader.  Once a table is loaded, every call that
    does not force a reload returns that table without reading, whatever
    has become of the documents; and a load or a forced reload that raises
    an exception leaves the loader as it was, so that the table loaded
    before is still the one that is served. *)
Theorem cache_serves_last_good_table (read : result (json * json))
    (force_reload : bool) (self self' : ConfigLoader.t)
    (outcome : result RouterConfig.t) :
  ConfigLoader.get_config read force_reload self = Some (outcome, self') ->
  (forall cfg,
     outcome = Ok cfg ->
     ConfigLoader._cache self' = Some cfg /\
     forall read',
       ConfigLoader.get_config read' false self' = Some (Ok cfg, self')) /\
  (forall e,
     outcome = Raise e ->
     self' = self /\
     forall cached,
       ConfigLoader._cache self = Some cached ->
       forall read',
         ConfigLoader.get_config read' false self' = Some (Ok cached, self')).
Proof.
  unfold ConfigLoader.get_config. intros Hget.
  assert (Hreload :
            match read with
            | Ok (models_data, rules_data) =>
                match load_config models_data rules_data with
                | Loaded cfg => Some (Ok cfg, ConfigLoader.mk (Some cfg))
                | Failed e => Some (Raise e, self)
                | Untyped => None
                end
            | Raise e => Some (Raise e, self)
            end = Some (outcome, self') ->
            (forall cfg, outcome = Ok cfg ->
                         ConfigLoader._cache self' = Some cfg) /\
            (forall e, outcome = Raise e -> self' = self)).
  { destruct read as [[models_data rules_data]|e].
    - destruct (load_config models_data rules_data) as [cfg|e|];
        intros [= <- <-]; split; try done.
      by intros cfg' [= <-].
    - intros [= <- <-]. by split. }
  assert (Hboth : (forall cfg, outcome = Ok cfg ->
                               ConfigLoader._cache self' = Some cfg) /\
                  (forall e, outcome = Raise e -> self' = self)).
  { destruct (ConfigLoader._cache self) as [cached|] eqn:Hcache;
      [destruct force_reload|]; try by apply Hreload.
    injection Hget as <- <-. split; [|done].
    by intros cfg [= <-]. }
  destruct Hboth as [Hgood Hbad]. split.
  - intros cfg Hout. specialize (Hgood cfg Hout). split; [done|].
    intros read'. by rewrite Hgood.
  - intros e Hout. specialize (Hbad e Hout). split; [done|].
    intros cached Hcached read'. subst self'. by rewrite Hcached.
Qed.

Lemma cache_serves_last_good_table_witness :
  exists cfg,
    load_config Example3.models_json Example3.rules_json = Loaded cfg /\
    ConfigLoader.get_config (Raise (Exc (ProviderError "NoSuchKey") "gone"))
      false (ConfigLoader.mk (Some cfg))
    = Some (Ok cfg, ConfigLoader.mk (Some cfg)) /\
    forall read',
      ConfigLoader.get_config read' false (ConfigLoader.mk (Some cfg))
      = Some (Ok cfg, ConfigLoader.mk (Some cfg)).
Proof.
  destruct (load_config Example3.models_json Example3.rules_json)
    as [cfg| |] eqn:Hcfg; [|by vm_compute in Hcfg|by vm_compute in Hcfg].
  exists cfg. split; [reflexivity|].
  destruct (cache_serves_last_good_table
              (Ok (Example3.models_json, Example3.rules_json)) false
              (ConfigLoader.mk None) (ConfigLoader.mk (Some cfg)) (Ok cfg))
    as [Hgood _].
  - unfold ConfigLoader.get_config. simpl. by rewrite Hcfg.
  - destruct (Hgood cfg eq_refl) as [_ Hserve]. split; [apply Hserve|].
    destruct (cache_serves_last_good_table
                (Raise (Exc (ProviderError "NoSuchKey") "gone")) true
                (ConfigLoader.mk (Some cfg)) (ConfigLoader.mk (Some cfg))
                (Raise (Exc (ProviderError "NoSuchKey") "gone")))
      as [_ Hbad]; [reflexivity|].
    destruct (Hbad _ eq_refl) as [_ Hstill]. exact (Hstill cfg eq_refl).
Defined.

Lemma loaded_rules_split (rules : list RoutingRule.t)
    (pre : list json) (r : json) (post : list json) :
  Forall2 (fun rule entry => load_rule entry = Loaded rule) rules
    (pre ++ r :: post) ->
  exists rules_pre rule rules_post,
    rules = rules_pre ++ rule :: rules_post /\
    Forall2 (fun rule entry => load_rule entry = Loaded rule) rules_pre pre /\
    load_rule r = Loaded rule.
Proof.
  intros Hall.
  apply Forall2_app_inv_r in Hall as (rules_pre & rest & Hpre & Hrest & ->).
  inversion Hrest as [|rule ? rules_post ? Hr _]; subst.
  by exists rules_pre, rule, rules_post.
Qed.

Lemma earlier_entries_do_not_match (rules : list RoutingRule.t)
    (entries : list json) (features : FeatureSummary.t) :
  Forall2 (fun rule entry => load_rule entry = Loaded rule) rules entries ->
  Forall (fun entry => forall earlier, load_rule entry = Loaded earlier ->
                                       _rule_matches earlier features = false)
    entries ->
  Forall (fun rule => _rule_matches rule features = false) rules.
Proof.
  induction 1 as [|rule entry rules entries Hentry _ IH]; [by constructor|].
  intros Hno. apply Forall_cons in Hno as [Hfirst Hno].
  constructor; [by apply Hfirst|by apply IH].
Qed.

(** X27. From the file to the Selector: on a loaded table, the first entry
    of the ["rules"] array whose rule matches a request is the one that
    decides the selection, whatever entries follow it. *)
Theorem first_matching_entry_decides (models_data : json)
    (d : gmap string json) (cfg : RouterConfig.t)
    (pre : list json) (r : json) (post : list json)
    (rule : RoutingRule.t) (features : FeatureSummary.t) :
  load_config models_data (JObj d) = Loaded cfg ->
  d !! "rules" = Some (JArr (pre ++ r :: post)) ->
  load_rule r = Loaded rule ->
  _rule_matches rule features = true ->
  Forall (fun entry => forall earlier, load_rule entry = Loaded earlier ->
                                       _rule_matches earlier features = false)
    pre ->
  _select_model_for_features cfg features = select_by_rule cfg rule features.
Proof.
  intros Hcfg Hd Hr Hmatch Hpre.
  destruct (load_config_loaded _ _ _ Hcfg)
    as (_ & d' & items & [= <-] & Hitems & Hrules).
  unfold get_or in Hitems. rewrite Hd in Hitems. simpl in Hitems.
  injection Hitems as <-.
  destruct (load_rules_in_order _ _ _ Hrules) as (more & Heq & Hmore).
  simpl in Heq. subst more.
  destruct (loaded_rules_split _ _ _ _ Hmore)
    as (rules_pre & rule' & rules_post & Hsplit & Hloaded & Hr').
  rewrite Hr in Hr'. injection Hr' as <-.
  apply select_winner. rewrite Hsplit. apply winner_earliest; [|done].
  by apply (earlier_entries_do_not_match _ pre).
Qed.

Lemma first_matching_entry_decides_witness :
  exists cfg,
    load_config Example3.models_json Example3.rules_json = Loaded cfg /\
    ModelConfig.id <$>
      (ModelSelection.model_config <$>
         match _select_model_for_features cfg
                 (FeatureSummary.mk "chat" 12 "small" "en" "high" 0 "premium")
         with Ok sel => Some sel | Raise _ => None end)
    = Some "deep".
Proof.
  destruct (load_config Example3.models_json Example3.rules_json)
    as [cfg| |] eqn:Hcfg; [|by vm_compute in Hcfg|by vm_compute in Hcfg].
  exists cfg. split; [reflexivity|].
  destruct Example3.rules_json as [| | | | | |d] eqn:Hd; try discriminate Hd.
  injection Hd as <-.
  rewrite (first_matching_entry_decides Example3.models_json _ cfg []
             (JObj {[ "id" := JStr "premium-deep"; "use_model" := JStr "deep";
                      "when" :=
                        JObj {[ "tenant_tier" := JArr [JStr "premium"];
                                "context_tokens" :=
                                  JObj {[ "gte" := JInt 0;
                                          "lt" := JInt 4096 ]} ]};
                      "override_params" :=
                        JObj {[ "max_tokens" := JInt 2048 ]} ]})
             [JObj {[ "id" := JStr "everything-else";
                      "use_model" := JStr "fast" ]}]
             (RoutingRule.mk "premium-deep"
                (RuleCondition.mk None None None (Some ["premium"])
                   (Some (RuleConditionRange.mk (Some 0) (Some 4096))) None)
                "deep" {[ "max_tokens" := PyInt 2048 ]})
             (FeatureSummary.mk "chat" 12 "small" "en" "high" 0 "premium")
             Hcfg);
    [|reflexivity|reflexivity|reflexivity|constructor].
  vm_compute in Hcfg. injection Hcfg as <-. reflexivity.
Defined.
